(** * Metrics aggregation and report-content decision engine

    A shallow embedding of the analysis code of the performance-report
    pipeline:

    - [src/fetchers/fetchdatadogmetrics.js]: [extractByResource] and the
      rate expression of [fetchEndpointMetricsTable], [parseHumanDate],
      [processMetrics] and the grouping of error logs in
      [fetchErrorMetrics];
    - [src/scripts/confluenceReportGenerator.js]: [analyzeRestartTiming],
      [getMainRestartCause], both bodies of [generateSummaryObservations],
      [analyzePerformanceData], [analyzeRestartCauses] and the helpers
      [escapeHtml], [formatEndpoint], [calculateMedian] and
      [calculateAverageLatency].

    JavaScript numbers are idealised as exact rationals extended with
    [NaN] and the two infinities; arithmetic on them is exact. *)

From Stdlib Require Import ZArith QArith Qround Qabs String Ascii List Lia Lqa Permutation Sorted.
From stdpp Require Import gmap strings pretty.
Import ListNotations.

Local Open Scope Z_scope.

(** ** JavaScript numbers *)

Module JsNum.

Inductive num : Type :=
| NaN
| Fin (q : Q)
| Inf (negative : bool).

Definition ofZ (z : Z) : num := Fin (inject_Z z).
Definition ofNat (n : nat) : num := Fin (inject_Z (Z.of_nat n)).

Definition Qgtb (a b : Q) : bool := negb (Qle_bool a b).
Definition Qzerob (a : Q) : bool := Qeq_bool a 0.

(** [a > b]: false as soon as one side is [NaN]. *)
Definition gt (a b : num) : bool :=
  match a, b with
  | NaN, _ | _, NaN => false
  | Fin x, Fin y => Qgtb x y
  | Inf false, Inf false => false
  | Inf false, _ => true
  | Inf true, _ => false
  | Fin _, Inf negative => negative
  end.

(** [a >= b]. *)
Definition ge (a b : num) : bool :=
  match a, b with
  | NaN, _ | _, NaN => false
  | Fin x, Fin y => Qle_bool y x
  | Inf false, _ => true
  | Inf true, Inf true => true
  | Inf true, _ => false
  | Fin _, Inf negative => negative
  end.

Definition add (a b : num) : num :=
  match a, b with
  | NaN, _ | _, NaN => NaN
  | Fin x, Fin y => Fin (x + y)
  | Inf s, Fin _ | Fin _, Inf s => Inf s
  | Inf s, Inf t => if Bool.eqb s t then Inf s else NaN
  end.

Definition neg (a : num) : num :=
  match a with
  | NaN => NaN
  | Fin x => Fin (- x)
  | Inf s => Inf (negb s)
  end.

Definition sub (a b : num) : num := add a (neg b).

Definition Qnegb (a : Q) : bool := Qgtb 0 a.

(** [a / b], with the signed results of IEEE division by zero (a zero
    divisor counts as [+0]). *)
Definition div (a b : num) : num :=
  match a, b with
  | NaN, _ | _, NaN => NaN
  | Fin x, Fin y =>
      if Qzerob y then (if Qzerob x then NaN else Inf (Qnegb x))
      else Fin (x / y)
  | Fin _, Inf _ => Fin 0
  | Inf s, Fin y => Inf (xorb s (Qnegb y))
  | Inf _, Inf _ => NaN
  end.

(** Equality of numbers up to the representation of the rational. *)
Definition numEq (a b : num) : Prop :=
  match a, b with
  | NaN, NaN => True
  | Fin x, Fin y => (x == y)%Q
  | Inf s, Inf t => s = t
  | _, _ => False
  end.

(** Truthiness of a number: [0] and [NaN] are falsy. *)
Definition truthy (a : num) : bool :=
  match a with
  | NaN => false
  | Fin x => negb (Qzerob x)
  | Inf _ => true
  end.

End JsNum.

Import JsNum.

(** ** Outcome of running a piece of JavaScript *)

Inductive error : Type :=
| EmptyInputError
| InvalidWindowError.

Inductive completion (A : Type) : Type :=
| Normal (a : A)
| Throw (e : error).
Arguments Normal {A} a.
Arguments Throw {A} e.

Definition bind {A B : Type} (c : completion A) (k : A -> completion B) : completion B :=
  match c with
  | Normal a => k a
  | Throw e => Throw e
  end.

(** [arr.forEach(cb)] threading the object the callback mutates. *)
Fixpoint forEach {A S : Type} (cb : S -> A -> completion S) (arr : list A) (s : S)
  : completion S :=
  match arr with
  | [] => Normal s
  | a :: rest => bind (cb s a) (forEach cb rest)
  end.

(** ** String primitives used by the code *)

Module JsString.

Fixpoint stripPrefix (p s : string) : option string :=
  match p, s with
  | EmptyString, _ => Some s
  | String a p', String b s' => if Ascii.eqb a b then stripPrefix p' s' else None
  | String _ _, EmptyString => None
  end.

Fixpoint takeWhile (cls : ascii -> bool) (s : string) : string :=
  match s with
  | EmptyString => EmptyString
  | String a s' => if cls a then String a (takeWhile cls s') else EmptyString
  end.

(** First match of the regular expression [key([cls]+)]: the capture group
    of the leftmost position where [key] is followed by at least one
    character of the class. *)
Fixpoint matchAfter (key : string) (cls : ascii -> bool) (s : string) : option string :=
  let here :=
    match stripPrefix key s with
    | Some rest =>
        match takeWhile cls rest with
        | EmptyString => None
        | run => Some run
        end
    | None => None
    end in
  match here with
  | Some run => Some run
  | None =>
      match s with
      | EmptyString => None
      | String _ s' => matchAfter key cls s'
      end
  end.

(** [s.includes(p)]. *)
Fixpoint includes (p s : string) : bool :=
  match stripPrefix p s with
  | Some _ => true
  | None =>
      match s with
      | EmptyString => false
      | String _ s' => includes p s'
      end
  end.

Definition between (lo hi : N) (a : ascii) : bool :=
  let n := N_of_ascii a in (N.leb lo n && N.leb n hi)%bool.

(** The class [\w-]. *)
Definition wordOrDash (a : ascii) : bool :=
  (between 48 57 a || between 65 90 a || between 97 122 a
   || Ascii.eqb a "_" || Ascii.eqb a "-")%bool.

(** The class [^,}]. *)
Definition notCommaBrace (a : ascii) : bool :=
  negb (Ascii.eqb a "," || Ascii.eqb a "}")%bool.

End JsString.

Import JsString.

(** ** fetchdatadogmetrics.js *)

Module Fetcher.

(** A point [[timestamp, value]] of a Datadog point list; [None] is a
    [null] value. *)
Definition point : Type := (Z * option Q)%type.

Record Series : Type := {
  scope : option string;
  pointlist : option (list point)
}.

Record QueryResult : Type := {
  series : option (list Series)
}.

Fixpoint insertAsc (x : Q) (l : list Q) : list Q :=
  match l with
  | [] => [x]
  | y :: l' => if Qle_bool x y then x :: l else y :: insertAsc x l'
  end.

(** [[...values].sort((a, b) => a - b)]: a stable ascending sort. *)
Definition sortAsc (values : list Q) : list Q := fold_right insertAsc [] values.

Definition sumQ (values : list Q) : Q := fold_left Qplus values 0%Q.

(** [Math.floor(sorted.length * 0.95)] and [... * 0.99]. The double
    product rounds to the exact integer whenever [length * pct / 100] is
    one, so the floor agrees with integer division. *)
Definition percentileIndex (pct : nat) (length : nat) : nat := (length * pct / 100)%nat.

(** [values.map(p => p[1]).filter(v => v !== null && v !== undefined)] *)
Definition nonNullValues (points : list point) : list Q :=
  flat_map (fun p => match snd p with Some v => [v] | None => [] end) points.

(** [sorted[index] * 1000]; an index past the end reads [undefined]. *)
Definition percentile (pct : nat) (values : list Q) : num :=
  let sorted := sortAsc values in
  let index := percentileIndex pct (length sorted) in
  match nth_error sorted index with
  | Some v => Fin (v * 1000)
  | None => NaN
  end.

Definition mean (values : list Q) : num :=
  Fin (sumQ values / inject_Z (Z.of_nat (length values))).

Definition aggregate (aggregationType : string) (values : list Q) : num :=
  if String.eqb aggregationType "sum" then Fin (sumQ values)
  else if String.eqb aggregationType "p95" then percentile 95 values
  else if String.eqb aggregationType "p99" then percentile 99 values
  else if String.eqb aggregationType "rate" then mean values
  else mean values.

Definition resourceNameOf (s : Series) : string :=
  match scope s with
  | Some sc =>
      match matchAfter "resource_name:" notCommaBrace sc with
      | Some name => name
      | None => "unknown"
      end
  | None => "unknown"
  end.

(** The callback of [data.series.forEach]. *)
Definition extractSeries (aggregationType : string)
    (byResource : gmap string num) (s : Series) : completion (gmap string num) :=
  let resourceName := resourceNameOf s in
  match pointlist s with
  | Some ((_ :: _) as points) =>
      let values := nonNullValues points in
      if (length values =? 0)%nat then Normal byResource
      else Normal (<[resourceName := aggregate aggregationType values]> byResource)
  | _ => Normal byResource
  end.

Definition extractByResource (data : option QueryResult) (aggregationType : string)
  : completion (gmap string num) :=
  match data with
  | Some {| series := Some ((_ :: _) as ss) |} => forEach (extractSeries aggregationType) ss ∅
  | _ => Normal ∅
  end.

(** [const actualRate = totalTimeSeconds > 0 ? requests / totalTimeSeconds : 0] *)
Definition actualRate (requests totalTimeSeconds : num) : completion num :=
  Normal (if gt totalTimeSeconds (Fin 0) then div requests totalTimeSeconds else Fin 0).




End Fetcher.

(** ** Host built-ins and loosely typed payload values *)

(** A JSON field that may be missing, a number or a string. *)
Inductive jsval : Type :=
| VUndef
| VNum (n : num)
| VStr (s : string).

Definition truthyVal (v : jsval) : bool :=
  match v with
  | VUndef => false
  | VNum n => truthy n
  | VStr EmptyString => false
  | VStr _ => true
  end.

(** [v || 0] *)
Definition orZero (v : jsval) : jsval := if truthyVal v then v else VNum (Fin 0).

(** The built-ins of the JavaScript host which the analysis calls. The
    analysis itself never reads [dateNow]; only the surrounding page
    rendering does. *)
Record Host : Type := {
  parseFloat : jsval -> num;
  parseInt : jsval -> num;
  (** time value of [new Date(x)] *)
  newDate : jsval -> num;
  (** [toLocaleString('en-US', {..., timeZone: 'America/New_York'})], with
      or without the [second] field *)
  toLocaleString : bool -> num -> string;
  toFixed : nat -> num -> string;
  (** conversion of an interpolated value inside a template literal *)
  toStr : jsval -> string;
  (** time value of [new Date()] *)
  dateNow : num
}.

Definition atTime (now : num) (h : Host) : Host :=
  {| parseFloat := parseFloat h; parseInt := parseInt h; newDate := newDate h;
     toLocaleString := toLocaleString h; toFixed := toFixed h; toStr := toStr h;
     dateNow := now |}.

Definition dquote : string := String (ascii_of_nat 34) EmptyString.

(** ** The report payload

    The payload is the parsed JSON the generator is handed. Fields the
    code dereferences without a guard are required here ([data.metrics],
    the three numbers read after [summary.avgCpuPct] is found defined);
    fields it guards are optional. Only the fields the analysis reads are
    kept. *)

Module Metric.
Record t : Type := {
  resource_name : string;
  requests : jsval;
  p95_latency : jsval;
  errors : jsval;
  error_rate : jsval
}.
End Metric.

Module Endpoint.
Record t : Type := {
  resource_name : string;
  requests : option Q;
  p95_latency : option Q;
  errors : jsval;
  error_rate : option Q
}.
End Endpoint.

Module Pod.
Record t : Type := {
  podName : string;
  (** [None] is [null] *)
  restarts : option Z
}.
End Pod.

Module RestartSeries.
Record t : Type := {
  expression : string;
  pointlist : option (list (Z * option Q))
}.
End RestartSeries.

Module RestartsData.
Record t : Type := {
  series : option (list RestartSeries.t);
  from_date : jsval;
  to_date : jsval
}.
End RestartsData.

Module TimeSeries.
Record t : Type := { restarts : option RestartsData.t }.
End TimeSeries.

Module MemoryMetric.
Record t : Type := { podName : string; maxMemory : Q }.
End MemoryMetric.

Module ContainerMetrics.
Record t : Type := { memory : option (list MemoryMetric.t) }.
End ContainerMetrics.

Module Summary.
Record t : Type := {
  avgCpuPct : option Q;
  maxCpuPct : Q;
  avgMemoryPct : Q;
  maxMemoryPct : Q
}.
End Summary.

Module PodMetricsData.
Record t : Type := {
  podMetrics : option (list Pod.t);
  summary : option Summary.t;
  timeSeries : option TimeSeries.t;
  containerMetrics : option ContainerMetrics.t
}.
End PodMetricsData.

Module LogMessage.
Record t : Type := { message : string; count : jsval }.
End LogMessage.

Module LogSummary.
Record t : Type := {
  totalLogErrors : Z;
  topMessages : option (list LogMessage.t)
}.
End LogSummary.

Module ErrorMetrics.
Record t : Type := { logSummary : option LogSummary.t }.
End ErrorMetrics.

Module TimeRange.
Record t : Type := { from : jsval; to : jsval }.
End TimeRange.

Module Payload.
Record t : Type := {
  metrics : list Metric.t;
  endpointMetrics : option (list Endpoint.t);
  timeRange : option TimeRange.t;
  errorMetrics : option ErrorMetrics.t;
  podMetrics : option PodMetricsData.t
}.
End Payload.

(** [data.errorMetrics?.logSummary?.totalLogErrors] *)
Definition logErrorCount (data : Payload.t) : option Z :=
  match Payload.errorMetrics data with
  | Some em =>
      match ErrorMetrics.logSummary em with
      | Some ls => Some (LogSummary.totalLogErrors ls)
      | None => None
      end
  | None => None
  end.

(** [x > 0] for a possibly undefined count. *)
Definition positiveCount (c : option Z) : bool :=
  match c with
  | Some n => 0 <? n
  | None => false
  end.

(** ** confluenceReportGenerator.js *)

Module Generator.

Record RestartTiming : Type := {
  exactTime : string;
  duringWindow : bool
}.

(** Numeric value of a point value in a comparison: [null] counts as 0. *)
Definition numOf (v : option Q) : Q :=
  match v with
  | Some q => q
  | None => 0%Q
  end.

(** Locals of the scanning loop of [analyzeRestartTiming]. *)
Record Scan : Type := {
  restartIncrease : bool;
  latestRestartTime : option Z;
  maxValue : option Q
}.

(** One iteration of [for (let i = 1; i < points.length; i++)]. *)
Definition scanStep (st : Scan) (p : Z * option Q) : Scan :=
  let '(timestamp, value) := p in
  if Qgtb (numOf value) (numOf (maxValue st))
  then {| restartIncrease := true; latestRestartTime := Some timestamp; maxValue := value |}
  else st.

Definition scanPoints (startValue : option Q) (later : list (Z * option Q)) : Scan :=
  fold_left scanStep later
    {| restartIncrease := false; latestRestartTime := None; maxValue := startValue |}.

(** [if (latestRestartTime)]: [null] and the timestamp 0 are falsy. *)
Definition truthyTime (t : option Z) : bool :=
  match t with
  | Some ts => negb (ts =? 0)
  | None => false
  end.

(** No later point exceeds the first value, hence none exceeds the running
    maximum. *)
Definition noIncrease (startValue : option Q) (later : list (Z * option Q)) : Prop :=
  forall p, In p later -> (numOf (snd p) <= numOf startValue)%Q.

(** The point [(t, v)] is the last one whose value exceeds the running
    maximum: [v] exceeds the first value and every value before it, and no
    value after it exceeds [v]. *)
Definition lastIncreaseAt (startValue : option Q) (later : list (Z * option Q))
    (t : Z) (v : option Q) : Prop :=
  exists pre post,
    later = pre ++ (t, v) :: post
    /\ (numOf startValue < numOf v)%Q
    /\ (forall p, In p pre -> (numOf (snd p) < numOf v)%Q)
    /\ (forall p, In p post -> (numOf (snd p) <= numOf v)%Q).

Definition sumRestarts (pods : list Pod.t) : Z :=
  fold_left (fun sum pod => sum + default 0 (Pod.restarts pod)) pods 0.

Section WithHost.

Context (h : Host).

Definition showZ (z : Z) : string := toStr h (VNum (ofZ z)).
Definition showNat (n : nat) : string := toStr h (VNum (ofNat n)).

(** The entry written when the counter rose inside the window. *)
Definition duringEntry (latest : Z) : RestartTiming :=
  let restartDate := newDate h (VNum (ofZ latest)) in
  {| exactTime := toLocaleString h true restartDate +:+ " EST";
     duringWindow := true |}.

(** The entry written when the counter was already positive at the start. *)
Definition beforeEntry (monitoringStart : num) : RestartTiming :=
  {| exactTime := "Before " +:+ toLocaleString h false monitoringStart +:+ " EST";
     duringWindow := false |}.

(** The classification written for one series with a non-empty point
    list, if any. *)
Definition classifyPoints (monitoringStart : num) (points : list (Z * option Q))
  : option RestartTiming :=
  match points with
  | [] => None
  | (_, startValue) :: later =>
      let st := scanPoints startValue later in
      if truthyTime (latestRestartTime st)
      then Some (duringEntry (default 0 (latestRestartTime st)))
      else if Qgtb (numOf startValue) 0 then Some (beforeEntry monitoringStart)
      else None
  end.

(** Body of [for (const series of restartSeries)]. *)
Definition classifySeries (monitoringStart : num)
    (restartTiming : gmap string RestartTiming) (s : RestartSeries.t)
  : gmap string RestartTiming :=
  match matchAfter "pod_name:" wordOrDash (RestartSeries.expression s),
        RestartSeries.pointlist s with
  | Some podName, Some ((_ :: _) as points) =>
      match classifyPoints monitoringStart points with
      | Some entry => <[podName := entry]> restartTiming
      | None => restartTiming
      end
  | _, _ => restartTiming
  end.

(** The object [restartTiming] is used as a map from pod name to entry;
    it is modelled by its own properties (names inherited from
    [Object.prototype] are not pod names of the model). *)
Definition analyzeRestartTiming (podMetricsData : PodMetricsData.t)
  : gmap string RestartTiming :=
  match PodMetricsData.timeSeries podMetricsData with
  | Some ts =>
      match TimeSeries.restarts ts with
      | Some r =>
          match RestartsData.series r with
          | Some restartSeries =>
              let monitoringStart := newDate h (RestartsData.from_date r) in
              fold_left (classifySeries monitoringStart) restartSeries ∅
          | None => ∅
          end
      | None => ∅
      end
  | None => ∅
  end.

(** [allData.podMetrics?.containerMetrics?.memory] *)
Definition memMetricsOf (allData : Payload.t) : option (list MemoryMetric.t) :=
  match Payload.podMetrics allData with
  | Some pm =>
      match PodMetricsData.containerMetrics pm with
      | Some cm => ContainerMetrics.memory cm
      | None => None
      end
  | None => None
  end.

(** The callback of [podsWithRestarts.some] in [getMainRestartCause]. *)
Definition podHasHighMemory (allData : Payload.t) (pod : Pod.t) : bool :=
  match memMetricsOf allData with
  | Some memMetrics =>
      match find (fun m => String.eqb (MemoryMetric.podName m) (Pod.podName pod)) memMetrics with
      | Some podMemData => Qgtb (MemoryMetric.maxMemory podMemData) 90
      | None => false
      end
  | None => false
  end.

Definition msgHighMemory : string :=
  "High memory usage detected - likely OOM (Out of Memory) kills".
Definition msgCorrelated (n : Z) : string :=
  "Correlated with " +:+ showZ n +:+ " application errors - likely application-level failures".
Definition msgFrequent : string :=
  "Frequent restarts suggest health check failures or application instability".
Definition msgMultiple : string :=
  "Multiple pods affected - indicates service-level instability".
Definition msgDefault : string :=
  "Monitor for patterns - may be related to deployment updates or transient issues".

Definition getMainRestartCause (podsWithRestarts : list Pod.t) (allData : Payload.t) : string :=
  let totalRestarts := sumRestarts podsWithRestarts in
  let hasHighErrors := positiveCount (logErrorCount allData) in
  let hasHighMemory := existsb (podHasHighMemory allData) podsWithRestarts in
  if hasHighMemory then msgHighMemory
  else if (hasHighErrors && (1 <? totalRestarts))%bool
       then msgCorrelated (default 0 (logErrorCount allData))
  else if 3 <=? totalRestarts then msgFrequent
  else if (1 <? length podsWithRestarts)%nat then msgMultiple
  else msgDefault.

(** [arr.reduce(f)] without an initial value, on a non-empty array. *)
Definition reduce1 {A : Type} (f : A -> A -> A) (arr : list A) : option A :=
  match arr with
  | [] => None
  | x :: rest => Some (fold_left f rest x)
  end.

Definition positiveRestarts (pod : Pod.t) : bool :=
  match Pod.restarts pod with
  | Some r => (negb (r =? 0) && (0 <? r))%bool
  | None => false
  end.

(** Filter of the first body of [generateSummaryObservations]:
    [!podTiming || !podTiming.exactTime || !podTiming.exactTime.includes('Before')] *)
Definition notBeforeLabel (restartTiming : gmap string RestartTiming) (pod : Pod.t) : bool :=
  match restartTiming !! Pod.podName pod with
  | None => true
  | Some podTiming =>
      match exactTime podTiming with
      | EmptyString => true
      | label => negb (includes "Before" label)
      end
  end.

(** Filter of the second body and of [analyzePerformanceData]:
    [podTiming && podTiming.duringWindow !== false] *)
Definition timedDuringWindow (restartTiming : gmap string RestartTiming) (pod : Pod.t) : bool :=
  match restartTiming !! Pod.podName pod with
  | None => false
  | Some podTiming => negb (Bool.eqb (duringWindow podTiming) false)
  end.

Definition restartObservation
    (keep : gmap string RestartTiming -> Pod.t -> bool) (data : Payload.t) : list string :=
  let '(windowRestarts, restartedPods) :=
    match Payload.podMetrics data with
    | Some pm =>
        match PodMetricsData.podMetrics pm with
        | Some pods =>
            let restartTiming := analyzeRestartTiming pm in
            let validRestarts :=
              List.filter (fun pod => (positiveRestarts pod && keep restartTiming pod)%bool) pods in
            (sumRestarts validRestarts, length validRestarts)
        | None => (0, 0%nat)
        end
    | None => (0, 0%nat)
    end in
  if 0 <? windowRestarts
  then ["Pod Restarts: " +:+ showZ windowRestarts +:+ " restart(s) across "
          +:+ showNat restartedPods +:+ " pod(s) during monitoring window"]
  else [].

Definition worseLatency (worst current : Endpoint.t) : Endpoint.t :=
  if Qgtb (numOf (Endpoint.p95_latency current)) (numOf (Endpoint.p95_latency worst))
  then current else worst.

Definition worseErrorRate (worst current : Endpoint.t) : Endpoint.t :=
  if Qgtb (numOf (Endpoint.error_rate current)) (numOf (Endpoint.error_rate worst))
  then current else worst.

(** [x && x > bound] on a numeric field. *)
Definition above (bound : Q) (x : option Q) : bool :=
  match x with
  | Some q => (negb (Qzerob q) && Qgtb q bound)%bool
  | None => false
  end.

(** [timeRange ? (new Date(timeRange.to) - new Date(timeRange.from)) / (1000 * 60) : 30] *)
Definition timeRangeMinutes (data : Payload.t) : num :=
  match Payload.timeRange data with
  | Some tr =>
      div (sub (newDate h (TimeRange.to tr)) (newDate h (TimeRange.from tr))) (Fin (1000 * 60))
  | None => Fin 30
  end.

Definition throughputText (prefix : string) (totalRequests : num) (data : Payload.t) : string :=
  let minutes := timeRangeMinutes data in
  let avgRate := toFixed h 2 (div totalRequests minutes) in
  prefix +:+ toStr h (VNum totalRequests) +:+ " total requests over "
    +:+ toFixed h 0 minutes +:+ " minutes (avg: " +:+ avgRate +:+ " req/min)".

(** The part of [generateSummaryObservations] after the restart summary,
    which the two bodies share verbatim. *)
Definition endpointObservations (data : Payload.t) : list string :=
  let endpoints := default [] (Payload.endpointMetrics data) in
  let latency :=
    match reduce1 worseLatency
            (List.filter (fun e => above 1000 (Endpoint.p95_latency e)) endpoints) with
    | Some worstEndpoint =>
        ["Performance Issues: High P95 latency ("
           +:+ toFixed h 1 (div (Fin (numOf (Endpoint.p95_latency worstEndpoint))) (Fin 1000))
           +:+ "+ seconds) on " +:+ Endpoint.resource_name worstEndpoint +:+ " endpoint"]
    | None => []
    end in
  let errorRate :=
    match reduce1 worseErrorRate
            (List.filter (fun e => above 0 (Endpoint.error_rate e)) endpoints) with
    | Some worstErrorEndpoint =>
        ["Error Rate: " +:+ toFixed h 2 (Fin (numOf (Endpoint.error_rate worstErrorEndpoint)))
           +:+ "% error rate on " +:+ Endpoint.resource_name worstErrorEndpoint
           +:+ " endpoint with " +:+ toStr h (Endpoint.errors worstErrorEndpoint) +:+ " errors"]
    | None => []
    end in
  let logErrors :=
    if positiveCount (logErrorCount data)
    then ["Application Errors: " +:+ showZ (default 0 (logErrorCount data))
            +:+ " log errors detected during monitoring window"]
    else [] in
  let throughput :=
    let totalRequests :=
      fold_left (fun sum e => (sum + numOf (Endpoint.requests e))%Q) endpoints 0%Q in
    if Qgtb totalRequests 0
    then [throughputText "Throughput: " (Fin totalRequests) data]
    else [] in
  latency ++ errorRate ++ logErrors ++ throughput.

(** First body (lines 590-655). *)
Definition generateSummaryObservations_first (data : Payload.t) : list string :=
  restartObservation notBeforeLabel data ++ endpointObservations data.

(** Second body (lines 657-722), the one the class ends up with. *)
Definition generateSummaryObservations (data : Payload.t) : list string :=
  restartObservation timedDuringWindow data ++ endpointObservations data.

(** *** analyzePerformanceData *)

Inductive Status : Type := good | warning | critical.

(** The three locals [findings], [recommendations] and [overallStatus]. *)
Record Report : Type := {
  findings : list string;
  recommendations : list string;
  overallStatus : Status
}.

Definition pushFinding (text : string) (r : Report) : Report :=
  {| findings := findings r ++ [text];
     recommendations := recommendations r;
     overallStatus := overallStatus r |}.

Definition pushRecommendation (text : string) (r : Report) : Report :=
  {| findings := findings r;
     recommendations := recommendations r ++ [text];
     overallStatus := overallStatus r |}.

Definition setStatus (s : Status) (r : Report) : Report :=
  {| findings := findings r;
     recommendations := recommendations r;
     overallStatus := s |}.

(** [overallStatus = overallStatus === 'good' ? 'warning' : overallStatus] *)
Definition atLeastWarning (r : Report) : Report :=
  setStatus (match overallStatus r with good => warning | s => s end) r.

(** [data.podMetrics.podMetrics.filter(...)] of both restart blocks. *)
Definition podsWithRestarts (pm : PodMetricsData.t) (pods : list Pod.t) : list Pod.t :=
  let restartTiming := analyzeRestartTiming pm in
  List.filter (fun pod => (positiveRestarts pod && timedDuringWindow restartTiming pod)%bool) pods.

(** [data.podMetrics && data.podMetrics.podMetrics] *)
Definition podList (data : Payload.t) : option (PodMetricsData.t * list Pod.t) :=
  match Payload.podMetrics data with
  | Some pm =>
      match PodMetricsData.podMetrics pm with
      | Some pods => Some (pm, pods)
      | None => None
      end
  | None => None
  end.

(** Lines 961-976: pod restarts during the monitoring window. The flag
    [hasRestarts] set there is never read. *)
Definition stepRestartSummary (data : Payload.t) (r : Report) : Report :=
  match podList data with
  | Some (pm, pods) =>
      let restarted := podsWithRestarts pm pods in
      let totalRestarts := sumRestarts restarted in
      if 0 <? totalRestarts then
        let r := pushFinding ("<strong>Pod Restarts:</strong> " +:+ showZ totalRestarts
                                +:+ " total restart(s) across " +:+ showNat (length restarted)
                                +:+ " pod(s)") r in
        setStatus (if 5 <=? totalRestarts then critical else warning) r
      else r
  | None => r
  end.

Definition p95Of (m : Metric.t) : num := parseFloat h (Metric.p95_latency m).

(** Lines 978-996: high P95 latency. The locals [worstEndpoint] and
    [avgP95] are computed there and never read. *)
Definition stepLatency (data : Payload.t) (r : Report) : Report :=
  let highLatencyEndpoints :=
    List.filter (fun m => gt (p95Of m) (Fin 1000)) (Payload.metrics data) in
  if (0 <? length highLatencyEndpoints)%nat then
    let p95Values :=
      String.concat ", "
        (map (fun ep => toFixed h 2 (div (p95Of ep) (Fin 1000)) +:+ "s") highLatencyEndpoints) in
    let endpointNames :=
      String.concat ", "
        (map (fun ep => "<strong>" +:+ Metric.resource_name ep +:+ "</strong>")
           highLatencyEndpoints) in
    let r := pushFinding ("<strong>High P95 Latency Detected:</strong> "
                            +:+ showNat (length highLatencyEndpoints)
                            +:+ " endpoint(s) with P95 > 1s (p95: " +:+ p95Values
                            +:+ "). Endpoints: " +:+ endpointNames) r in
    let r := pushRecommendation
               "Investigate slow endpoints for database query optimization, external API calls, or inefficient algorithms" r in
    setStatus warning r
  else r.

Definition errorsOf (m : Metric.t) : num := parseInt h (orZero (Metric.errors m)).
Definition errorRateOf (m : Metric.t) : num := parseFloat h (orZero (Metric.error_rate m)).

Definition worseMetricErrorRate (worst current : Metric.t) : Metric.t :=
  if gt (errorRateOf current) (errorRateOf worst) then current else worst.

(** Lines 998-1017: endpoint errors. *)
Definition stepEndpointErrors (data : Payload.t) (r : Report) : Report :=
  let errorEndpoints := List.filter (fun m => gt (errorsOf m) (Fin 0)) (Payload.metrics data) in
  if (0 <? length errorEndpoints)%nat then
    let totalEndpointErrors :=
      fold_left (fun sum m => add sum (errorsOf m)) errorEndpoints (Fin 0) in
    let shown := toStr h (VNum totalEndpointErrors) in
    let r := pushFinding ("<strong>Errors Found:</strong> " +:+ shown +:+ " total errors ("
                            +:+ shown +:+ " endpoint errors, 0 trace errors)") r in
    let errorRateEndpoints := List.filter (fun m => gt (errorRateOf m) (Fin 0)) errorEndpoints in
    let r :=
      match reduce1 worseMetricErrorRate errorRateEndpoints with
      | Some worstErrorEndpoint =>
          pushFinding ("<strong>Most Common Error:</strong> "
                         +:+ toFixed h 2 (parseFloat h (Metric.error_rate worstErrorEndpoint))
                         +:+ "% error rate on " +:+ Metric.resource_name worstErrorEndpoint
                         +:+ " endpoint") r
      | None => r
      end in
    atLeastWarning r
  else r.

(** Lines 1019-1029: application log errors. *)
Definition stepLogErrors (data : Payload.t) (r : Report) : Report :=
  match Payload.errorMetrics data with
  | Some em =>
      match ErrorMetrics.logSummary em with
      | Some ls =>
          if 0 <? LogSummary.totalLogErrors ls then
            let r := pushFinding ("<strong>Application Errors:</strong> "
                                    +:+ showZ (LogSummary.totalLogErrors ls)
                                    +:+ " log errors detected during monitoring window") r in
            let r :=
              match LogSummary.topMessages ls with
              | Some (topLogMessage :: _) =>
                  if negb (String.eqb (LogMessage.message topLogMessage) "No message...")
                  then pushFinding ("<strong>Most Common Log Error:</strong> " +:+ dquote
                                      +:+ LogMessage.message topLogMessage +:+ dquote
                                      +:+ " occurred " +:+ toStr h (LogMessage.count topLogMessage)
                                      +:+ " times") r
                  else r
              | _ => r
              end in
            atLeastWarning r
          else r
      | None => r
      end
  | None => r
  end.

Definition requestsOf (m : Metric.t) : num := parseInt h (orZero (Metric.requests m)).

(** Lines 1031-1040: throughput. *)
Definition stepThroughput (data : Payload.t) (r : Report) : Report :=
  if (0 <? length (Payload.metrics data))%nat then
    let totalRequests :=
      fold_left (fun sum m => add sum (requestsOf m)) (Payload.metrics data) (Fin 0) in
    if gt totalRequests (Fin 0)
    then pushFinding (throughputText "<strong>Throughput:</strong> " totalRequests data) r
    else r
  else r.

(** Lines 1090-1109: resource utilisation. *)
Definition stepResources (data : Payload.t) (r : Report) : Report :=
  match Payload.podMetrics data with
  | Some pm =>
      match PodMetricsData.summary pm with
      | Some sm =>
          match Summary.avgCpuPct sm with
          | Some avgCpu =>
              let maxCpu := Summary.maxCpuPct sm in
              let avgMem := Summary.avgMemoryPct sm in
              let maxMem := Summary.maxMemoryPct sm in
              let r := pushFinding ("<strong>Resource Utilization:</strong> CPU: "
                                      +:+ toFixed h 2 (Fin avgCpu) +:+ "% avg, "
                                      +:+ toFixed h 2 (Fin maxCpu) +:+ "% peak | Memory: "
                                      +:+ toFixed h 2 (Fin avgMem) +:+ "% avg, "
                                      +:+ toFixed h 2 (Fin maxMem) +:+ "% peak") r in
              let r :=
                if Qgtb maxCpu 80
                then atLeastWarning
                       (pushRecommendation
                          "CPU usage peaked above 80% - consider increasing CPU limits or horizontal scaling" r)
                else r in
              if Qgtb maxMem 80
              then atLeastWarning
                     (pushRecommendation
                        "Memory usage peaked above 80% - monitor for potential memory pressure and consider increasing limits" r)
              else r
          | None => r
          end
      | None => r
      end
  | None => r
  end.

(** One bullet of [for (const pod of podsWithRestarts)]. *)
Definition restartBullet (restartTiming : gmap string RestartTiming) (pod : Pod.t) : string :=
  let count := default 0 (Pod.restarts pod) in
  let head := "&nbsp;&nbsp;• " +:+ Pod.podName pod +:+ " - " +:+ showZ count
                +:+ " restart" +:+ (if 1 <? count then "s" else "") in
  match restartTiming !! Pod.podName pod with
  | Some timing =>
      match exactTime timing with
      | EmptyString => head +:+ " during monitoring period"
      | label =>
          if duringWindow timing then head +:+ " (At: " +:+ label +:+ ")"
          else head +:+ " during monitoring period"
      end
  | None => head +:+ " during monitoring period"
  end.

(** Lines 1111-1157: restart details, cause, recommendations, severity. *)
Definition stepRestartDetail (data : Payload.t) (r : Report) : Report :=
  match podList data with
  | Some (pm, pods) =>
      let restartTiming := analyzeRestartTiming pm in
      let restarted := podsWithRestarts pm pods in
      let totalRestarts := sumRestarts restarted in
      if 0 <? totalRestarts then
        let r := pushFinding ("<strong>Pod Restarts Detected:</strong> " +:+ showZ totalRestarts
                                +:+ " restart(s) during monitoring window across "
                                +:+ showNat (length restarted) +:+ " pod(s)") r in
        let r := fold_left (fun r pod => pushFinding (restartBullet restartTiming pod) r)
                   restarted r in
        let r :=
          match getMainRestartCause restarted data with
          | EmptyString => r
          | mainCause => pushFinding ("&nbsp;&nbsp;• " +:+ mainCause) r
          end in
        let r :=
          if positiveCount (logErrorCount data)
          then pushRecommendation
                 "<strong>Application errors causing restarts:</strong> Review application logs and implement proper error handling" r
          else r in
        let r :=
          if existsb (fun pod => 3 <=? default 0 (Pod.restarts pod)) restarted
          then pushRecommendation
                 "<strong>Frequent restarts detected:</strong> Check health check configurations and resource limits" r
          else r in
        if 5 <=? totalRestarts then setStatus critical r
        else if 2 <=? totalRestarts then atLeastWarning r
        else r
      else r
  | None => r
  end.

(** Lines 1159-1164: everything is fine. *)
Definition stepAllGood (r : Report) : Report :=
  match overallStatus r with
  | good =>
      pushRecommendation "Establish this test as a baseline for future regression testing"
        (pushRecommendation "Continue monitoring performance trends over time"
           (pushFinding "<strong>✅ All metrics within acceptable thresholds</strong>" r))
  | _ => r
  end.

(** The processing steps of [analyzePerformanceData] in program order. *)
Definition steps (data : Payload.t) : list (Report -> Report) :=
  [ stepRestartSummary data; stepLatency data; stepEndpointErrors data;
    stepLogErrors data; stepThroughput data; stepResources data;
    stepRestartDetail data; stepAllGood ].

Definition initialReport : Report :=
  {| findings := []; recommendations := []; overallStatus := good |}.

Definition analyzePerformanceData (data : Payload.t) : Report :=
  fold_left (fun r step => step r) (steps data) initialReport.

(** The reports at the start and after each step. *)
Fixpoint runFrom (ss : list (Report -> Report)) (r : Report) : list Report :=
  match ss with
  | [] => [r]
  | step :: rest => r :: runFrom rest (step r)
  end.

Definition statusTrace (data : Payload.t) : list Status :=
  map overallStatus (runFrom (steps data) initialReport).

End WithHost.

(** Severity order [good < warning < critical]. *)
Definition rank (s : Status) : nat :=
  match s with
  | good => 0
  | warning => 1
  | critical => 2
  end.

Definition status_le (a b : Status) : Prop := (rank a <= rank b)%nat.

(** *** Rule conditions of the root-cause selector *)

(** [m] is the record [memMetrics.find] returns for [pod]: the first one
    carrying the pod's name. *)
Definition firstMemoryRecord (allData : Payload.t) (pod : Pod.t) (m : MemoryMetric.t) : Prop :=
  exists memMetrics pre post,
    memMetricsOf allData = Some memMetrics
    /\ memMetrics = pre ++ m :: post
    /\ MemoryMetric.podName m = Pod.podName pod
    /\ Forall (fun x => MemoryMetric.podName x <> Pod.podName pod) pre.

Definition ruleHighMemory (pods : list Pod.t) (allData : Payload.t) : Prop :=
  exists pod m,
    In pod pods /\ firstMemoryRecord allData pod m /\ (90 < MemoryMetric.maxMemory m)%Q.

Definition ruleCorrelated (pods : list Pod.t) (allData : Payload.t) (n : Z) : Prop :=
  logErrorCount allData = Some n /\ 0 < n /\ 1 < sumRestarts pods.

Definition ruleFrequent (pods : list Pod.t) : Prop := 3 <= sumRestarts pods.

Definition ruleMultiple (pods : list Pod.t) : Prop := (1 < length pods)%nat.

(** *** Payload surgery used to state frame properties *)








(** [restartedPods] of the restart blocks. *)
Definition inWindowPods (h : Host) (data : Payload.t) : nat :=
  match podList data with
  | Some (pm, pods) => length (podsWithRestarts h pm pods)
  | None => 0%nat
  end.

(** *** Severity triggers of the finding generator *)

(** [overallStatus === 'good' ? 'warning' : overallStatus] on a status. *)
Definition raise (s : Status) : Status :=
  match s with
  | good => warning
  | _ => s
  end.

(** [totalRestarts] of both restart blocks. *)
Definition inWindowRestarts (h : Host) (data : Payload.t) : Z :=
  match podList data with
  | Some (pm, pods) => sumRestarts (podsWithRestarts h pm pods)
  | None => 0
  end.

Definition hasHighLatency (h : Host) (data : Payload.t) : bool :=
  existsb (fun m => gt (p95Of h m) (Fin 1000)) (Payload.metrics data).

Definition hasEndpointErrors (h : Host) (data : Payload.t) : bool :=
  existsb (fun m => gt (errorsOf h m) (Fin 0)) (Payload.metrics data).

Definition hasLogErrors (data : Payload.t) : bool := positiveCount (logErrorCount data).

(** A summary with a defined [avgCpuPct] whose CPU or memory peak exceeds
    80. *)
Definition hasResourcePressure (data : Payload.t) : bool :=
  match Payload.podMetrics data with
  | Some pm =>
      match PodMetricsData.summary pm with
      | Some sm =>
          match Summary.avgCpuPct sm with
          | Some _ => (Qgtb (Summary.maxCpuPct sm) 80 || Qgtb (Summary.maxMemoryPct sm) 80)%bool
          | None => false
          end
      | None => false
      end
  | None => false
  end.

(** The pods both restart blocks count. *)
Definition countedPods (h : Host) (data : Payload.t) : list Pod.t :=
  match podList data with
  | Some (pm, pods) => podsWithRestarts h pm pods
  | None => []
  end.

(** The restart block recommends something: restarts are counted, and
    log errors were found or one counted pod restarted three times or
    more. *)
Definition hasRestartAdvice (h : Host) (data : Payload.t) : bool :=
  ((0 <? inWindowRestarts h data)
   && (hasLogErrors data
       || existsb (fun pod => 3 <=? default 0 (Pod.restarts pod)) (countedPods h data)))%bool.

(** The seven blocks before the closing one, in program order. *)
Definition blocks (h : Host) (data : Payload.t) : list (Report -> Report) :=
  [ stepRestartSummary h data; stepLatency h data; stepEndpointErrors h data;
    stepLogErrors h data; stepThroughput h data; stepResources h data;
    stepRestartDetail h data ].

(** A block only appends: what it adds to the findings and to the
    recommendations is what it adds to the empty report. *)
Definition appendOnly (step : Report -> Report) : Prop :=
  forall r,
    findings (step r) = findings r ++ findings (step initialReport)
    /\ recommendations (step r) = recommendations r ++ recommendations (step initialReport).

(** A block changes the status only when it also adds a finding. *)
Definition justified (step : Report -> Report) : Prop :=
  forall r, overallStatus (step r) <> overallStatus r -> findings (step initialReport) <> [].

Definition allGoodFinding : string :=
  "<strong>✅ All metrics within acceptable thresholds</strong>".

Definition genericRecommendations : list string :=
  [ "Continue monitoring performance trends over time";
    "Establish this test as a baseline for future regression testing" ].

End Generator.

(** ** confluenceReportGenerator.js: helper methods *)

Module Helpers.

Import Generator.

(** [map[m]] of [escapeHtml]; a character outside the map is not matched
    by the character class of the replace and stays. *)
Definition escapeChar (c : ascii) : string :=
  if Ascii.eqb c "&" then "&amp;"
  else if Ascii.eqb c "<" then "&lt;"
  else if Ascii.eqb c ">" then "&gt;"
  else if Ascii.eqb c (ascii_of_nat 34) then "&quot;"
  else if Ascii.eqb c "'" then "&#039;"
  else String c EmptyString.

Fixpoint escapeHtml (text : string) : string :=
  match text with
  | EmptyString => EmptyString
  | String c rest => escapeChar c +:+ escapeHtml rest
  end.

(** [s.replace(/_/g, ' ')] and the like. *)
Fixpoint replaceAllChar (from to : ascii) (s : string) : string :=
  match s with
  | EmptyString => EmptyString
  | String c rest =>
      String (if Ascii.eqb c from then to else c) (replaceAllChar from to rest)
  end.

Definition upperChar (c : ascii) : ascii :=
  if between 97 122 c then ascii_of_N (N_of_ascii c - 32) else c.

Fixpoint toUpperCase (s : string) : string :=
  match s with
  | EmptyString => EmptyString
  | String c rest => String (upperChar c) (toUpperCase rest)
  end.

(** The alternatives of [/^(get|post|patch|delete|put)_/], in order. *)
Definition httpMethods : list string := ["get"; "post"; "patch"; "delete"; "put"].

(** The first alternative that, followed by [_], starts the string, with
    what follows the match. *)
Fixpoint matchMethod (methods : list string) (s : string) : option (string * string) :=
  match methods with
  | [] => None
  | method :: others =>
      match stripPrefix (method +:+ "_") s with
      | Some rest => Some (method, rest)
      | None => matchMethod others s
      end
  end.

(** [s.replace(/^(get|post|patch|delete|put)_/, (match, method) =>
    method.toUpperCase() + ' ')] *)
Definition upperMethod (s : string) : string :=
  match matchMethod httpMethods s with
  | Some (method, rest) => toUpperCase method +:+ " " +:+ rest
  | None => s
  end.

Definition formatEndpoint (resourceName : string) : string :=
  upperMethod (replaceAllChar "_" " " resourceName).

(** [sorted[i]] for an integer index; out of range reads [undefined]. *)
Definition at_ (sorted : list Q) (i : Z) : option Q :=
  if i <? 0 then None else nth_error sorted (Z.to_nat i).

(** Both copies of [calculateMedian] (lines 432 and 1180) have this body. *)
Definition calculateMedian (values : list Q) : num :=
  let sorted := Fetcher.sortAsc values in
  let mid := Z.of_nat (length sorted) / 2 in
  if Z.of_nat (length sorted) mod 2 =? 0 then
    match at_ sorted (mid - 1), at_ sorted mid with
    | Some a, Some b => Fin ((a + b) / 2)
    | _, _ => NaN
    end
  else
    match at_ sorted mid with
    | Some a => Fin a
    | None => NaN
    end.

Module CpuMetric.
Record t : Type := { podName : string; maxCpu : Q }.
End CpuMetric.

Definition defaultAnalysis : string :=
  "Monitor for recurring patterns and correlate with deployment activities".

Section WithHost.

Context (h : Host).

Definition showQ (q : Q) : string := toStr h (VNum (Fin q)).

Definition calculateAverageLatency (metrics : list Metric.t) : string :=
  let sum :=
    fold_left (fun total m => add total (parseFloat h (Metric.p95_latency m)))
      metrics (Fin 0) in
  toFixed h 1 (div sum (ofNat (length metrics))).

(** The record [find] returns for the pod when its peak exceeds the
    bound. *)
Definition memoryHit (allData : Payload.t) (pod : Pod.t) : option MemoryMetric.t :=
  match memMetricsOf allData with
  | Some memMetrics =>
      match find (fun m => String.eqb (MemoryMetric.podName m) (Pod.podName pod)) memMetrics with
      | Some podMemData =>
          if Qgtb (MemoryMetric.maxMemory podMemData) 90 then Some podMemData else None
      | None => None
      end
  | None => None
  end.

Definition cpuHit (cpuMetrics : option (list CpuMetric.t)) (pod : Pod.t)
  : option CpuMetric.t :=
  match cpuMetrics with
  | Some metrics =>
      match find (fun m => String.eqb (CpuMetric.podName m) (Pod.podName pod)) metrics with
      | Some podCpuData => if Qgtb (CpuMetric.maxCpu podCpuData) 95 then Some podCpuData else None
      | None => None
      end
  | None => None
  end.

(** One iteration of [for (const pod of podsWithRestarts)]: the line it
    pushes, if any. *)
Definition podAnalysis (cpuMetrics : option (list CpuMetric.t)) (allData : Payload.t)
    (pod : Pod.t) : option string :=
  let podName := Pod.podName pod in
  let restartCount := default 0 (Pod.restarts pod) in
  match memoryHit allData pod with
  | Some podMemData =>
      Some ("High memory usage (" +:+ showQ (MemoryMetric.maxMemory podMemData) +:+ "%) on "
              +:+ podName +:+ " suggests potential OOM kills")
  | None =>
      match cpuHit cpuMetrics pod with
      | Some podCpuData =>
          Some ("High CPU usage (" +:+ showQ (CpuMetric.maxCpu podCpuData) +:+ "%) on "
                  +:+ podName +:+ " may indicate CPU throttling or resource starvation")
      | None =>
          if (positiveCount (logErrorCount allData) && (1 <? restartCount))%bool then
            Some ("Restarts on " +:+ podName +:+ " correlate with application errors ("
                    +:+ showZ h (default 0 (logErrorCount allData))
                    +:+ " errors), likely application-level failures")
          else if 3 <=? restartCount then
            Some ("Frequent restarts on " +:+ podName
                    +:+ " suggest health check failures or application instability")
          else if restartCount =? 1 then
            Some ("Single restart on " +:+ podName
                    +:+ " - monitor for patterns; may be related to deployment updates or transient issues")
          else None
      end
  end.

(** [analyzeRestartCauses(podsWithRestarts, allData)]; [cpuMetrics] is
    [allData.podMetrics?.containerMetrics?.cpu], which no other function
    reads. *)
Definition analyzeRestartCauses (cpuMetrics : option (list CpuMetric.t))
    (podsWithRestarts : list Pod.t) (allData : Payload.t) : list string :=
  let perPod :=
    flat_map (fun pod => match podAnalysis cpuMetrics allData pod with
                         | Some line => [line]
                         | None => []
                         end) podsWithRestarts in
  let totalRestarts := sumRestarts podsWithRestarts in
  let avgRestartsPerPod := div (ofZ totalRestarts) (ofNat (length podsWithRestarts)) in
  let analyses :=
    if gt avgRestartsPerPod (Fin 2)
    then perPod ++ ["Average " +:+ toFixed h 1 avgRestartsPerPod
                      +:+ " restarts per pod indicates systematic issues requiring investigation"]
    else perPod in
  match analyses with
  | [] => [defaultAnalysis]
  | _ => analyses
  end.

End WithHost.

End Helpers.

(** ** Command-line dates of the fetcher

    Texts are sequences of code units below 256. *)

Module HumanDate.

Definition isDigit (a : ascii) : bool := between 48 57 a.

Definition isLetter (a : ascii) : bool := (between 65 90 a || between 97 122 a)%bool.

(** The class [\s] on code units below 256: tab to carriage return, space
    and no-break space. *)
Definition isSpace (a : ascii) : bool :=
  (between 9 13 a || between 32 32 a || between 160 160 a)%bool.

Definition lowerChar (c : ascii) : ascii :=
  if between 65 90 c then ascii_of_N (N_of_ascii c + 32) else c.

Fixpoint toLowerCase (s : string) : string :=
  match s with
  | EmptyString => EmptyString
  | String c rest => String (lowerChar c) (toLowerCase rest)
  end.

Fixpoint dropWhile (cls : ascii -> bool) (s : string) : string :=
  match s with
  | EmptyString => EmptyString
  | String a s' => if cls a then dropWhile cls s' else s
  end.

(** [parseInt] on a text of decimal digits. *)
Fixpoint parseDigitsFrom (acc : Z) (s : string) : Z :=
  match s with
  | EmptyString => acc
  | String a s' => parseDigitsFrom (acc * 10 + (Z.of_N (N_of_ascii a) - 48)) s'
  end.

Definition parseDigits (s : string) : Z := parseDigitsFrom 0 s.

(** [s.padStart(2, '0')] *)
Definition padStart2 (s : string) : string :=
  match s with
  | EmptyString => "00"
  | String a EmptyString => String "0" s
  | _ => s
  end.

(** The optional group [(am|pm)?] under the flag [i], at the start of the
    text. *)
Definition meridiemAt (s : string) : option string :=
  match s with
  | String a (String b _) =>
      if ((Ascii.eqb (lowerChar a) "a" || Ascii.eqb (lowerChar a) "p")
          && Ascii.eqb (lowerChar b) "m")%bool
      then Some (String a (String b EmptyString))
      else None
  | _ => None
  end.

(** [/(\d{1,2}):(\d{2})\s*(am|pm)?/i] anchored at the start of the text:
    the three groups. *)
Definition timeHere (s : string) : option (string * string * option string) :=
  match s with
  | String a rest1 =>
      if isDigit a then
        let two :=
          match rest1 with
          | String b (String c rest) =>
              if (isDigit b && Ascii.eqb c ":")%bool
              then Some (String a (String b EmptyString), rest)
              else None
          | _ => None
          end in
        let one :=
          match rest1 with
          | String c rest => if Ascii.eqb c ":" then Some (String a EmptyString, rest) else None
          | EmptyString => None
          end in
        match (match two with Some x => Some x | None => one end) with
        | Some (hh, String m1 (String m2 rest)) =>
            if (isDigit m1 && isDigit m2)%bool
            then Some (hh, String m1 (String m2 EmptyString), meridiemAt (dropWhile isSpace rest))
            else None
        | _ => None
        end
      else None
  | EmptyString => None
  end.

(** [dateStr.match(/(\d{1,2}):(\d{2})\s*(am|pm)?/i)]: the leftmost match. *)
Fixpoint timeMatch (s : string) : option (string * string * option string) :=
  match timeHere s with
  | Some groups => Some groups
  | None =>
      match s with
      | EmptyString => None
      | String _ s' => timeMatch s'
      end
  end.

(** [/([A-Za-z]{3})\s+(\d{1,2})/] anchored at the start of the text. *)
Definition dateHere (s : string) : option (string * string) :=
  match s with
  | String l1 (String l2 (String l3 (String sp rest))) =>
      if (isLetter l1 && isLetter l2 && isLetter l3 && isSpace sp)%bool then
        match dropWhile isSpace rest with
        | String d1 rest' =>
            if isDigit d1 then
              let day :=
                match rest' with
                | String d2 _ =>
                    if isDigit d2 then String d1 (String d2 EmptyString)
                    else String d1 EmptyString
                | EmptyString => String d1 EmptyString
                end in
              Some (String l1 (String l2 (String l3 EmptyString)), day)
            else None
        | EmptyString => None
        end
      else None
  | _ => None
  end.

Fixpoint dateMatch (s : string) : option (string * string) :=
  match dateHere s with
  | Some groups => Some groups
  | None =>
      match s with
      | EmptyString => None
      | String _ s' => dateMatch s'
      end
  end.

Definition monthMap : list (string * string) :=
  [ ("jan", "01"); ("feb", "02"); ("mar", "03"); ("apr", "04");
    ("may", "05"); ("jun", "06"); ("jul", "07"); ("aug", "08");
    ("sep", "09"); ("oct", "10"); ("nov", "11"); ("dec", "12") ].

Fixpoint lookupKey (key : string) (table : list (string * string)) : option string :=
  match table with
  | [] => None
  | (k, v) :: rest => if String.eqb k key then Some v else lookupKey key rest
  end.

(** The clock reading [(hours, minutes)] of [parseHumanDate]. *)
Definition clockOf (dateStr : string) : Z * Z :=
  match timeMatch dateStr with
  | Some (h, m, mer) =>
      let hours := parseDigits h in
      let minutes := parseDigits m in
      let meridiem := option_map toLowerCase mer in
      let isPm := match meridiem with Some mm => String.eqb mm "pm" | None => false end in
      let isAm := match meridiem with Some mm => String.eqb mm "am" | None => false end in
      if (isPm && negb (hours =? 12))%bool then (hours + 12, minutes)
      else if (isAm && (hours =? 12))%bool then (0, minutes)
      else (hours, minutes)
  | None => (0, 0)
  end.

(** [currentYear] is [new Date().getFullYear()]. A month name missing from
    [monthMap] is interpolated as [undefined]. *)
Definition parseHumanDate (currentYear : Z) (dateStr : string) : string :=
  if includes "T" dateStr then dateStr
  else
    let '(hours, minutes) := clockOf dateStr in
    match dateMatch dateStr with
    | Some (mon, dayDigits) =>
        let monthNum := default "undefined" (lookupKey (toLowerCase mon) monthMap) in
        let day := padStart2 dayDigits in
        let hr := padStart2 (pretty hours) in
        let min := padStart2 (pretty minutes) in
        pretty currentYear +:+ "-" +:+ monthNum +:+ "-" +:+ day
          +:+ "T" +:+ hr +:+ ":" +:+ min +:+ ":00"
    | None => dateStr
    end.

(** The three-letter month names of the documented input format. *)
Definition monthNames : list string :=
  ["Jan"; "Feb"; "Mar"; "Apr"; "May"; "Jun"; "Jul"; "Aug"; "Sep"; "Oct"; "Nov"; "Dec"].

(** Two decimal places of a number below 100. *)
Definition twoDigits (n : Z) : string :=
  if n <? 10 then "0" +:+ pretty n else pretty n.

(** A date and time in the documented input format, as in
    [Jan 9, 3:00 pm]. *)
Definition humanDate (name : string) (day hour minute : Z) (pm : bool) : string :=
  name +:+ " " +:+ pretty day +:+ ", " +:+ pretty hour +:+ ":" +:+ twoDigits minute
    +:+ " " +:+ (if pm then "pm" else "am").

(** The hour of the 24-hour clock for an hour of the 12-hour clock. *)
Definition hour24 (hour : Z) (pm : bool) : Z := hour mod 12 + (if pm then 12 else 0).

Definition range (lo : Z) (n : nat) : list Z := map (fun i => lo + Z.of_nat i) (seq 0 n).

(** The clock reading of every well-formed time of day is the expected
    one. *)
Definition clockCheck : bool :=
  forallb (fun hour : Z =>
    forallb (fun minute : Z =>
      forallb (fun pm : bool =>
        let tail := pretty hour +:+ ":" +:+ twoDigits minute +:+ " "
                      +:+ (if pm then "pm" else "am") in
        (negb (includes "T" tail)
         && match clockOf tail with
            | (hours, minutes) =>
                String.eqb (padStart2 (pretty hours)) (twoDigits (hour24 hour pm))
                && String.eqb (padStart2 (pretty minutes)) (twoDigits minute)
            end)%bool)
        [true; false])
      (range 0 60))
    (range 1 12).

End HumanDate.

(** ** Grouping of error logs in [fetchErrorMetrics] *)

Module ErrorLogs.

(** The attributes of a log which the grouping reads
    ([log.attributes?.attributes || {}]); a log without attributes has
    none of them. The values are texts. *)
Module Log.
Record t : Type := {
  (** [attributes['error.kind']] *)
  errorKind : option string;
  (** [attributes['error.type']] *)
  errorType : option string;
  message : option string;
  (** [attributes.error?.message] *)
  nestedMessage : option string;
  (** [attributes['error.field']] *)
  field : option string;
  (** [attributes['error.stack']] *)
  errorStack : option string;
  stack : option string;
  host : option string;
  pod_name : option string;
  (** [log.attributes?.timestamp] *)
  timestamp : option string
}.
End Log.

Module Detail.
Record t : Type := {
  timestamp : option string;
  errorType : string;
  message : string;
  field : option string;
  stack : option string;
  host : option string;
  pod : option string
}.
End Detail.

(** [a || b] on optional texts: a missing or empty text is falsy. *)
Definition orElse (a b : option string) : option string :=
  match a with
  | Some (String _ _) => a
  | _ => b
  end.

(** [a || null] *)
Definition orNull (a : option string) : option string := orElse a None.

(** [a || fallback] with a truthy fallback. *)
Definition orText (a : option string) (fallback : string) : string :=
  match a with
  | Some (String c rest) => String c rest
  | _ => fallback
  end.

(** [s.substring(0, n)] *)
Fixpoint substring0 (n : nat) (s : string) : string :=
  match n, s with
  | S n', String c rest => String c (substring0 n' rest)
  | _, _ => EmptyString
  end.

(** An object used as a counter table: its own properties in creation
    order. *)
Definition Counts : Type := list (string * Z).

Fixpoint getCount (key : string) (o : Counts) : option Z :=
  match o with
  | [] => None
  | (k, v) :: rest => if String.eqb k key then Some v else getCount key rest
  end.

Fixpoint setCount (key : string) (v : Z) (o : Counts) : Counts :=
  match o with
  | [] => [(key, v)]
  | (k, x) :: rest =>
      if String.eqb k key then (k, v) :: rest else (k, x) :: setCount key v rest
  end.

(** Names every object inherits from [Object.prototype]. Reading one of
    them from an empty table yields a function, not [undefined], so a
    count kept under such a name is not a number: these keys are outside
    the model. *)
Definition prototypeNames : list string :=
  [ "constructor"; "hasOwnProperty"; "isPrototypeOf"; "propertyIsEnumerable";
    "toLocaleString"; "toString"; "valueOf"; "__proto__";
    "__defineGetter__"; "__defineSetter__"; "__lookupGetter__"; "__lookupSetter__" ].

Definition inherited (key : string) : bool := existsb (String.eqb key) prototypeNames.

(** [table[key] = (table[key] || 0) + 1] *)
Definition bump (key : string) (o : Counts) : option Counts :=
  if inherited key then None
  else Some (setCount key (default 0 (getCount key o) + 1) o).

(** The value of a key that is an array index: a canonical decimal
    numeral below [2^32 - 1]. *)
Definition allDigits (s : string) : bool :=
  forallb (between 48 57) (list_ascii_of_string s).

Definition digitsValue (s : string) : N :=
  fold_left (fun acc a => (acc * 10 + (N_of_ascii a - 48))%N) (list_ascii_of_string s) 0%N.

Definition arrayIndex (key : string) : option N :=
  match key with
  | EmptyString => None
  | String c rest =>
      if (allDigits key && (negb (Ascii.eqb c "0") || String.eqb rest EmptyString)
          && (String.length key <=? 10)%nat && (digitsValue key <? 4294967295)%N)%bool
      then Some (digitsValue key)
      else None
  end.

Fixpoint insertIndex (e : N * (string * Z)) (sorted : list (N * (string * Z)))
  : list (N * (string * Z)) :=
  match sorted with
  | [] => [e]
  | x :: rest => if (fst e <? fst x)%N then e :: sorted else x :: insertIndex e rest
  end.

(** [Object.entries(table)]: the array-index keys in ascending numeric
    order, then the other keys in creation order. *)
Definition entries (o : Counts) : list (string * Z) :=
  let indexed :=
    omap (fun e => match arrayIndex (fst e) with
                   | Some i => Some (i, e)
                   | None => None
                   end) o in
  let named := List.filter (fun e => match arrayIndex (fst e) with
                                     | Some _ => false
                                     | None => true
                                     end) o in
  map snd (fold_left (fun sorted e => insertIndex e sorted) indexed []) ++ named.

(** [arr.sort((a, b) => b.errorCount - a.errorCount)]: the sort is
    stable, so entries of equal count keep their order. *)
Fixpoint insertDesc (e : string * Z) (sorted : list (string * Z)) : list (string * Z) :=
  match sorted with
  | [] => [e]
  | x :: rest => if snd x <? snd e then e :: sorted else x :: insertDesc e rest
  end.

Definition sortDesc (arr : list (string * Z)) : list (string * Z) :=
  fold_left (fun sorted e => insertDesc e sorted) arr [].

(** The three accumulators of [logs.forEach]. *)
Record Groups : Type := {
  logErrorsByType : Counts;
  logErrorsByMessage : Counts;
  logErrorDetails : list Detail.t
}.

Definition typeOf (log : Log.t) : string :=
  orText (orElse (Log.errorKind log) (Log.errorType log)) "Unknown".

Definition messageOf (log : Log.t) : string :=
  orText (orElse (Log.message log) (Log.nestedMessage log)) "No message".

(** Body of [logs.forEach(log => ...)]. *)
Definition groupLog (g : Groups) (log : Log.t) : option Groups :=
  let errorType := typeOf log in
  let errorMessage := messageOf log in
  match bump errorType (logErrorsByType g) with
  | Some byType =>
      let shortMessage := substring0 100 errorMessage in
      match bump shortMessage (logErrorsByMessage g) with
      | Some byMessage =>
          Some {| logErrorsByType := byType;
                  logErrorsByMessage := byMessage;
                  logErrorDetails :=
                    logErrorDetails g
                      ++ [{| Detail.timestamp := Log.timestamp log;
                             Detail.errorType := errorType;
                             Detail.message := errorMessage;
                             Detail.field := orNull (Log.field log);
                             Detail.stack := orElse (Log.errorStack log) (orNull (Log.stack log));
                             Detail.host := orNull (Log.host log);
                             Detail.pod := orNull (Log.pod_name log) |}] |}
      | None => None
      end
  | None => None
  end.

Fixpoint groupLogs (logs : list Log.t) (g : Groups) : option Groups :=
  match logs with
  | [] => Some g
  | log :: rest =>
      match groupLog g log with
      | Some g' => groupLogs rest g'
      | None => None
      end
  end.

(** The log part of the result written to the report file. *)
Record LogReport : Type := {
  totalLogErrors : Z;
  errorsByType : list (string * Z);
  (** top 20 messages *)
  errorsByMessage : list (string * Z);
  (** first 100 log errors *)
  details : list Detail.t
}.

Definition logReport (logs : list Log.t) : option LogReport :=
  match groupLogs logs {| logErrorsByType := []; logErrorsByMessage := [];
                          logErrorDetails := [] |} with
  | Some g =>
      let logErrorsByTypeArray := sortDesc (entries (logErrorsByType g)) in
      let logErrorsByMessageArray := sortDesc (entries (logErrorsByMessage g)) in
      Some {| totalLogErrors := Z.of_nat (length logs);
              errorsByType := logErrorsByTypeArray;
              errorsByMessage := firstn 20 logErrorsByMessageArray;
              details := firstn 100 (logErrorDetails g) |}
  | None => None
  end.

Definition sumCounts (arr : list (string * Z)) : Z :=
  fold_right (fun e acc => snd e + acc) 0 arr.

(** The log stays inside the model. *)
Definition plainKeys (log : Log.t) : Prop :=
  inherited (typeOf log) = false /\ inherited (substring0 100 (messageOf log)) = false.

(** The most frequent entry first. *)
Definition descending : list (string * Z) -> Prop :=
  StronglySorted (fun a b => snd b <= snd a).

End ErrorLogs.

(** ** Container metrics: [processMetrics] *)

Module Containers.

Import Fetcher.

Inductive jsError : Type :=
| TypeError
| RangeError.

Inductive outcome (A : Type) : Type :=
| Returned (a : A)
| Raised (e : jsError).
Arguments Returned {A} a.
Arguments Raised {A} e.

Definition andThen {A B : Type} (c : outcome A) (k : A -> outcome B) : outcome B :=
  match c with
  | Returned a => k a
  | Raised e => Raised e
  end.

Fixpoint forEachSeries {A S : Type} (cb : S -> A -> outcome S) (arr : list A) (s : S)
  : outcome S :=
  match arr with
  | [] => Returned s
  | a :: rest => andThen (cb s a) (forEachSeries cb rest)
  end.

(** [a * b] *)
Definition mul (a b : num) : num :=
  match a, b with
  | NaN, _ | _, NaN => NaN
  | Fin x, Fin y => Fin (x * y)
  | Inf s, Fin y | Fin y, Inf s => if Qzerob y then NaN else Inf (xorb s (Qnegb y))
  | Inf s, Inf t => Inf (xorb s t)
  end.

(** [Math.round]: the nearest integer, a half rounded up. *)
Definition round (a : num) : num :=
  match a with
  | Fin x => Fin (inject_Z (Qfloor (x + (1 # 2))))
  | _ => a
  end.

(** [Math.max(...values)] *)
Definition maxOf (values : list Q) : num :=
  match values with
  | [] => Inf true
  | v :: rest => Fin (fold_left (fun m x => if Qle_bool m x then x else m) rest v)
  end.

(** [values.reduce((sum, v) => sum + v, 0) / values.length] *)
Definition average (values : list Q) : num :=
  div (Fin (sumQ values)) (ofNat (length values)).

(** [series.pointlist.map(p => p[1]).filter(v => v != null)]; a series
    without [pointlist] raises a [TypeError]. *)
Definition valuesOf (s : Series) : outcome (list Q) :=
  match pointlist s with
  | Some points => Returned (nonNullValues points)
  | None => Raised TypeError
  end.

(** [series.scope.match(/pod_name:([^,}]+)/)?.[1] || 'unknown'] *)
Definition podNameOf (s : Series) : outcome string :=
  match scope s with
  | Some sc => Returned (default "unknown" (matchAfter "pod_name:" notCommaBrace sc))
  | None => Raised TypeError
  end.

(** An entry of [podMap]. The entries the restart block creates lack the
    percentage and limit fields ([None]). *)
Module PodEntry.
Record t : Type := {
  podName : string;
  avgCpu : num;
  maxCpu : num;
  avgCpuPct : option num;
  maxCpuPct : option num;
  avgMemory : num;
  maxMemory : num;
  avgMemoryPct : option num;
  maxMemoryPct : option num;
  restarts : num;
  cpuLimit : option num;
  memoryLimit : option num
}.
End PodEntry.

Definition zero : num := Fin 0.

(** The entry the resource blocks create. *)
Definition freshEntry (name : string) : PodEntry.t :=
  {| PodEntry.podName := name;
     PodEntry.avgCpu := zero; PodEntry.maxCpu := zero;
     PodEntry.avgCpuPct := Some zero; PodEntry.maxCpuPct := Some zero;
     PodEntry.avgMemory := zero; PodEntry.maxMemory := zero;
     PodEntry.avgMemoryPct := Some zero; PodEntry.maxMemoryPct := Some zero;
     PodEntry.restarts := zero;
     PodEntry.cpuLimit := Some zero; PodEntry.memoryLimit := Some zero |}.

(** The entry the restart block creates. *)
Definition bareEntry (name : string) : PodEntry.t :=
  {| PodEntry.podName := name;
     PodEntry.avgCpu := zero; PodEntry.maxCpu := zero;
     PodEntry.avgCpuPct := None; PodEntry.maxCpuPct := None;
     PodEntry.avgMemory := zero; PodEntry.maxMemory := zero;
     PodEntry.avgMemoryPct := None; PodEntry.maxMemoryPct := None;
     PodEntry.restarts := zero;
     PodEntry.cpuLimit := None; PodEntry.memoryLimit := None |}.

(** [podMap]: the entries in insertion order. *)
Definition PodMap : Type := list PodEntry.t.

Definition has (name : string) (m : PodMap) : bool :=
  existsb (fun e => String.eqb (PodEntry.podName e) name) m.

(** [if (!podMap.has(name)) podMap.set(name, fresh); update(podMap.get(name))] *)
Fixpoint updateIn (name : string) (update : PodEntry.t -> PodEntry.t) (m : PodMap) : PodMap :=
  match m with
  | [] => []
  | e :: rest =>
      if String.eqb (PodEntry.podName e) name then update e :: rest
      else e :: updateIn name update rest
  end.

Definition upsert (name : string) (fresh : PodEntry.t) (update : PodEntry.t -> PodEntry.t)
    (m : PodMap) : PodMap :=
  if has name m then updateIn name update m else m ++ [update fresh].

Module Sample.
Record t : Type := {
  timestamp : string;
  podName : string;
  value : num
}.
End Sample.

(** The accumulators of [processMetrics]. *)
Record State : Type := {
  podMap : PodMap;
  cpuSeries : list Sample.t;
  memorySeries : list Sample.t
}.

(** The query results: for each query the [series] of its response, if
    the response has one. *)
Module Results.
Record t : Type := {
  runningContainers : option (list Series);
  pods : option (list Series);
  cpu : option (list Series);
  cpuLimit : option (list Series);
  memoryPct : option (list Series);
  memoryLimit : option (list Series);
  restarts : option (list Series)
}.
End Results.

Module Running.
Record t : Type := {
  current : num;
  average : num
}.
End Running.

Section WithClock.

(** [new Date(t).toISOString()] for a time value inside the range of
    dates. *)
Context (isoString : Z -> string).

(** [new Date(point[0]).toISOString()]: outside of 8.64e15 milliseconds
    around the epoch the date is invalid and the call raises. *)
Definition toISOString (t : Z) : outcome string :=
  if (Z.abs t <=? 8640000000000000) then Returned (isoString t) else Raised RangeError.

(** [series.pointlist.forEach(point => target.push({...}))] with the
    value [scale(point[1])]; a [null] value counts as 0. *)
Fixpoint samplesOf (name : string) (scale : num -> num) (points : list point)
  : outcome (list Sample.t) :=
  match points with
  | [] => Returned []
  | (t, v) :: rest =>
      andThen (toISOString t) (fun ts =>
      andThen (samplesOf name scale rest) (fun more =>
      Returned ({| Sample.timestamp := ts; Sample.podName := name;
                   Sample.value := scale (Fin (Generator.numOf v)) |} :: more)))
  end.

Definition billion : num := Fin 1000000000.

(** Body of [results.cpu.series.forEach]. *)
Definition cpuStep (st : State) (s : Series) : outcome State :=
  andThen (podNameOf s) (fun name =>
  andThen (valuesOf s) (fun values =>
  let avg := average values in
  let max := maxOf values in
  let m := upsert name (freshEntry name)
             (fun pod => {| PodEntry.podName := PodEntry.podName pod;
                            PodEntry.avgCpu := div avg billion;
                            PodEntry.maxCpu := div max billion;
                            PodEntry.avgCpuPct := PodEntry.avgCpuPct pod;
                            PodEntry.maxCpuPct := PodEntry.maxCpuPct pod;
                            PodEntry.avgMemory := PodEntry.avgMemory pod;
                            PodEntry.maxMemory := PodEntry.maxMemory pod;
                            PodEntry.avgMemoryPct := PodEntry.avgMemoryPct pod;
                            PodEntry.maxMemoryPct := PodEntry.maxMemoryPct pod;
                            PodEntry.restarts := PodEntry.restarts pod;
                            PodEntry.cpuLimit := PodEntry.cpuLimit pod;
                            PodEntry.memoryLimit := PodEntry.memoryLimit pod |})
             (podMap st) in
  andThen (samplesOf name (fun v => div v billion) (default [] (pointlist s))) (fun samples =>
  Returned {| podMap := m;
              cpuSeries := cpuSeries st ++ samples;
              memorySeries := memorySeries st |}))).

(** Body of [results.cpuLimit.series.forEach]. *)
Definition cpuLimitStep (st : State) (s : Series) : outcome State :=
  andThen (podNameOf s) (fun name =>
  andThen (valuesOf s) (fun values =>
  let limit := average values in
  Returned {| podMap :=
                upsert name (freshEntry name)
                  (fun pod => {| PodEntry.podName := PodEntry.podName pod;
                                 PodEntry.avgCpu := PodEntry.avgCpu pod;
                                 PodEntry.maxCpu := PodEntry.maxCpu pod;
                                 PodEntry.avgCpuPct := PodEntry.avgCpuPct pod;
                                 PodEntry.maxCpuPct := PodEntry.maxCpuPct pod;
                                 PodEntry.avgMemory := PodEntry.avgMemory pod;
                                 PodEntry.maxMemory := PodEntry.maxMemory pod;
                                 PodEntry.avgMemoryPct := PodEntry.avgMemoryPct pod;
                                 PodEntry.maxMemoryPct := PodEntry.maxMemoryPct pod;
                                 PodEntry.restarts := PodEntry.restarts pod;
                                 PodEntry.cpuLimit := Some limit;
                                 PodEntry.memoryLimit := PodEntry.memoryLimit pod |})
                  (podMap st);
              cpuSeries := cpuSeries st;
              memorySeries := memorySeries st |})).

Definition hundred : num := Fin 100.

(** Body of [results.memoryPct.series.forEach]. *)
Definition memoryPctStep (st : State) (s : Series) : outcome State :=
  andThen (podNameOf s) (fun name =>
  andThen (valuesOf s) (fun values =>
  let avg := average values in
  let max := maxOf values in
  let m := upsert name (freshEntry name)
             (fun pod => {| PodEntry.podName := PodEntry.podName pod;
                            PodEntry.avgCpu := PodEntry.avgCpu pod;
                            PodEntry.maxCpu := PodEntry.maxCpu pod;
                            PodEntry.avgCpuPct := PodEntry.avgCpuPct pod;
                            PodEntry.maxCpuPct := PodEntry.maxCpuPct pod;
                            PodEntry.avgMemory := PodEntry.avgMemory pod;
                            PodEntry.maxMemory := PodEntry.maxMemory pod;
                            PodEntry.avgMemoryPct := Some (mul avg hundred);
                            PodEntry.maxMemoryPct := Some (mul max hundred);
                            PodEntry.restarts := PodEntry.restarts pod;
                            PodEntry.cpuLimit := PodEntry.cpuLimit pod;
                            PodEntry.memoryLimit := PodEntry.memoryLimit pod |})
             (podMap st) in
  andThen (samplesOf name (fun v => mul v hundred) (default [] (pointlist s))) (fun samples =>
  Returned {| podMap := m;
              cpuSeries := cpuSeries st;
              memorySeries := memorySeries st ++ samples |}))).

(** Body of [results.memoryLimit.series.forEach]. *)
Definition memoryLimitStep (st : State) (s : Series) : outcome State :=
  andThen (podNameOf s) (fun name =>
  andThen (valuesOf s) (fun values =>
  let limit := average values in
  Returned {| podMap :=
                upsert name (freshEntry name)
                  (fun pod => {| PodEntry.podName := PodEntry.podName pod;
                                 PodEntry.avgCpu := PodEntry.avgCpu pod;
                                 PodEntry.maxCpu := PodEntry.maxCpu pod;
                                 PodEntry.avgCpuPct := PodEntry.avgCpuPct pod;
                                 PodEntry.maxCpuPct := PodEntry.maxCpuPct pod;
                                 PodEntry.avgMemory := PodEntry.avgMemory pod;
                                 PodEntry.maxMemory := PodEntry.maxMemory pod;
                                 PodEntry.avgMemoryPct := PodEntry.avgMemoryPct pod;
                                 PodEntry.maxMemoryPct := PodEntry.maxMemoryPct pod;
                                 PodEntry.restarts := PodEntry.restarts pod;
                                 PodEntry.cpuLimit := PodEntry.cpuLimit pod;
                                 PodEntry.memoryLimit := Some limit |})
                  (podMap st);
              cpuSeries := cpuSeries st;
              memorySeries := memorySeries st |})).

(** [limit > 0] on a field that may be missing. *)
Definition positive (limit : option num) : bool :=
  match limit with
  | Some l => gt l zero
  | None => false
  end.

Definition mebi : num := Fin (1024 * 1024).

(** Callback of [podMap.forEach(pod => ...)]: the percentages. *)
Definition percentages (pod : PodEntry.t) : PodEntry.t :=
  let limitOf (l : option num) := default NaN l in
  let pod :=
    if positive (PodEntry.cpuLimit pod) then
      {| PodEntry.podName := PodEntry.podName pod;
         PodEntry.avgCpu := PodEntry.avgCpu pod;
         PodEntry.maxCpu := PodEntry.maxCpu pod;
         PodEntry.avgCpuPct :=
           Some (mul (div (PodEntry.avgCpu pod) (limitOf (PodEntry.cpuLimit pod))) hundred);
         PodEntry.maxCpuPct :=
           Some (mul (div (PodEntry.maxCpu pod) (limitOf (PodEntry.cpuLimit pod))) hundred);
         PodEntry.avgMemory := PodEntry.avgMemory pod;
         PodEntry.maxMemory := PodEntry.maxMemory pod;
         PodEntry.avgMemoryPct := PodEntry.avgMemoryPct pod;
         PodEntry.maxMemoryPct := PodEntry.maxMemoryPct pod;
         PodEntry.restarts := PodEntry.restarts pod;
         PodEntry.cpuLimit := PodEntry.cpuLimit pod;
         PodEntry.memoryLimit := PodEntry.memoryLimit pod |}
    else pod in
  if positive (PodEntry.memoryLimit pod) then
    {| PodEntry.podName := PodEntry.podName pod;
       PodEntry.avgCpu := PodEntry.avgCpu pod;
       PodEntry.maxCpu := PodEntry.maxCpu pod;
       PodEntry.avgCpuPct := PodEntry.avgCpuPct pod;
       PodEntry.maxCpuPct := PodEntry.maxCpuPct pod;
       PodEntry.avgMemory := PodEntry.avgMemory pod;
       PodEntry.maxMemory := PodEntry.maxMemory pod;
       PodEntry.avgMemoryPct :=
         Some (mul (div (mul (mul (PodEntry.avgMemory pod) (Fin 1024)) (Fin 1024))
                      (limitOf (PodEntry.memoryLimit pod))) hundred);
       PodEntry.maxMemoryPct :=
         Some (mul (div (mul (mul (PodEntry.maxMemory pod) (Fin 1024)) (Fin 1024))
                      (limitOf (PodEntry.memoryLimit pod))) hundred);
       PodEntry.restarts := PodEntry.restarts pod;
       PodEntry.cpuLimit := PodEntry.cpuLimit pod;
       PodEntry.memoryLimit := PodEntry.memoryLimit pod |}
  else pod.

(** Body of [results.restarts.series.forEach]. *)
Definition restartsStep (st : State) (s : Series) : outcome State :=
  andThen (podNameOf s) (fun name =>
  andThen (valuesOf s) (fun values =>
  let totalRestarts := maxOf values in
  Returned {| podMap :=
                upsert name (bareEntry name)
                  (fun pod => {| PodEntry.podName := PodEntry.podName pod;
                                 PodEntry.avgCpu := PodEntry.avgCpu pod;
                                 PodEntry.maxCpu := PodEntry.maxCpu pod;
                                 PodEntry.avgCpuPct := PodEntry.avgCpuPct pod;
                                 PodEntry.maxCpuPct := PodEntry.maxCpuPct pod;
                                 PodEntry.avgMemory := PodEntry.avgMemory pod;
                                 PodEntry.maxMemory := PodEntry.maxMemory pod;
                                 PodEntry.avgMemoryPct := PodEntry.avgMemoryPct pod;
                                 PodEntry.maxMemoryPct := PodEntry.maxMemoryPct pod;
                                 PodEntry.restarts := totalRestarts;
                                 PodEntry.cpuLimit := PodEntry.cpuLimit pod;
                                 PodEntry.memoryLimit := PodEntry.memoryLimit pod |})
                  (podMap st);
              cpuSeries := cpuSeries st;
              memorySeries := memorySeries st |})).

(** [values[values.length - 1] || 0] *)
Definition lastOrZero (values : list Q) : num :=
  match last values with
  | Some v => Fin v
  | None => zero
  end.

(** The blocks for [runningContainers] and [pods]. *)
Definition runningOf (response : option (list Series)) : outcome Running.t :=
  match response with
  | Some (s :: _) =>
      andThen (valuesOf s) (fun values =>
      Returned {| Running.current := round (lastOrZero values);
                  Running.average := round (average values) |})
  | _ => Returned {| Running.current := zero; Running.average := zero |}
  end.

Record Processed : Type := {
  summaryContainers : Running.t;
  summaryPods : Running.t;
  podMetrics : list PodEntry.t;
  timeSeriesCpu : list Sample.t;
  timeSeriesMemory : list Sample.t
}.

Definition processMetrics (results : Results.t) : outcome Processed :=
  andThen (runningOf (Results.runningContainers results)) (fun containers =>
  andThen (runningOf (Results.pods results)) (fun running =>
  let st := {| podMap := []; cpuSeries := []; memorySeries := [] |} in
  andThen (forEachSeries cpuStep (default [] (Results.cpu results)) st) (fun st =>
  andThen (forEachSeries cpuLimitStep (default [] (Results.cpuLimit results)) st) (fun st =>
  andThen (forEachSeries memoryPctStep (default [] (Results.memoryPct results)) st) (fun st =>
  andThen (forEachSeries memoryLimitStep (default [] (Results.memoryLimit results)) st) (fun st =>
  let st := {| podMap := map percentages (podMap st);
               cpuSeries := cpuSeries st;
               memorySeries := memorySeries st |} in
  andThen (forEachSeries restartsStep (default [] (Results.restarts results)) st) (fun st =>
  Returned {| summaryContainers := containers;
              summaryPods := running;
              podMetrics := podMap st;
              timeSeriesCpu := cpuSeries st;
              timeSeriesMemory := memorySeries st |}))))))).

End WithClock.










End Containers.

(** ** A concrete host for running the model

    Numbers are parsed and printed as ECMAScript does for plain decimal
    input and integer output, and ISO-8601 UTC strings are parsed to their
    time value. The Intl calendar is not reproduced: a formatted date is
    its time value in milliseconds, and a rational that is not an integer
    prints as a fraction. *)

Module Demo.

Definition digitOf (a : ascii) : option Z :=
  if between 48 57 a then Some (Z.of_N (N_of_ascii a) - 48) else None.

(** Longest prefix of decimal digits: its value, its length, the rest. *)
Fixpoint digits (acc : Z) (len : nat) (s : string) : Z * nat * string :=
  match s with
  | EmptyString => (acc, len, s)
  | String a s' =>
      match digitOf a with
      | Some d => digits (acc * 10 + d) (S len) s'
      | None => (acc, len, s)
      end
  end.

Fixpoint skipSpaces (s : string) : string :=
  match s with
  | String " " s' => skipSpaces s'
  | _ => s
  end.

Definition signOf (s : string) : bool * string :=
  match s with
  | String "-" s' => (true, s')
  | String "+" s' => (false, s')
  | _ => (false, s)
  end.

Definition signed (negative : bool) (q : Q) : Q := if negative then (- q)%Q else q.

Definition parseFloatStr (s : string) : num :=
  let '(negative, body) := signOf (skipSpaces s) in
  let '(whole, wlen, rest) := digits 0 0 body in
  let '(frac, flen, _) :=
    match rest with
    | String "." rest' => digits 0 0 rest'
    | _ => (0, 0%nat, rest)
    end in
  if ((wlen + flen)%nat =? 0)%nat then NaN
  else Fin (signed negative (inject_Z whole + inject_Z frac / inject_Z (10 ^ Z.of_nat flen))).

Definition parseIntStr (s : string) : num :=
  let '(negative, body) := signOf (skipSpaces s) in
  let '(whole, wlen, _) := digits 0 0 body in
  if (wlen =? 0)%nat then NaN else Fin (signed negative (inject_Z whole)).

Definition truncate (q : Q) : Z := Z.quot (Qnum q) (Z.pos (Qden q)).

Definition showNum (n : num) : string :=
  match n with
  | NaN => "NaN"
  | Inf negative => if negative then "-Infinity" else "Infinity"
  | Fin q =>
      let r := Qred q in
      match Qden r with
      | 1%positive => pretty (Qnum r)
      | d => pretty (Qnum r) +:+ "/" +:+ pretty (Z.pos d)
      end
  end.

Definition showVal (v : jsval) : string :=
  match v with
  | VUndef => "undefined"
  | VNum n => showNum n
  | VStr s => s
  end.

Fixpoint padLeft (width : nat) (s : string) : string :=
  match width with
  | O => s
  | S w => if (String.length s <=? w)%nat then padLeft w ("0" +:+ s) else s
  end.

(** [x.toFixed(d)]: nearest multiple of [10^-d], ties upward in magnitude. *)
Definition showFixed (d : nat) (n : num) : string :=
  match n with
  | Fin q =>
      let unit := 10 ^ Z.of_nat d in
      let scaled := Qfloor (Qabs q * inject_Z unit + (1 # 2))%Q in
      let whole := pretty (scaled / unit) in
      let text :=
        match d with
        | O => whole
        | _ => whole +:+ "." +:+ padLeft d (pretty (scaled mod unit))
        end in
      if Qnegb q then "-" +:+ text else text
  | _ => showNum n
  end.

(** Days from 1970-01-01 to a civil date of the proleptic Gregorian
    calendar. *)
Definition daysFromCivil (y m d : Z) : Z :=
  let y := if m <=? 2 then y - 1 else y in
  let era := y / 400 in
  let yoe := y - era * 400 in
  let doy := (153 * (if 2 <? m then m - 3 else m + 9) + 2) / 5 + d - 1 in
  let doe := yoe * 365 + yoe / 4 - yoe / 100 + doy in
  era * 146097 + doe - 719468.

Definition field (start len : nat) (s : string) : option Z :=
  let '(v, n, _) := digits 0 0 (substring start len s) in
  if (n =? len)%nat then Some v else None.

(** [YYYY-MM-DDTHH:MM:SSZ] and [YYYY-MM-DDTHH:MM:SS.sssZ]. *)
Definition parseIso (s : string) : num :=
  match field 0 4 s, field 5 2 s, field 8 2 s, field 11 2 s, field 14 2 s, field 17 2 s with
  | Some y, Some mo, Some d, Some hh, Some mi, Some ss =>
      let seconds := ((daysFromCivil y mo d * 24 + hh) * 60 + mi) * 60 + ss in
      let tail := substring 19 (String.length s - 19) s in
      if String.eqb (substring 4 1 s +:+ substring 7 1 s +:+ substring 10 1 s
                     +:+ substring 13 1 s +:+ substring 16 1 s) "--T::"
      then
        if String.eqb tail "Z" then ofZ (seconds * 1000)
        else match field 20 3 s with
             | Some ms =>
                 if String.eqb (substring 19 1 s +:+ substring 23 2 s) ".Z"
                 then ofZ (seconds * 1000 + ms) else NaN
             | None => NaN
             end
      else NaN
  | _, _, _, _, _, _ => NaN
  end.

Definition host : Host :=
  {| parseFloat := fun v =>
       match v with VUndef => NaN | VNum n => n | VStr s => parseFloatStr s end;
     parseInt := fun v =>
       match v with
       | VUndef => NaN
       | VNum (Fin q) => ofZ (truncate q)
       | VNum _ => NaN
       | VStr s => parseIntStr s
       end;
     newDate := fun v =>
       match v with VUndef => NaN | VNum n => n | VStr s => parseIso s end;
     toLocaleString := fun _ t => showNum t;
     toFixed := showFixed;
     toStr := showVal;
     dateNow := ofZ 1770000000000 |}.

End Demo.

(** ** Sample payloads *)

Module Examples.

(** 2026-02-03T00:33:00Z in epoch milliseconds; samples are a minute apart. *)
Definition t0 : Z := 1770078780000.
Definition t1 : Z := t0 + 60000.
Definition t2 : Z := t0 + 120000.
Definition t3 : Z := t0 + 180000.

Definition restartQuery (pod : string) : string :=
  "sum:kubernetes.containers.restarts{service:orders,env:staging,pod_name:" +:+ pod +:+ "}".

(** The counter rises from 0 to 5 at [t2]. *)
Definition seriesRising : RestartSeries.t :=
  {| RestartSeries.expression := restartQuery "orders-7c9d-a";
     RestartSeries.pointlist :=
       Some [(t0, Some 0%Q); (t1, Some 0%Q); (t2, Some 5%Q); (t3, Some 5%Q)] |}.

(** The counter stays at 2. *)
Definition seriesFlat : RestartSeries.t :=
  {| RestartSeries.expression := restartQuery "orders-7c9d-b";
     RestartSeries.pointlist := Some [(t0, Some 2%Q); (t1, Some 2%Q); (t2, Some 2%Q)] |}.

(** The counter stays at 0. *)
Definition seriesQuiet : RestartSeries.t :=
  {| RestartSeries.expression := restartQuery "orders-7c9d-c";
     RestartSeries.pointlist := Some [(t0, Some 0%Q); (t1, Some 0%Q)] |}.

Definition restartsData : RestartsData.t :=
  {| RestartsData.series := Some [seriesRising; seriesFlat; seriesQuiet];
     RestartsData.from_date := VNum (ofZ t0);
     RestartsData.to_date := VNum (ofZ t3) |}.

Definition podA : Pod.t := {| Pod.podName := "orders-7c9d-a"; Pod.restarts := Some 5 |}.
Definition podB : Pod.t := {| Pod.podName := "orders-7c9d-b"; Pod.restarts := Some 2 |}.
Definition podC : Pod.t := {| Pod.podName := "orders-7c9d-c"; Pod.restarts := Some 0 |}.
(** A restarted pod for which no restart series was fetched. *)
Definition podD : Pod.t := {| Pod.podName := "orders-7c9d-d"; Pod.restarts := Some 2 |}.

Definition podData (pods : list Pod.t) (timing : option RestartsData.t)
    (memory : option (list MemoryMetric.t)) : PodMetricsData.t :=
  {| PodMetricsData.podMetrics := Some pods;
     PodMetricsData.summary := None;
     PodMetricsData.timeSeries := Some {| TimeSeries.restarts := timing |};
     PodMetricsData.containerMetrics := Some {| ContainerMetrics.memory := memory |} |}.

Definition slowOrders : Metric.t :=
  {| Metric.resource_name := "GET /orders";
     Metric.requests := VStr "1000";
     Metric.p95_latency := VStr "1500.0 ms";
     Metric.errors := VStr "—";
     Metric.error_rate := VStr "0.00" |}.

Definition window : TimeRange.t :=
  {| TimeRange.from := VStr "2026-02-03T00:33:00.000Z";
     TimeRange.to := VStr "2026-02-03T00:36:00.000Z" |}.

(** Five restarts inside the window on one pod and one slow endpoint. *)
Definition restartsAndLatency : Payload.t :=
  {| Payload.metrics := [slowOrders];
     Payload.endpointMetrics := None;
     Payload.timeRange := Some window;
     Payload.errorMetrics := None;
     Payload.podMetrics := Some (podData [podA; podB; podC; podD] (Some restartsData) None) |}.

(** One restarted pod at 95% peak memory, with ten log errors. *)
Definition memoryAndErrors : Payload.t :=
  {| Payload.metrics := [];
     Payload.endpointMetrics := None;
     Payload.timeRange := Some window;
     Payload.errorMetrics :=
       Some {| ErrorMetrics.logSummary :=
                 Some {| LogSummary.totalLogErrors := 10; LogSummary.topMessages := None |} |};
     Payload.podMetrics :=
       Some (podData [podA] (Some restartsData)
               (Some [ {| MemoryMetric.podName := "orders-7c9d-a";
                          MemoryMetric.maxMemory := 95 |} ])) |}.

(** One slow endpoint and nothing else. *)
Definition ordersOnly : Payload.t :=
  {| Payload.metrics :=
       [ {| Metric.resource_name := "GET /orders";
            Metric.requests := VNum (ofZ 1000);
            Metric.p95_latency := VStr "1500 ms";
            Metric.errors := VNum (ofZ 0);
            Metric.error_rate := VStr "0" |} ];
     Payload.endpointMetrics := None;
     Payload.timeRange := Some window;
     Payload.errorMetrics := None;
     Payload.podMetrics := None |}.

(** Nothing to report at all. *)
Definition quiet : Payload.t :=
  {| Payload.metrics := [];
     Payload.endpointMetrics := None;
     Payload.timeRange := Some window;
     Payload.errorMetrics := None;
     Payload.podMetrics := None |}.

Definition fastOrders : Metric.t :=
  {| Metric.resource_name := "GET /orders";
     Metric.requests := VStr "1000";
     Metric.p95_latency := VStr "120.0 ms";
     Metric.errors := VStr "—";
     Metric.error_rate := VStr "0.00" |}.

(** An endpoint for which neither a count nor a latency was fetched. *)
Definition healthUncounted : Metric.t :=
  {| Metric.resource_name := "GET /health";
     Metric.requests := VStr "N/A";
     Metric.p95_latency := VStr "N/A";
     Metric.errors := VStr "—";
     Metric.error_rate := VStr "0.00" |}.

(** Two endpoints, one of which has no request count. *)
Definition unparsableRequests : Payload.t :=
  {| Payload.metrics := [fastOrders; healthUncounted];
     Payload.endpointMetrics := None;
     Payload.timeRange := Some window;
     Payload.errorMetrics := None;
     Payload.podMetrics := None |}.

(** A restarted pod without any restart-timing data. *)
Definition untimedRestart : Payload.t :=
  {| Payload.metrics := [];
     Payload.endpointMetrics := None;
     Payload.timeRange := Some window;
     Payload.errorMetrics := None;
     Payload.podMetrics := Some (podData [podD] None None) |}.

Definition checkout : Endpoint.t :=
  {| Endpoint.resource_name := "post_/checkout";
     Endpoint.requests := Some 120%Q;
     Endpoint.p95_latency := Some 1800%Q;
     Endpoint.errors := VNum (Fin 3);
     Endpoint.error_rate := Some (5 # 2)%Q |}.

Definition search : Endpoint.t :=
  {| Endpoint.resource_name := "get_/search";
     Endpoint.requests := Some 300%Q;
     Endpoint.p95_latency := Some 2400%Q;
     Endpoint.errors := VNum (Fin 0);
     Endpoint.error_rate := Some 0%Q |}.

Definition export : Endpoint.t :=
  {| Endpoint.resource_name := "get_/export";
     Endpoint.requests := Some 10%Q;
     Endpoint.p95_latency := Some 2400%Q;
     Endpoint.errors := VNum (Fin 1);
     Endpoint.error_rate := Some 10%Q |}.

Definition summaryEndpoints : Payload.t :=
  {| Payload.metrics := [];
     Payload.endpointMetrics := Some [checkout; search; export];
     Payload.timeRange := Some Examples.window;
     Payload.errorMetrics := None;
     Payload.podMetrics := None |}.

Definition payments : Metric.t :=
  {| Metric.resource_name := "post_/payments";
     Metric.requests := VStr "200";
     Metric.p95_latency := VStr "310.0 ms";
     Metric.errors := VStr "3";
     Metric.error_rate := VStr "1.50" |}.

Definition health : Metric.t :=
  {| Metric.resource_name := "get_/health";
     Metric.requests := VStr "900";
     Metric.p95_latency := VStr "4.0 ms";
     Metric.errors := VStr "—";
     Metric.error_rate := VStr "9.00" |}.

Definition refunds : Metric.t :=
  {| Metric.resource_name := "post_/refunds";
     Metric.requests := VStr "40";
     Metric.p95_latency := VStr "120.0 ms";
     Metric.errors := VStr "2";
     Metric.error_rate := VStr "5.00" |}.

Definition invoices : Metric.t :=
  {| Metric.resource_name := "get_/invoices";
     Metric.requests := VStr "20";
     Metric.p95_latency := VStr "80.0 ms";
     Metric.errors := VStr "1";
     Metric.error_rate := VStr "5.00" |}.

Definition erroring : Payload.t :=
  {| Payload.metrics := [payments; health; refunds; invoices];
     Payload.endpointMetrics := None;
     Payload.timeRange := Some Examples.window;
     Payload.errorMetrics := None;
     Payload.podMetrics := None |}.

Import ErrorLogs.

Definition logOf (kind message : option string) : Log.t :=
  {| Log.errorKind := kind; Log.errorType := None;
     Log.message := message; Log.nestedMessage := None;
     Log.field := None; Log.errorStack := None; Log.stack := None;
     Log.host := Some "ip-10-0-0-12"%string; Log.pod_name := None;
     Log.timestamp := Some "2026-02-03T00:33:00.000Z"%string |}.

Definition errorLogs : list Log.t :=
  [ logOf (Some "TimeoutError") (Some "upstream timed out");
    logOf None (Some "404");
    logOf (Some "TimeoutError") (Some "upstream timed out");
    logOf (Some "") None ].

Import Fetcher Containers.

(** Stands for the ISO rendering of a time value. *)
Definition isoString (t : Z) : string := pretty t.

Definition podSeriesOf (pod : string) (values : list (option Q)) : Series :=
  {| scope := Some ("kube_deployment:orders,pod_name:" +:+ pod);
     pointlist := Some (combine [Examples.t0; Examples.t1; Examples.t2] values) |}.

Definition containerResults : Results.t :=
  {| Results.runningContainers := Some [podSeriesOf "all" [Some 2%Q; Some 3%Q; None]];
     Results.pods := None;
     Results.cpu := Some [ podSeriesOf "orders-7c9d-a" [Some 200000000%Q; Some 600000000%Q; None];
                           podSeriesOf "orders-7c9d-b" [None; None; None] ];
     Results.cpuLimit := Some [podSeriesOf "orders-7c9d-a" [Some 1%Q; Some 1%Q; Some 1%Q]];
     Results.memoryPct := Some [podSeriesOf "orders-7c9d-a" [Some (2 # 5)%Q; Some (3 # 5)%Q; None]];
     Results.memoryLimit := None;
     Results.restarts := Some [podSeriesOf "orders-7c9d-c" [Some 0%Q; Some 1%Q; Some 1%Q]] |}.

End Examples.

(** * Properties *)

(** ** Percentile aggregation *)

Section SortFacts.

Import Fetcher.

Lemma insertAsc_perm (x : Q) (l : list Q) : Permutation (insertAsc x l) (x :: l).
Proof.
  induction l as [|y l IH]; simpl.
  - apply Permutation_refl.
  - destruct (Qle_bool x y).
    + apply Permutation_refl.
    + apply Permutation_trans with (y :: x :: l).
      * apply perm_skip, IH.
      * apply perm_swap.
Qed.

Lemma sortAsc_perm (v : list Q) : Permutation (sortAsc v) v.
Proof.
  induction v as [|x v IH]; simpl.
  - apply Permutation_refl.
  - apply Permutation_trans with (x :: sortAsc v).
    + apply insertAsc_perm.
    + apply perm_skip, IH.
Qed.

Lemma Qle_bool_false (x y : Q) : Qle_bool x y = false -> (y <= x)%Q.
Proof.
  intros H. destruct (Qlt_le_dec y x) as [Hlt|Hle].
  - apply Qlt_le_weak, Hlt.
  - apply Qle_bool_iff in Hle. congruence.
Qed.

Lemma insertAsc_sorted (x : Q) (l : list Q) :
  StronglySorted Qle l -> StronglySorted Qle (insertAsc x l).
Proof.
  induction 1 as [|y l Hs IH Hall]; simpl.
  - constructor; constructor.
  - destruct (Qle_bool x y) eqn:E.
    + apply Qle_bool_iff in E. constructor.
      * constructor; assumption.
      * constructor; [assumption|].
        eapply List.Forall_impl; [|exact Hall].
        intros z Hz. eapply Qle_trans; eassumption.
    + apply Qle_bool_false in E. constructor; [exact IH|].
      eapply Permutation_Forall.
      * apply Permutation_sym, insertAsc_perm.
      * constructor; assumption.
Qed.

Lemma sortAsc_sorted (v : list Q) : StronglySorted Qle (sortAsc v).
Proof.
  induction v as [|x v IH]; simpl.
  - constructor.
  - apply insertAsc_sorted, IH.
Qed.

Lemma sortAsc_length (v : list Q) : length (sortAsc v) = length v.
Proof. apply Permutation_length, sortAsc_perm. Qed.

Lemma percentileIndex_lt (pct n : nat) :
  (pct < 100)%nat -> (0 < n)%nat -> (percentileIndex pct n < n)%nat.
Proof.
  intros Hp Hn. unfold percentileIndex.
  apply Nat.Div0.div_lt_upper_bound. nia.
Qed.

Lemma upper_bound_exists (v : list Q) :
  v <> [] -> exists m, In m v /\ forall y, In y v -> (y <= m)%Q.
Proof.
  induction v as [|x v IH]; [congruence|]. intros _.
  destruct v as [|x' v'].
  - exists x. split; [left; reflexivity|].
    intros y [<-|[]]. apply Qle_refl.
  - destruct IH as [m [Hin Hub]]; [congruence|].
    destruct (Qlt_le_dec m x) as [Hlt|Hle].
    + exists x. split; [left; reflexivity|].
      intros y [<-|Hy]; [apply Qle_refl|].
      eapply Qle_trans; [apply Hub, Hy|apply Qlt_le_weak, Hlt].
    + exists m. split; [right; exact Hin|].
      intros y [<-|Hy]; [exact Hle|apply Hub, Hy].
Qed.

End SortFacts.

Section AggregateFacts.

Import Fetcher.

(** C5, as stated, fails: the p95 of the single sample [1] is [1000],
    which is no element of the input and exceeds its maximum. *)
Lemma p95_result_is_not_a_sample :
  aggregate "p95" [1%Q] = Fin 1000
  /\ (forall x, In x [1%Q] -> ~ (x == 1000)%Q)
  /\ ~ (1000 <= 1)%Q.
Proof.
  split; [reflexivity|]. split.
  - intros x [<-|[]] H. discriminate H.
  - intros H. apply Qle_bool_iff in H. discriminate H.
Qed.

(** C5, amended: for a non-empty sample list the p95 aggregation sorts
    the samples ascending, selects the element at index
    [floor(count * 0.95)], which always lies below [count], and returns
    that element times 1000; the selected element is a member of the
    input and is at most the maximum of the input. *)
Theorem p95_selects_scaled_sample (v : list Q) :
  v <> [] ->
  exists x m,
    Permutation (sortAsc v) v
    /\ StronglySorted Qle (sortAsc v)
    /\ (percentileIndex 95 (length v) < length v)%nat
    /\ nth_error (sortAsc v) (percentileIndex 95 (length v)) = Some x
    /\ aggregate "p95" v = Fin (x * 1000)
    /\ In x v
    /\ In m v /\ (forall y, In y v -> (y <= m)%Q) /\ (x <= m)%Q.
Proof.
  intros Hne.
  assert (Hlen : (0 < length v)%nat) by (destruct v; [congruence|simpl; lia]).
  pose proof (percentileIndex_lt 95 (length v) ltac:(lia) Hlen) as Hidx.
  destruct (nth_error (sortAsc v) (percentileIndex 95 (length v))) as [x|] eqn:Hnth.
  - destruct (upper_bound_exists v Hne) as [m [Hm Hub]].
    assert (Hx : In x v).
    { eapply Permutation_in; [apply sortAsc_perm|].
      eapply nth_error_In; exact Hnth. }
    exists x, m. repeat split; auto.
    + apply sortAsc_perm.
    + apply sortAsc_sorted.
    + unfold aggregate, percentile. simpl.
      rewrite sortAsc_length, Hnth. reflexivity.
  - apply nth_error_None in Hnth. rewrite sortAsc_length in Hnth. lia.
Qed.

Lemma p95_selects_scaled_sample_witness :
  [3%Q; 1%Q; 2%Q] <> []
  /\ exists x m,
       Permutation (sortAsc [3%Q; 1%Q; 2%Q]) [3%Q; 1%Q; 2%Q]
       /\ StronglySorted Qle (sortAsc [3%Q; 1%Q; 2%Q])
       /\ (percentileIndex 95 (length [3%Q; 1%Q; 2%Q]) < length [3%Q; 1%Q; 2%Q])%nat
       /\ nth_error (sortAsc [3%Q; 1%Q; 2%Q]) (percentileIndex 95 (length [3%Q; 1%Q; 2%Q]))
          = Some x
       /\ aggregate "p95" [3%Q; 1%Q; 2%Q] = Fin (x * 1000)
       /\ In x [3%Q; 1%Q; 2%Q]
       /\ In m [3%Q; 1%Q; 2%Q]
       /\ (forall y, In y [3%Q; 1%Q; 2%Q] -> (y <= m)%Q) /\ (x <= m)%Q.
Proof.
  split; [discriminate|].
  apply (p95_selects_scaled_sample [3%Q; 1%Q; 2%Q]). discriminate.
Defined.

Example p95_of_twenty :
  aggregate "p95" (map inject_Z [20; 19; 18; 17; 16; 15; 14; 13; 12; 11;
                                 10; 9; 8; 7; 6; 5; 4; 3; 2; 1])
  = Fin (20 * 1000).
Proof. reflexivity. Qed.

(** C6, as stated, fails: a series whose samples are all [null] makes
    [extractByResource] return the empty table; no error is raised. *)
Lemma extractByResource_empty_samples_no_error :
  nonNullValues [(1000, None); (2000, None)] = []
  /\ extractByResource
       (Some {| series := Some [ {| scope := Some "resource_name:GET /orders,service:orders";
                                    pointlist := Some [(1000, None); (2000, None)] |} ] |})
       "p95" = Normal ∅
  /\ extractByResource
       (Some {| series := Some [ {| scope := Some "resource_name:GET /orders,service:orders";
                                    pointlist := Some [(1000, None); (2000, None)] |} ] |})
       "p95" <> Throw EmptyInputError.
Proof. split; [reflexivity|]. split; [reflexivity|discriminate]. Qed.

Lemma forEach_extractSeries_normal (agg : string) (ss : list Series)
    (acc : gmap string num) :
  exists m, forEach (extractSeries agg) ss acc = Normal m.
Proof.
  revert acc. induction ss as [|s ss IH]; intros acc; simpl.
  - eexists; reflexivity.
  - unfold extractSeries at 1.
    destruct (pointlist s) as [[|p points]|]; try apply IH.
    match goal with |- context [if ?c then _ else _] => destruct c end; apply IH.
Qed.

(** C6, amended: [extractByResource] raises no error on any response, and
    a series without a non-null sample is skipped silently: it leaves the
    table as it was, so no entry (and no zero) is written for it. *)
Theorem extractByResource_skips_empty_samples (agg : string) :
  (forall data, exists m, extractByResource data agg = Normal m)
  /\ (forall acc s,
        (forall points, pointlist s = Some points -> nonNullValues points = []) ->
        extractSeries agg acc s = Normal acc).
Proof.
  split.
  - intros [[[[|s ss]|]]|]; try (eexists; reflexivity).
    apply (forEach_extractSeries_normal agg (s :: ss) ∅).
  - intros acc s Hempty. unfold extractSeries.
    destruct (pointlist s) as [[|p points]|] eqn:Hp; try reflexivity.
    rewrite (Hempty _ eq_refl). reflexivity.
Qed.

Lemma extractByResource_skips_empty_samples_witness :
  (forall points,
      pointlist {| scope := Some "resource_name:GET /orders"; pointlist := Some [(1000, None)] |}
      = Some points -> nonNullValues points = [])
  /\ extractSeries "p95" ∅
       {| scope := Some "resource_name:GET /orders"; pointlist := Some [(1000, None)] |}
     = Normal ∅.
Proof.
  assert (H : forall points,
             pointlist {| scope := Some "resource_name:GET /orders";
                          pointlist := Some [(1000, None)] |}
             = Some points -> nonNullValues points = []).
  { simpl. intros points [= <-]. reflexivity. }
  split; [exact H|].
  apply (proj2 (extractByResource_skips_empty_samples "p95") ∅ _ H).
Defined.

(** C7, as stated, fails: a window of zero or negative length yields the
    rate 0, not an error. *)
Lemma actualRate_nonpositive_window_no_error :
  actualRate (Fin 10) (Fin 0) = Normal (Fin 0)
  /\ actualRate (Fin 10) (Fin (-5)) = Normal (Fin 0)
  /\ actualRate (Fin 10) (Fin 0) <> Throw InvalidWindowError.
Proof. repeat split; discriminate. Qed.

(** C7, amended: the rate is [totalCount / windowSeconds] for every
    positive window (hence 0 for a zero count), and is 0, without any
    error, for a window of zero or negative length. *)
Theorem actualRate_spec (totalCount windowSeconds : Q) :
  ((0 < windowSeconds)%Q ->
     actualRate (Fin totalCount) (Fin windowSeconds)
     = Normal (Fin (totalCount / windowSeconds))
     /\ exists q, actualRate (Fin 0) (Fin windowSeconds) = Normal (Fin q) /\ (q == 0)%Q)
  /\ ((windowSeconds <= 0)%Q ->
        actualRate (Fin totalCount) (Fin windowSeconds) = Normal (Fin 0)).
Proof.
  unfold actualRate, gt, Qgtb, div, Qzerob. split.
  - intros Hpos.
    assert (Hle : Qle_bool windowSeconds 0 = false).
    { destruct (Qle_bool windowSeconds 0) eqn:E; [|reflexivity].
      apply Qle_bool_iff in E. exfalso. eapply Qlt_not_le; eassumption. }
    assert (Hz : Qeq_bool windowSeconds 0 = false).
    { destruct (Qeq_bool windowSeconds 0) eqn:E; [|reflexivity].
      apply Qeq_bool_iff in E. rewrite E in Hpos. discriminate Hpos. }
    rewrite Hle, Hz. simpl. split; [reflexivity|].
    eexists. split; [reflexivity|]. unfold Qdiv. apply Qmult_0_l.
  - intros Hle. apply Qle_bool_iff in Hle. rewrite Hle. reflexivity.
Qed.

Lemma actualRate_spec_witness :
  ((0 < 60)%Q /\ actualRate (Fin 120) (Fin 60) = Normal (Fin (120 / 60)))
  /\ ((-60 <= 0)%Q /\ actualRate (Fin 120) (Fin (-60)) = Normal (Fin 0)).
Proof.
  split.
  - split; [reflexivity|].
    apply (proj1 (actualRate_spec 120 60)). reflexivity.
  - split; [discriminate|].
    apply (proj2 (actualRate_spec 120 (-60))). discriminate.
Defined.

End AggregateFacts.

(** ** Restart-timing classifier *)

Section RestartTimingFacts.

Import Generator.

Lemma Qgtb_true (a b : Q) : Qgtb a b = true <-> (b < a)%Q.
Proof.
  unfold Qgtb. split.
  - intros H. apply Qnot_le_lt. intros Hle.
    apply Qle_bool_iff in Hle. rewrite Hle in H. discriminate H.
  - intros Hlt. destruct (Qle_bool a b) eqn:E; [|reflexivity].
    apply Qle_bool_iff in E. exfalso. eapply Qlt_not_le; eassumption.
Qed.

Lemma Qgtb_false (a b : Q) : Qgtb a b = false <-> (a <= b)%Q.
Proof.
  unfold Qgtb. rewrite <- Qle_bool_iff.
  destruct (Qle_bool a b); simpl; split; congruence.
Qed.

(** What the loop computes from an arbitrary intermediate state: either
    nothing changes, or the state records the last strict increase. *)
Lemma scan_from (later : list (Z * option Q)) (st : Scan) :
  (fold_left scanStep later st = st
   /\ forall p, In p later -> (numOf (snd p) <= numOf (maxValue st))%Q)
  \/ (exists t v pre post,
        later = pre ++ (t, v) :: post
        /\ (numOf (maxValue st) < numOf v)%Q
        /\ (forall p, In p pre -> (numOf (snd p) < numOf v)%Q)
        /\ (forall p, In p post -> (numOf (snd p) <= numOf v)%Q)
        /\ fold_left scanStep later st
           = {| restartIncrease := true; latestRestartTime := Some t; maxValue := v |}).
Proof.
  revert st. induction later as [|[tp vp] later IH]; intros st.
  - left. split; [reflexivity|]. intros p [].
  - simpl fold_left. unfold scanStep at 2.
    destruct (Qgtb (numOf vp) (numOf (maxValue st))) eqn:E.
    + apply Qgtb_true in E. right.
      destruct (IH {| restartIncrease := true; latestRestartTime := Some tp;
                      maxValue := vp |})
        as [[Hsame Hle]|(t & v & pre & post & Heq & Hgt & Hpre & Hpost & Hres)].
      * exists tp, vp, [], later. simpl in Hle. repeat split; auto.
        intros p [].
      * simpl in Hgt. exists t, v, ((tp, vp) :: pre), post. repeat split; auto.
        -- simpl. rewrite Heq. reflexivity.
        -- eapply Qlt_trans; eassumption.
        -- intros p [<-|Hp]; [exact Hgt|apply Hpre, Hp].
    + apply Qgtb_false in E.
      destruct (IH st)
        as [[Hsame Hle]|(t & v & pre & post & Heq & Hgt & Hpre & Hpost & Hres)].
      * left. split; [exact Hsame|].
        intros p [<-|Hp]; [exact E|apply Hle, Hp].
      * right. exists t, v, ((tp, vp) :: pre), post. repeat split; auto.
        -- simpl. rewrite Heq. reflexivity.
        -- intros p [<-|Hp]; [|apply Hpre, Hp].
           eapply Qle_lt_trans; eassumption.
Qed.


(** What the classifier computes on every series with first value
    [startValue]. Either no later value exceeds the running maximum, and
    the series is classified before-window when [startValue > 0] and gets
    no entry otherwise; or there is a last point [(t, v)] whose value
    exceeds the running maximum, and the series is classified
    during-window with the label formatted from [t], provided [t] is not
    0; for [t = 0] it is resolved as in the first case. *)
Theorem classifyPoints_resolution (h : Host) (monitoringStart : num)
    (t0 : Z) (startValue : option Q) (later : list (Z * option Q)) :
  (noIncrease startValue later
   /\ classifyPoints h monitoringStart ((t0, startValue) :: later)
      = if Qgtb (numOf startValue) 0 then Some (beforeEntry h monitoringStart) else None)
  \/ (exists t v,
        lastIncreaseAt startValue later t v
        /\ classifyPoints h monitoringStart ((t0, startValue) :: later)
           = if negb (t =? 0) then Some (duringEntry h t)
             else if Qgtb (numOf startValue) 0 then Some (beforeEntry h monitoringStart)
             else None).
Proof.
  unfold classifyPoints, scanPoints.
  destruct (scan_from later
              {| restartIncrease := false; latestRestartTime := None;
                 maxValue := startValue |})
    as [[Hsame Hle]|(t & v & pre & post & Heq & Hgt & Hpre & Hpost & Hres)].
  - left. split; [exact Hle|]. rewrite Hsame. reflexivity.
  - right. exists t, v. split.
    + exists pre, post. auto.
    + rewrite Hres. simpl. reflexivity.
Qed.

Example duringEntry_label (h : Host) (t : Z) :
  duringEntry h t
  = {| exactTime := toLocaleString h true (newDate h (VNum (ofZ t))) +:+ " EST";
       duringWindow := true |}.
Proof. reflexivity. Qed.

Example beforeEntry_label (h : Host) (monitoringStart : num) :
  exists rest, exactTime (beforeEntry h monitoringStart) = "Before " +:+ rest
               /\ duringWindow (beforeEntry h monitoringStart) = false.
Proof. eexists. split; reflexivity. Qed.

End RestartTimingFacts.

(** ** Root-cause selector *)

Section RootCauseFacts.

Import Generator.

Lemma find_first {A : Type} (f : A -> bool) (l : list A) (x : A) :
  find f l = Some x <->
  exists pre post, l = pre ++ x :: post /\ f x = true /\ Forall (fun y => f y = false) pre.
Proof.
  split.
  - induction l as [|y l IH]; simpl; [discriminate|].
    destruct (f y) eqn:E.
    + intros [= <-]. exists [], l. repeat split; auto.
    + intros H. destruct (IH H) as (pre & post & -> & Hx & Hpre).
      exists (y :: pre), post. repeat split; auto.
  - intros (pre & post & -> & Hx & Hpre).
    induction Hpre as [|y pre Hy _ IH]; simpl.
    + rewrite Hx. reflexivity.
    + rewrite Hy. exact IH.
Qed.

Lemma podHasHighMemory_iff (allData : Payload.t) (pod : Pod.t) :
  podHasHighMemory allData pod = true <->
  exists m, firstMemoryRecord allData pod m /\ (90 < MemoryMetric.maxMemory m)%Q.
Proof.
  unfold podHasHighMemory, firstMemoryRecord. split.
  - destruct (memMetricsOf allData) as [memMetrics|]; [|discriminate].
    destruct (find _ memMetrics) as [m|] eqn:Hfind; [|discriminate].
    intros Hgt. apply Qgtb_true in Hgt.
    apply find_first in Hfind. destruct Hfind as (pre & post & -> & Hm & Hpre).
    exists m. split; [|exact Hgt].
    exists (pre ++ m :: post), pre, post. repeat split.
    + apply String.eqb_eq, Hm.
    + eapply List.Forall_impl; [|exact Hpre].
      intros y Hy. simpl in Hy. apply String.eqb_neq, Hy.
  - intros (m & (memMetrics & pre & post & -> & -> & Hname & Hpre) & Hgt).
    assert (Hfind : find (fun x => String.eqb (MemoryMetric.podName x) (Pod.podName pod))
                      (pre ++ m :: post) = Some m).
    { apply find_first. exists pre, post. repeat split.
      - apply String.eqb_eq, Hname.
      - eapply List.Forall_impl; [|exact Hpre].
        intros y Hy. simpl. apply String.eqb_neq, Hy. }
    rewrite Hfind. apply Qgtb_true, Hgt.
Qed.

Lemma hasHighMemory_iff (pods : list Pod.t) (allData : Payload.t) :
  existsb (podHasHighMemory allData) pods = true <-> ruleHighMemory pods allData.
Proof.
  unfold ruleHighMemory. rewrite existsb_exists. split.
  - intros (pod & Hin & Hmem). apply podHasHighMemory_iff in Hmem.
    destruct Hmem as (m & Hfirst & Hgt). exists pod, m. auto.
  - intros (pod & m & Hin & Hfirst & Hgt). exists pod. split; [exact Hin|].
    apply podHasHighMemory_iff. exists m. auto.
Qed.

Lemma hasCorrelation_iff (pods : list Pod.t) (allData : Payload.t) :
  (positiveCount (logErrorCount allData) && (1 <? sumRestarts pods))%bool = true
  <-> exists n, ruleCorrelated pods allData n.
Proof.
  unfold ruleCorrelated, positiveCount. rewrite andb_true_iff. split.
  - intros [Hcount Htotal]. destruct (logErrorCount allData) as [n|]; [|discriminate].
    exists n. repeat split; lia.
  - intros (n & -> & Hn & Htotal). split; lia.
Qed.

(** C4: the selector returns the message of the first rule, in the fixed
    order high memory, correlated errors, frequent restarts, multiple
    pods, default, whose condition holds. *)
Theorem getMainRestartCause_first_match (h : Host) (pods : list Pod.t) (allData : Payload.t) :
  (ruleHighMemory pods allData ->
     getMainRestartCause h pods allData = msgHighMemory)
  /\ (~ ruleHighMemory pods allData ->
      forall n, ruleCorrelated pods allData n ->
        getMainRestartCause h pods allData = msgCorrelated h n)
  /\ (~ ruleHighMemory pods allData -> ~ (exists n, ruleCorrelated pods allData n) ->
      ruleFrequent pods ->
        getMainRestartCause h pods allData = msgFrequent)
  /\ (~ ruleHighMemory pods allData -> ~ (exists n, ruleCorrelated pods allData n) ->
      ~ ruleFrequent pods -> ruleMultiple pods ->
        getMainRestartCause h pods allData = msgMultiple)
  /\ (~ ruleHighMemory pods allData -> ~ (exists n, ruleCorrelated pods allData n) ->
      ~ ruleFrequent pods -> ~ ruleMultiple pods ->
        getMainRestartCause h pods allData = msgDefault).
Proof.
  unfold getMainRestartCause.
  pose proof (hasHighMemory_iff pods allData) as H1.
  pose proof (hasCorrelation_iff pods allData) as H2.
  destruct (existsb (podHasHighMemory allData) pods).
  { repeat split; try reflexivity; intros Hn; exfalso; apply Hn, H1; reflexivity. }
  assert (N1 : ~ ruleHighMemory pods allData) by (intros R; apply H1 in R; discriminate R).
  split; [intros R; contradiction|].
  destruct (positiveCount (logErrorCount allData) && (1 <? sumRestarts pods))%bool.
  { split.
    - intros _ n (Hn & _ & _). rewrite Hn. reflexivity.
    - repeat split; intros _ Hn; exfalso; apply Hn, H2; reflexivity. }
  assert (N2 : ~ (exists n, ruleCorrelated pods allData n))
    by (intros R; apply H2 in R; discriminate R).
  split; [intros _ n R; exfalso; apply N2; exists n; exact R|].
  unfold ruleFrequent, ruleMultiple.
  destruct (3 <=? sumRestarts pods) eqn:E3.
  { apply Z.leb_le in E3. repeat split; try reflexivity; intros; lia. }
  apply Z.leb_gt in E3.
  split; [intros; lia|].
  destruct (1 <? length pods)%nat eqn:E4.
  { apply Nat.ltb_lt in E4. split; [reflexivity|intros; lia]. }
  apply Nat.ltb_ge in E4. split; [intros; lia|reflexivity].
Qed.

(** One restarted pod at 95% peak memory with ten log errors and five
    restarts: rules 1 and 2 both hold, and the memory message wins. *)
Lemma getMainRestartCause_first_match_witness :
  ruleHighMemory [Examples.podA] Examples.memoryAndErrors
  /\ ruleCorrelated [Examples.podA] Examples.memoryAndErrors 10
  /\ getMainRestartCause Demo.host [Examples.podA] Examples.memoryAndErrors
     = "High memory usage detected - likely OOM (Out of Memory) kills".
Proof.
  assert (R1 : ruleHighMemory [Examples.podA] Examples.memoryAndErrors).
  { exists Examples.podA,
      {| MemoryMetric.podName := "orders-7c9d-a"; MemoryMetric.maxMemory := 95 |}.
    split; [left; reflexivity|]. split; [|reflexivity].
    eexists _, [], []. repeat split. constructor. }
  split; [exact R1|]. split.
  - repeat split.
  - apply (proj1 (getMainRestartCause_first_match
                    Demo.host [Examples.podA] Examples.memoryAndErrors) R1).
Defined.

End RootCauseFacts.

(** ** Finding generator *)

Section FindingGeneratorFacts.

Import Generator.

Context (h : Host).

(** *** Restarts counted only inside the window *)







End FindingGeneratorFacts.

Section SeverityFacts.

Import Generator.

Example podsWithRestarts_sample :
  podsWithRestarts Demo.host
    (Examples.podData [] (Some Examples.restartsData) None)
    [Examples.podA; Examples.podB; Examples.podC; Examples.podD]
  = [Examples.podA].
Proof. vm_compute. reflexivity. Qed.

(** C1 on the code: with five restarts inside the window the first step
    sets [overallStatus] to critical, and the latency step then assigns
    warning unconditionally; the second restart block restores critical. *)
Theorem latency_step_lowers_critical :
  overallStatus (stepRestartSummary Demo.host Examples.restartsAndLatency initialReport)
  = critical
  /\ overallStatus
       (stepLatency Demo.host Examples.restartsAndLatency
          (stepRestartSummary Demo.host Examples.restartsAndLatency initialReport))
     = warning
  /\ ~ status_le critical warning
  /\ statusTrace Demo.host Examples.restartsAndLatency
     = [good; critical; warning; warning; warning; warning; warning; critical; critical].
Proof.
  split; [vm_compute; reflexivity|].
  split; [vm_compute; reflexivity|].
  split; [unfold status_le; simpl; lia|].
  vm_compute. reflexivity.
Qed.

Lemma atLeastWarning_monotone (r : Report) :
  status_le (overallStatus r) (overallStatus (atLeastWarning r)).
Proof. unfold status_le. destruct r as [f rc []]; simpl; lia. Qed.

Lemma status_le_refl (s : Status) : status_le s s.
Proof. unfold status_le. lia. Qed.

Lemma status_le_good (s : Status) : status_le good s.
Proof. unfold status_le. simpl. lia. Qed.

(** Whenever the latency step fires it leaves the status at warning,
    whatever it was. *)
Lemma stepLatency_status (h : Host) (data : Payload.t) (r : Report) :
  overallStatus (stepLatency h data r)
  = if (0 <? length (List.filter (fun m => gt (p95Of h m) (Fin 1000)) (Payload.metrics data)))%nat
    then warning else overallStatus r.
Proof.
  unfold stepLatency.
  destruct (0 <? length _)%nat; reflexivity.
Qed.

Lemma fold_pushFinding_status {A : Type} (text : A -> string) (l : list A) (r : Report) :
  overallStatus (fold_left (fun r x => pushFinding (text x) r) l r) = overallStatus r.
Proof.
  revert r. induction l as [|x l IH]; intros r; simpl; [reflexivity|].
  rewrite IH. reflexivity.
Qed.

Ltac status_cases :=
  unfold status_le, atLeastWarning, setStatus, pushFinding, pushRecommendation; simpl;
  repeat match goal with
         | |- context [if ?c then _ else _] => destruct c; simpl
         | |- context [match ?c with EmptyString => _ | String _ _ => _ end] =>
             destruct c; simpl
         end;
  try match goal with
      | |- context [overallStatus ?r] => destruct (overallStatus r); simpl
      end;
  lia.

(** Every step other than the latency step only raises the status. *)
Lemma stepEndpointErrors_monotone (h : Host) (data : Payload.t) (r : Report) :
  status_le (overallStatus r) (overallStatus (stepEndpointErrors h data r)).
Proof.
  unfold stepEndpointErrors.
  destruct (0 <? length _)%nat; [|apply status_le_refl].
  destruct (reduce1 _ _); status_cases.
Qed.

Lemma stepLogErrors_monotone (h : Host) (data : Payload.t) (r : Report) :
  status_le (overallStatus r) (overallStatus (stepLogErrors h data r)).
Proof.
  unfold stepLogErrors.
  destruct (Payload.errorMetrics data) as [em|]; [|apply status_le_refl].
  destruct (ErrorMetrics.logSummary em) as [ls|]; [|apply status_le_refl].
  destruct (0 <? LogSummary.totalLogErrors ls); [|apply status_le_refl].
  destruct (LogSummary.topMessages ls) as [[|m ms]|]; status_cases.
Qed.

Lemma stepResources_monotone (h : Host) (data : Payload.t) (r : Report) :
  status_le (overallStatus r) (overallStatus (stepResources h data r)).
Proof.
  unfold stepResources.
  destruct (Payload.podMetrics data) as [pm|]; [|apply status_le_refl].
  destruct (PodMetricsData.summary pm) as [sm|]; [|apply status_le_refl].
  destruct (Summary.avgCpuPct sm) as [avgCpu|]; [|apply status_le_refl].
  status_cases.
Qed.

Lemma stepRestartDetail_monotone (h : Host) (data : Payload.t) (r : Report) :
  status_le (overallStatus r) (overallStatus (stepRestartDetail h data r)).
Proof.
  unfold stepRestartDetail.
  destruct (podList data) as [[pm pods]|]; [|apply status_le_refl].
  destruct (0 <? sumRestarts _); [|apply status_le_refl].
  match goal with
  | |- context [fold_left ?f ?l ?r0] =>
      pose proof (fold_pushFinding_status
                    (restartBullet h (analyzeRestartTiming h pm)) l r0) as Hfold;
      destruct (fold_left f l r0) as [f1 rc1 s1]
  end.
  simpl in Hfold. subst s1. status_cases.
Qed.

Lemma stepAllGood_monotone (r : Report) :
  status_le (overallStatus r) (overallStatus (stepAllGood r)).
Proof.
  unfold stepAllGood. destruct (overallStatus r) eqn:E; simpl; rewrite ?E; apply status_le_refl.
Qed.

(** The first restart block starts from [good], so it cannot lower it. *)
Lemma stepRestartSummary_from_good (h : Host) (data : Payload.t) :
  status_le (overallStatus initialReport)
    (overallStatus (stepRestartSummary h data initialReport)).
Proof. apply status_le_good. Qed.

Lemma stepThroughput_keeps_status (h : Host) (data : Payload.t) (r : Report) :
  status_le (overallStatus r) (overallStatus (stepThroughput h data r)).
Proof.
  unfold stepThroughput.
  destruct (0 <? length _)%nat; [|apply status_le_refl].
  destruct (gt _ _); apply status_le_refl.
Qed.

Lemma status_le_trans (a b c : Status) : status_le a b -> status_le b c -> status_le a c.
Proof. unfold status_le. lia. Qed.

(** The lowering is repaired before the function returns: the result is
    never below the status the first restart block had set. *)
Lemma final_status_dominates_first_block (h : Host) (data : Payload.t) :
  status_le (overallStatus (stepRestartSummary h data initialReport))
    (overallStatus (analyzePerformanceData h data)).
Proof.
  unfold analyzePerformanceData, steps. simpl fold_left.
  set (r1 := stepRestartSummary h data initialReport).
  set (r2 := stepLatency h data r1).
  set (r3 := stepEndpointErrors h data r2).
  set (r4 := stepLogErrors h data r3).
  set (r5 := stepThroughput h data r4).
  set (r6 := stepResources h data r5).
  set (r7 := stepRestartDetail h data r6).
  assert (H78 : status_le (overallStatus r7) (overallStatus (stepAllGood r7)))
    by apply stepAllGood_monotone.
  assert (H27 : status_le (overallStatus r2) (overallStatus r7)).
  { eapply status_le_trans; [apply (stepEndpointErrors_monotone h data r2)|].
    eapply status_le_trans; [apply (stepLogErrors_monotone h data r3)|].
    eapply status_le_trans; [apply (stepThroughput_keeps_status h data r4)|].
    eapply status_le_trans; [apply (stepResources_monotone h data r5)|].
    apply (stepRestartDetail_monotone h data r6). }
  destruct (overallStatus r1) eqn:E1.
  - apply status_le_good.
  - eapply status_le_trans; [|exact H78].
    eapply status_le_trans; [|exact H27].
    subst r2. rewrite stepLatency_status, E1.
    destruct (0 <? length _)%nat; apply status_le_refl.
  - eapply status_le_trans; [|exact H78].
    assert (H7 : overallStatus r7 = critical); [|rewrite H7; apply status_le_refl].
    subst r7 r1. revert E1. unfold stepRestartSummary, stepRestartDetail.
    destruct (podList data) as [[pm pods]|]; [|discriminate].
    destruct (0 <? sumRestarts (podsWithRestarts h pm pods)); [|discriminate].
    destruct (5 <=? sumRestarts (podsWithRestarts h pm pods)); [|discriminate].
    intros _. reflexivity.
Qed.

End SeverityFacts.

Section FrameFacts.

Import Generator.

(** C10: the throughput step leaves [overallStatus] and the
    recommendations untouched, and either leaves the findings untouched
    or appends the single throughput line, built from the total request
    count, the window length in minutes and their quotient. *)
Theorem stepThroughput_frame (h : Host) (data : Payload.t) (r : Report) :
  overallStatus (stepThroughput h data r) = overallStatus r
  /\ recommendations (stepThroughput h data r) = recommendations r
  /\ (findings (stepThroughput h data r) = findings r
      \/ exists totalRequests,
           totalRequests
           = fold_left (fun sum m => add sum (parseInt h (orZero (Metric.requests m))))
               (Payload.metrics data) (Fin 0)
           /\ gt totalRequests (Fin 0) = true
           /\ findings (stepThroughput h data r)
              = findings r
                ++ ["<strong>Throughput:</strong> " +:+ toStr h (VNum totalRequests)
                      +:+ " total requests over "
                      +:+ toFixed h 0 (timeRangeMinutes h data)
                      +:+ " minutes (avg: "
                      +:+ toFixed h 2 (div totalRequests (timeRangeMinutes h data))
                      +:+ " req/min)"]).
Proof.
  unfold stepThroughput.
  destruct (0 <? length (Payload.metrics data))%nat; [|auto].
  destruct (gt _ _) eqn:E; [|auto].
  repeat split. right. eexists. split; [reflexivity|]. split; [exact E|]. reflexivity.
Qed.

Example throughput_is_fifth_step (h : Host) (data : Payload.t) :
  nth_error (steps h data) 4 = Some (stepThroughput h data).
Proof. reflexivity. Qed.

(** C9: the verdict does not depend on the host clock: whatever the time
    of the two runs, the same payload yields the same findings,
    recommendations and overall status. *)
Theorem analyzePerformanceData_clock_independent
    (h : Host) (now1 now2 : num) (data : Payload.t) :
  analyzePerformanceData (atTime now1 h) data = analyzePerformanceData (atTime now2 h) data
  /\ findings (analyzePerformanceData (atTime now1 h) data)
     = findings (analyzePerformanceData (atTime now2 h) data)
  /\ recommendations (analyzePerformanceData (atTime now1 h) data)
     = recommendations (analyzePerformanceData (atTime now2 h) data)
  /\ overallStatus (analyzePerformanceData (atTime now1 h) data)
     = overallStatus (analyzePerformanceData (atTime now2 h) data).
Proof.
  assert (E : forall now, analyzePerformanceData (atTime now h) data
                          = analyzePerformanceData h data).
  { intros now.
    unfold analyzePerformanceData, steps, stepRestartSummary, stepLatency,
      stepEndpointErrors, stepLogErrors, stepThroughput, stepResources,
      stepRestartDetail, restartBullet, podsWithRestarts, getMainRestartCause,
      msgCorrelated, throughputText, timeRangeMinutes, requestsOf,
      worseMetricErrorRate, errorRateOf, errorsOf, p95Of, analyzeRestartTiming,
      classifySeries, classifyPoints, duringEntry, beforeEntry, showZ, showNat.
    cbn [atTime parseFloat parseInt newDate toLocaleString toFixed toStr].
    reflexivity. }
  rewrite !E. repeat split.
Qed.

(** C8: on a restarted pod without restart-timing entry the first body of
    [generateSummaryObservations] reports the restarts as inside the
    window and the second body does not. *)
Theorem generateSummaryObservations_bodies_differ :
  exists (h : Host) (data : Payload.t),
    analyzeRestartTiming h (Examples.podData [Examples.podD] None None)
      !! Pod.podName Examples.podD = None
    /\ generateSummaryObservations_first h data
       = ["Pod Restarts: 2 restart(s) across 1 pod(s) during monitoring window"]
    /\ generateSummaryObservations h data = []
    /\ generateSummaryObservations_first h data <> generateSummaryObservations h data.
Proof.
  exists Demo.host, Examples.untimedRestart.
  split; [reflexivity|].
  split; [vm_compute; reflexivity|].
  split; [vm_compute; reflexivity|].
  vm_compute. discriminate.
Qed.

(** The end-to-end scenario: one latency finding naming the endpoint with
    its p95 in seconds, the throughput line, status warning and the
    recommendation on slow endpoints. *)
Example orders_scenario :
  analyzePerformanceData Demo.host Examples.ordersOnly
  = {| findings :=
         ["<strong>High P95 Latency Detected:</strong> 1 endpoint(s) with P95 > 1s (p95: 1.50s). Endpoints: <strong>GET /orders</strong>";
          "<strong>Throughput:</strong> 1000 total requests over 3 minutes (avg: 333.33 req/min)"];
       recommendations :=
         ["Investigate slow endpoints for database query optimization, external API calls, or inefficient algorithms"];
       overallStatus := warning |}.
Proof. vm_compute. reflexivity. Qed.

(** A rising series, a flat positive one and a flat zero one. *)
Example classifier_samples :
  analyzeRestartTiming Demo.host (Examples.podData [] (Some Examples.restartsData) None)
    !! "orders-7c9d-a"
  = Some (duringEntry Demo.host Examples.t2)
  /\ analyzeRestartTiming Demo.host (Examples.podData [] (Some Examples.restartsData) None)
       !! "orders-7c9d-b"
     = Some (beforeEntry Demo.host (ofZ Examples.t0))
  /\ analyzeRestartTiming Demo.host (Examples.podData [] (Some Examples.restartsData) None)
       !! "orders-7c9d-c"
     = None.
Proof. repeat split; vm_compute; reflexivity. Qed.

End FrameFacts.

(** * Further properties of the analysis code *)

(** ** The verdict of the finding generator *)

Section VerdictFacts.

Import Generator.

Context (h : Host).

Lemma filter_nonempty_existsb {A : Type} (p : A -> bool) (l : list A) :
  (0 <? length (List.filter p l))%nat = existsb p l.
Proof.
  induction l as [|x l IH]; simpl; [reflexivity|].
  destruct (p x); simpl; [reflexivity|exact IH].
Qed.

Lemma stepRestartSummary_status (data : Payload.t) (r : Report) :
  overallStatus (stepRestartSummary h data r)
  = if 0 <? inWindowRestarts h data
    then (if 5 <=? inWindowRestarts h data then critical else warning)
    else overallStatus r.
Proof.
  unfold stepRestartSummary, inWindowRestarts.
  destruct (podList data) as [[pm pods]|]; [|reflexivity].
  destruct (0 <? sumRestarts _); reflexivity.
Qed.

Lemma stepLatency_status_trigger (data : Payload.t) (r : Report) :
  overallStatus (stepLatency h data r)
  = if hasHighLatency h data then warning else overallStatus r.
Proof.
  unfold stepLatency, hasHighLatency. rewrite filter_nonempty_existsb.
  destruct (existsb _ _); reflexivity.
Qed.

Lemma stepEndpointErrors_status (data : Payload.t) (r : Report) :
  overallStatus (stepEndpointErrors h data r)
  = if hasEndpointErrors h data then raise (overallStatus r) else overallStatus r.
Proof.
  unfold stepEndpointErrors, hasEndpointErrors. rewrite filter_nonempty_existsb.
  destruct (existsb _ _); [|reflexivity].
  destruct (reduce1 _ _); simpl; destruct (overallStatus r); reflexivity.
Qed.

Lemma stepLogErrors_status (data : Payload.t) (r : Report) :
  overallStatus (stepLogErrors h data r)
  = if hasLogErrors data then raise (overallStatus r) else overallStatus r.
Proof.
  unfold stepLogErrors, hasLogErrors, logErrorCount, positiveCount.
  destruct (Payload.errorMetrics data) as [em|]; [|reflexivity].
  destruct (ErrorMetrics.logSummary em) as [ls|]; [|reflexivity].
  destruct (0 <? LogSummary.totalLogErrors ls); [|reflexivity].
  destruct (LogSummary.topMessages ls) as [[|m ms]|];
    try destruct (negb _); simpl; destruct (overallStatus r); reflexivity.
Qed.

Lemma stepThroughput_status (data : Payload.t) (r : Report) :
  overallStatus (stepThroughput h data r) = overallStatus r.
Proof.
  unfold stepThroughput.
  destruct (0 <? length _)%nat; [|reflexivity].
  destruct (gt _ _); reflexivity.
Qed.

Lemma raise_idem (s : Status) : raise (raise s) = raise s.
Proof. destruct s; reflexivity. Qed.

Lemma stepResources_status (data : Payload.t) (r : Report) :
  overallStatus (stepResources h data r)
  = if hasResourcePressure data then raise (overallStatus r) else overallStatus r.
Proof.
  unfold stepResources, hasResourcePressure.
  destruct (Payload.podMetrics data) as [pm|]; [|reflexivity].
  destruct (PodMetricsData.summary pm) as [sm|]; [|reflexivity].
  destruct (Summary.avgCpuPct sm) as [avgCpu|]; [|reflexivity].
  destruct (Qgtb (Summary.maxCpuPct sm) 80), (Qgtb (Summary.maxMemoryPct sm) 80);
    simpl; destruct (overallStatus r); reflexivity.
Qed.

Lemma stepRestartDetail_status (data : Payload.t) (r : Report) :
  overallStatus (stepRestartDetail h data r)
  = if 0 <? inWindowRestarts h data
    then (if 5 <=? inWindowRestarts h data then critical
          else if 2 <=? inWindowRestarts h data then raise (overallStatus r)
          else overallStatus r)
    else overallStatus r.
Proof.
  unfold stepRestartDetail, inWindowRestarts.
  destruct (podList data) as [[pm pods]|]; [|reflexivity].
  destruct (0 <? sumRestarts _); [|reflexivity].
  match goal with
  | |- context [fold_left ?f ?l ?r0] =>
      pose proof (fold_pushFinding_status
                    (restartBullet h (analyzeRestartTiming h pm)) l r0) as Hfold;
      destruct (fold_left f l r0) as [f1 rc1 s1]
  end.
  simpl in Hfold. subst s1.
  repeat match goal with
         | |- context [if ?c then _ else _] => destruct c; simpl
         | |- context [match ?c with EmptyString => _ | String _ _ => _ end] =>
             destruct c; simpl
         end;
    destruct (overallStatus r); reflexivity.
Qed.

Lemma stepAllGood_status (r : Report) :
  overallStatus (stepAllGood r) = overallStatus r.
Proof. unfold stepAllGood. destruct (overallStatus r) eqn:E; simpl; congruence. Qed.

(** The verdict is the closing block applied to the run of the seven
    blocks before it. *)
Lemma analyzePerformanceData_blocks (data : Payload.t) :
  analyzePerformanceData h data
  = stepAllGood (fold_left (fun r step => step r) (blocks h data) initialReport).
Proof. reflexivity. Qed.

(** The status the seven blocks leave for the closing one. *)
Lemma blocks_status (data : Payload.t) :
  overallStatus (fold_left (fun r step => step r) (blocks h data) initialReport)
  = if 5 <=? inWindowRestarts h data then critical
    else if ((0 <? inWindowRestarts h data) || hasHighLatency h data
             || hasEndpointErrors h data || hasLogErrors data
             || hasResourcePressure data)%bool
    then warning
    else good.
Proof.
  unfold blocks. simpl fold_left.
  rewrite stepRestartDetail_status, stepResources_status,
    stepThroughput_status, stepLogErrors_status, stepEndpointErrors_status,
    stepLatency_status_trigger, stepRestartSummary_status.
  simpl overallStatus.
  destruct (5 <=? inWindowRestarts h data) eqn:E5,
           (0 <? inWindowRestarts h data) eqn:E0,
           (2 <=? inWindowRestarts h data) eqn:E2;
    try (exfalso; lia);
    destruct (hasHighLatency h data), (hasEndpointErrors h data),
      (hasLogErrors data), (hasResourcePressure data); reflexivity.
Qed.

(** X1: the returned severity as a closed formula of the payload: critical
    exactly from five restarts inside the window on, otherwise warning
    as soon as one trigger holds, otherwise good.  In particular the
    latency block's assignment decides between warning and critical by
    the restart count alone, and the closing block never changes the
    status. *)
Theorem overallStatus_formula (data : Payload.t) :
  overallStatus (analyzePerformanceData h data)
  = if 5 <=? inWindowRestarts h data then critical
    else if ((0 <? inWindowRestarts h data) || hasHighLatency h data
             || hasEndpointErrors h data || hasLogErrors data
             || hasResourcePressure data)%bool
    then warning
    else good.
Proof.
  rewrite analyzePerformanceData_blocks, stepAllGood_status.
  apply blocks_status.
Qed.

End VerdictFacts.

Section BlockFacts.

Import Generator.

Context (h : Host).

Lemma fold_pushFinding_findings {A : Type} (text : A -> string) (l : list A) (r : Report) :
  findings (fold_left (fun r x => pushFinding (text x) r) l r) = findings r ++ map text l
  /\ recommendations (fold_left (fun r x => pushFinding (text x) r) l r) = recommendations r.
Proof.
  revert r. induction l as [|x l IH]; intros r; simpl.
  - rewrite app_nil_r. auto.
  - destruct (IH (pushFinding (text x) r)) as [Hf Hr]. rewrite Hf, Hr. simpl.
    rewrite <- app_assoc. auto.
Qed.

Ltac appends :=
  unfold atLeastWarning, setStatus, pushFinding, pushRecommendation; simpl;
  rewrite <- ?app_assoc, ?app_nil_r; simpl; auto.

Lemma stepRestartSummary_appendOnly (data : Payload.t) :
  appendOnly (stepRestartSummary h data).
Proof.
  intros r. unfold stepRestartSummary.
  destruct (podList data) as [[pm pods]|]; [|appends].
  destruct (0 <? sumRestarts _); appends.
Qed.

Lemma stepLatency_appendOnly (data : Payload.t) : appendOnly (stepLatency h data).
Proof.
  intros r. unfold stepLatency. destruct (0 <? length _)%nat; appends.
Qed.

Lemma stepEndpointErrors_appendOnly (data : Payload.t) :
  appendOnly (stepEndpointErrors h data).
Proof.
  intros r. unfold stepEndpointErrors.
  destruct (0 <? length _)%nat; [|appends].
  destruct (reduce1 _ _); appends.
Qed.

Lemma stepLogErrors_appendOnly (data : Payload.t) : appendOnly (stepLogErrors h data).
Proof.
  intros r. unfold stepLogErrors.
  destruct (Payload.errorMetrics data) as [em|]; [|appends].
  destruct (ErrorMetrics.logSummary em) as [ls|]; [|appends].
  destruct (0 <? LogSummary.totalLogErrors ls); [|appends].
  destruct (LogSummary.topMessages ls) as [[|m ms]|]; try destruct (negb _); appends.
Qed.

Lemma stepThroughput_appendOnly (data : Payload.t) : appendOnly (stepThroughput h data).
Proof.
  intros r. unfold stepThroughput.
  destruct (0 <? length _)%nat; [|appends].
  destruct (gt _ _); appends.
Qed.

Lemma stepResources_appendOnly (data : Payload.t) : appendOnly (stepResources h data).
Proof.
  intros r. unfold stepResources.
  destruct (Payload.podMetrics data) as [pm|]; [|appends].
  destruct (PodMetricsData.summary pm) as [sm|]; [|appends].
  destruct (Summary.avgCpuPct sm) as [avgCpu|]; [|appends].
  destruct (Qgtb (Summary.maxCpuPct sm) 80), (Qgtb (Summary.maxMemoryPct sm) 80); appends.
Qed.

Lemma stepRestartDetail_appendOnly (data : Payload.t) :
  appendOnly (stepRestartDetail h data).
Proof.
  intros r. unfold stepRestartDetail.
  destruct (podList data) as [[pm pods]|]; [|appends].
  destruct (0 <? sumRestarts _); [|appends].
  repeat match goal with
         | |- context [fold_left ?f ?l ?r0] =>
             let Hf := fresh "Hf" in
             let Hr := fresh "Hr" in
             destruct (fold_pushFinding_findings
                         (restartBullet h (analyzeRestartTiming h pm)) l r0) as [Hf Hr];
             destruct (fold_left f l r0) as [? ? ?]; simpl in Hf, Hr; subst
         end.
  repeat match goal with
         | |- context [if ?c then _ else _] => destruct c; simpl
         | |- context [match ?c with EmptyString => _ | String _ _ => _ end] =>
             destruct c; simpl
         end; appends.
Qed.

(** Every block before the closing one only appends, and what it appends
    does not depend on what the earlier blocks have produced. *)
Lemma blocks_appendOnly (data : Payload.t) : Forall appendOnly (blocks h data).
Proof.
  unfold blocks.
  apply List.Forall_cons; [apply stepRestartSummary_appendOnly|].
  apply List.Forall_cons; [apply stepLatency_appendOnly|].
  apply List.Forall_cons; [apply stepEndpointErrors_appendOnly|].
  apply List.Forall_cons; [apply stepLogErrors_appendOnly|].
  apply List.Forall_cons; [apply stepThroughput_appendOnly|].
  apply List.Forall_cons; [apply stepResources_appendOnly|].
  apply List.Forall_cons; [apply stepRestartDetail_appendOnly|].
  apply List.Forall_nil.
Qed.

Lemma run_blocks (bs : list (Report -> Report)) (r : Report) :
  Forall appendOnly bs ->
  findings (fold_left (fun r step => step r) bs r)
  = findings r ++ concat (map (fun b => findings (b initialReport)) bs)
  /\ recommendations (fold_left (fun r step => step r) bs r)
     = recommendations r ++ concat (map (fun b => recommendations (b initialReport)) bs).
Proof.
  intros Hall. revert r. induction Hall as [|b bs Hb _ IH]; intros r; simpl.
  - rewrite !app_nil_r. auto.
  - destruct (IH (b r)) as [Hf Hr]. destruct (Hb r) as [Hbf Hbr].
    rewrite Hf, Hr, Hbf, Hbr, <- !app_assoc. auto.
Qed.

(** What the seven blocks hand to the closing one: the concatenation of
    what each block yields on the empty report. *)
Lemma blocks_output (data : Payload.t) :
  findings (fold_left (fun r step => step r) (blocks h data) initialReport)
  = concat (map (fun b => findings (b initialReport)) (blocks h data))
  /\ recommendations (fold_left (fun r step => step r) (blocks h data) initialReport)
     = concat (map (fun b => recommendations (b initialReport)) (blocks h data)).
Proof.
  destruct (run_blocks (blocks h data) initialReport (blocks_appendOnly data)) as [Hf Hr].
  rewrite Hf, Hr. split; reflexivity.
Qed.

(** X2: the findings and the recommendations of the verdict are the
    concatenation, in program order, of what each of the seven blocks
    yields on its own, followed by the affirmative finding and the two
    generic recommendations exactly when the status is good.  No block
    removes, reorders or rewrites what an earlier block has pushed. *)
Theorem verdict_decomposition (data : Payload.t) :
  findings (analyzePerformanceData h data)
  = concat (map (fun b => findings (b initialReport)) (blocks h data))
    ++ (match overallStatus (analyzePerformanceData h data) with
        | good => [allGoodFinding]
        | _ => []
        end)
  /\ recommendations (analyzePerformanceData h data)
     = concat (map (fun b => recommendations (b initialReport)) (blocks h data))
       ++ (match overallStatus (analyzePerformanceData h data) with
           | good => genericRecommendations
           | _ => []
           end).
Proof.
  rewrite analyzePerformanceData_blocks, stepAllGood_status.
  destruct (blocks_output data) as [Hf Hr].
  set (R := fold_left (fun r step => step r) (blocks h data) initialReport) in *.
  unfold stepAllGood.
  destruct (overallStatus R) eqn:Es;
    cbn [findings recommendations pushFinding pushRecommendation];
    rewrite Hf, Hr, ?app_nil_r; split; try reflexivity.
  rewrite <- app_assoc. reflexivity.
Qed.

End BlockFacts.

Section JustificationFacts.

Import Generator.

Context (h : Host).

Lemma existsb_filter_nonempty {A : Type} (p : A -> bool) (l : list A) :
  existsb p l = true -> List.filter p l <> [].
Proof.
  intros He Hnil. rewrite <- filter_nonempty_existsb, Hnil in He. discriminate He.
Qed.

Lemma status_eq_dec (a b : Status) : {a = b} + {a <> b}.
Proof. decide equality. Qed.

Lemma app_not_nil_r {A : Type} (l : list A) (x : A) : l ++ [x] <> [].
Proof. destruct l; discriminate. Qed.

Lemma stepRestartSummary_justified (data : Payload.t) :
  justified (stepRestartSummary h data).
Proof.
  intros r Hs. revert Hs. unfold stepRestartSummary.
  destruct (podList data) as [[pm pods]|]; [|congruence].
  destruct (0 <? sumRestarts _); [|congruence].
  intros _. discriminate.
Qed.

Lemma stepLatency_justified (data : Payload.t) : justified (stepLatency h data).
Proof.
  intros r Hs. revert Hs. unfold stepLatency.
  destruct (0 <? length _)%nat; [|congruence]. intros _. discriminate.
Qed.

Lemma stepEndpointErrors_justified (data : Payload.t) :
  justified (stepEndpointErrors h data).
Proof.
  intros r Hs. revert Hs. unfold stepEndpointErrors.
  destruct (0 <? length _)%nat; [|congruence]. intros _.
  destruct (reduce1 _ _); discriminate.
Qed.

Lemma stepLogErrors_justified (data : Payload.t) : justified (stepLogErrors h data).
Proof.
  intros r Hs. revert Hs. unfold stepLogErrors.
  destruct (Payload.errorMetrics data) as [em|]; [|congruence].
  destruct (ErrorMetrics.logSummary em) as [ls|]; [|congruence].
  destruct (0 <? LogSummary.totalLogErrors ls); [|congruence]. intros _.
  destruct (LogSummary.topMessages ls) as [[|m ms]|]; try destruct (negb _); discriminate.
Qed.

Lemma stepThroughput_justified (data : Payload.t) : justified (stepThroughput h data).
Proof. intros r Hs. rewrite stepThroughput_status in Hs. congruence. Qed.

Lemma stepResources_justified (data : Payload.t) : justified (stepResources h data).
Proof.
  intros r Hs. revert Hs. unfold stepResources.
  destruct (Payload.podMetrics data) as [pm|]; [|congruence].
  destruct (PodMetricsData.summary pm) as [sm|]; [|congruence].
  destruct (Summary.avgCpuPct sm) as [avgCpu|]; [|congruence]. intros _.
  destruct (Qgtb (Summary.maxCpuPct sm) 80), (Qgtb (Summary.maxMemoryPct sm) 80);
    discriminate.
Qed.

Lemma stepRestartDetail_justified (data : Payload.t) :
  justified (stepRestartDetail h data).
Proof.
  intros r Hs. revert Hs. unfold stepRestartDetail.
  destruct (podList data) as [[pm pods]|]; [|congruence].
  destruct (0 <? sumRestarts _) eqn:E; [|congruence].
  intros _ Hnil.
  destruct (fold_pushFinding_findings (restartBullet h (analyzeRestartTiming h pm))
              (podsWithRestarts h pm pods)
              (pushFinding
                 ("<strong>Pod Restarts Detected:</strong> "
                    +:+ showZ h (sumRestarts (podsWithRestarts h pm pods))
                    +:+ " restart(s) during monitoring window across "
                    +:+ showNat h (length (podsWithRestarts h pm pods)) +:+ " pod(s)")
                 initialReport)) as [Hfold _].
  revert Hnil.
  repeat match goal with
         | |- context [if ?c then _ else _] => destruct c; simpl
         | |- context [match ?c with EmptyString => _ | String _ _ => _ end] =>
             destruct c; simpl
         end;
    try (intros Hnil; apply app_not_nil_r in Hnil; exact Hnil);
    rewrite Hfold; simpl; discriminate.
Qed.

Lemma blocks_justified (data : Payload.t) : Forall justified (blocks h data).
Proof.
  unfold blocks.
  apply List.Forall_cons; [apply stepRestartSummary_justified|].
  apply List.Forall_cons; [apply stepLatency_justified|].
  apply List.Forall_cons; [apply stepEndpointErrors_justified|].
  apply List.Forall_cons; [apply stepLogErrors_justified|].
  apply List.Forall_cons; [apply stepThroughput_justified|].
  apply List.Forall_cons; [apply stepResources_justified|].
  apply List.Forall_cons; [apply stepRestartDetail_justified|].
  apply List.Forall_nil.
Qed.

Lemma status_change_needs_finding (bs : list (Report -> Report)) (r : Report) :
  Forall justified bs ->
  overallStatus (fold_left (fun r step => step r) bs r) <> overallStatus r ->
  concat (map (fun b => findings (b initialReport)) bs) <> [].
Proof.
  intros Hall. revert r. induction Hall as [|b bs Hb _ IH]; intros r; simpl.
  - congruence.
  - intros Hs Hnil. apply app_eq_nil in Hnil. destruct Hnil as [Hb0 Hrest].
    destruct (status_eq_dec (overallStatus (b r)) (overallStatus r)) as [Heq|Hne].
    + apply (IH (b r)); [congruence|exact Hrest].
    + apply (Hb r Hne Hb0).
Qed.

(** X3: no block changes the severity silently: whenever one of the seven
    blocks, run on any report, leaves a status other than the one it
    found, it has appended at least one finding to that report. *)
Theorem status_change_adds_finding (data : Payload.t) (b : Report -> Report) (r : Report) :
  In b (blocks h data) ->
  overallStatus (b r) <> overallStatus r ->
  exists added, added <> [] /\ findings (b r) = findings r ++ added.
Proof.
  intros Hin Hs.
  pose proof (proj1 (List.Forall_forall _ _) (blocks_appendOnly h data) b Hin) as Ha.
  pose proof (proj1 (List.Forall_forall _ _) (blocks_justified data) b Hin) as Hj.
  exists (findings (b initialReport)).
  split; [exact (Hj r Hs)|exact (proj1 (Ha r))].
Qed.

(** X4: the verdict always carries at least one finding: either a block
    has raised the status, and then it has pushed a finding, or the
    status is still good and the closing block pushes the affirmative
    one. *)
Theorem findings_never_empty (data : Payload.t) :
  findings (analyzePerformanceData h data) <> [].
Proof.
  rewrite analyzePerformanceData_blocks.
  destruct (blocks_output h data) as [Hf _].
  unfold stepAllGood.
  destruct (overallStatus (fold_left _ _ _)) eqn:Es.
  - cbn [findings pushFinding pushRecommendation]. apply app_not_nil_r.
  - rewrite Hf.
    apply (status_change_needs_finding (blocks h data) initialReport (blocks_justified data)).
    rewrite Es. discriminate.
  - rewrite Hf.
    apply (status_change_needs_finding (blocks h data) initialReport (blocks_justified data)).
    rewrite Es. discriminate.
Qed.

End JustificationFacts.

Lemma status_change_adds_finding_witness :
  In (Generator.stepLatency Demo.host Examples.ordersOnly)
     (Generator.blocks Demo.host Examples.ordersOnly)
  /\ Generator.overallStatus
       (Generator.stepLatency Demo.host Examples.ordersOnly Generator.initialReport)
     <> Generator.overallStatus Generator.initialReport
  /\ exists added,
       added <> []
       /\ Generator.findings
            (Generator.stepLatency Demo.host Examples.ordersOnly Generator.initialReport)
          = Generator.findings Generator.initialReport ++ added.
Proof.
  assert (Hin : In (Generator.stepLatency Demo.host Examples.ordersOnly)
                   (Generator.blocks Demo.host Examples.ordersOnly))
    by (right; left; reflexivity).
  assert (Hs : Generator.overallStatus
                 (Generator.stepLatency Demo.host Examples.ordersOnly Generator.initialReport)
               <> Generator.overallStatus Generator.initialReport)
    by (vm_compute; discriminate).
  split; [exact Hin|]. split; [exact Hs|].
  exact (status_change_adds_finding Demo.host Examples.ordersOnly _ _ Hin Hs).
Defined.

Section GoodVerdictFacts.

Import Generator.

Context (h : Host).

Lemma stepLatency_quiet (data : Payload.t) :
  hasHighLatency h data = false -> stepLatency h data initialReport = initialReport.
Proof.
  unfold stepLatency, hasHighLatency. rewrite filter_nonempty_existsb.
  intros ->. reflexivity.
Qed.

Lemma stepResources_quiet (data : Payload.t) :
  hasResourcePressure data = false ->
  recommendations (stepResources h data initialReport) = [].
Proof.
  unfold stepResources, hasResourcePressure.
  destruct (Payload.podMetrics data) as [pm|]; [|reflexivity].
  destruct (PodMetricsData.summary pm) as [sm|]; [|reflexivity].
  destruct (Summary.avgCpuPct sm) as [avgCpu|]; [|reflexivity].
  destruct (Qgtb (Summary.maxCpuPct sm) 80), (Qgtb (Summary.maxMemoryPct sm) 80);
    simpl; congruence.
Qed.

Lemma stepRestartDetail_quiet (data : Payload.t) :
  (0 <? inWindowRestarts h data) = false ->
  stepRestartDetail h data initialReport = initialReport.
Proof.
  unfold stepRestartDetail, inWindowRestarts.
  destruct (podList data) as [[pm pods]|]; [|reflexivity].
  intros ->. reflexivity.
Qed.

Lemma stepRestartSummary_no_recommendation (data : Payload.t) (r : Report) :
  recommendations (stepRestartSummary h data r) = recommendations r.
Proof.
  unfold stepRestartSummary.
  destruct (podList data) as [[pm pods]|]; [|reflexivity].
  destruct (0 <? sumRestarts _); reflexivity.
Qed.

Lemma stepEndpointErrors_no_recommendation (data : Payload.t) (r : Report) :
  recommendations (stepEndpointErrors h data r) = recommendations r.
Proof.
  unfold stepEndpointErrors.
  destruct (0 <? length _)%nat; [|reflexivity].
  destruct (reduce1 _ _); reflexivity.
Qed.

Lemma stepLogErrors_no_recommendation (data : Payload.t) (r : Report) :
  recommendations (stepLogErrors h data r) = recommendations r.
Proof.
  unfold stepLogErrors.
  destruct (Payload.errorMetrics data) as [em|]; [|reflexivity].
  destruct (ErrorMetrics.logSummary em) as [ls|]; [|reflexivity].
  destruct (0 <? LogSummary.totalLogErrors ls); [|reflexivity].
  destruct (LogSummary.topMessages ls) as [[|m ms]|]; try destruct (negb _); reflexivity.
Qed.

Lemma stepThroughput_no_recommendation (data : Payload.t) (r : Report) :
  recommendations (stepThroughput h data r) = recommendations r.
Proof.
  unfold stepThroughput.
  destruct (0 <? length _)%nat; [|reflexivity].
  destruct (gt _ _); reflexivity.
Qed.

(** X5: a good verdict carries the two generic recommendations and
    nothing else, and its last finding is the affirmative one: no block
    recommends anything without raising the status. *)
Theorem good_verdict_shape (data : Payload.t) :
  overallStatus (analyzePerformanceData h data) = good ->
  recommendations (analyzePerformanceData h data) = genericRecommendations
  /\ exists earlier,
       findings (analyzePerformanceData h data) = earlier ++ [allGoodFinding].
Proof.
  rewrite analyzePerformanceData_blocks, stepAllGood_status.
  intros Hgood. unfold stepAllGood. rewrite Hgood.
  cbn [findings recommendations pushFinding pushRecommendation].
  split; [|eexists; reflexivity].
  destruct (blocks_output h data) as [_ Hr]. rewrite Hr, <- app_assoc. clear Hr.
  rewrite blocks_status in Hgood.
  destruct (5 <=? inWindowRestarts h data); [discriminate|].
  destruct (0 <? inWindowRestarts h data) eqn:E0; [discriminate|].
  destruct (hasHighLatency h data) eqn:EL; [discriminate|].
  destruct (hasEndpointErrors h data); [discriminate|].
  destruct (hasLogErrors data); [discriminate|].
  destruct (hasResourcePressure data) eqn:ER; [discriminate|].
  unfold blocks. cbn [map concat].
  rewrite stepRestartSummary_no_recommendation, (stepLatency_quiet data EL),
    stepEndpointErrors_no_recommendation, stepLogErrors_no_recommendation,
    stepThroughput_no_recommendation, (stepResources_quiet data ER),
    (stepRestartDetail_quiet data E0).
  reflexivity.
Qed.

Lemma add_NaN_r (a : num) : add a NaN = NaN.
Proof. destruct a; reflexivity. Qed.

Lemma fold_add_NaN {A : Type} (f : A -> num) (l : list A) :
  fold_left (fun sum x => add sum (f x)) l NaN = NaN.
Proof. induction l as [|x l IH]; simpl; [reflexivity|exact IH]. Qed.

Lemma fold_add_poisoned {A : Type} (f : A -> num) (l : list A) (x : A) (init : num) :
  In x l -> f x = NaN -> fold_left (fun sum x => add sum (f x)) l init = NaN.
Proof.
  revert init. induction l as [|y l IH]; intros init; simpl; [intros []|].
  intros [->|Hin] Hx.
  - rewrite Hx, add_NaN_r. apply fold_add_NaN.
  - apply IH; assumption.
Qed.

(** X6: one request count that does not parse suppresses the throughput
    finding altogether: the step returns the report unchanged. *)
Theorem unparsable_requests_suppress_throughput
    (data : Payload.t) (m : Metric.t) (r : Report) :
  In m (Payload.metrics data) ->
  parseInt h (orZero (Metric.requests m)) = NaN ->
  stepThroughput h data r = r.
Proof.
  intros Hin Hnan. unfold stepThroughput.
  destruct (0 <? length _)%nat; [|reflexivity].
  rewrite (fold_add_poisoned (requestsOf h) (Payload.metrics data) m (Fin 0) Hin Hnan).
  reflexivity.
Qed.

End GoodVerdictFacts.

Lemma good_verdict_shape_witness :
  Generator.overallStatus (Generator.analyzePerformanceData Demo.host Examples.quiet)
  = Generator.good
  /\ Generator.recommendations (Generator.analyzePerformanceData Demo.host Examples.quiet)
     = Generator.genericRecommendations
  /\ exists earlier,
       Generator.findings (Generator.analyzePerformanceData Demo.host Examples.quiet)
       = earlier ++ [Generator.allGoodFinding].
Proof.
  split; [reflexivity|].
  apply (good_verdict_shape Demo.host Examples.quiet). reflexivity.
Defined.

Lemma unparsable_requests_suppress_throughput_witness :
  In Examples.healthUncounted (Payload.metrics Examples.unparsableRequests)
  /\ parseInt Demo.host (orZero (Metric.requests Examples.healthUncounted)) = NaN
  /\ Generator.stepThroughput Demo.host Examples.unparsableRequests Generator.initialReport
     = Generator.initialReport.
Proof.
  assert (Hin : In Examples.healthUncounted (Payload.metrics Examples.unparsableRequests))
    by (simpl; auto).
  split; [exact Hin|]. split; [reflexivity|].
  apply (unparsable_requests_suppress_throughput Demo.host Examples.unparsableRequests
           Examples.healthUncounted Generator.initialReport Hin).
  reflexivity.
Defined.

Section UntimedPodFacts.

Import Generator.

Context (h : Host).







End UntimedPodFacts.


(** ** Helper methods of the report generator *)

Section EscapeFacts.

Import Helpers.

Lemma list_ascii_app (a b : string) :
  list_ascii_of_string (a +:+ b) = list_ascii_of_string a ++ list_ascii_of_string b.
Proof. induction a as [|c a IH]; simpl; [reflexivity|]. rewrite IH. reflexivity. Qed.

Lemma escapeChar_safe (c : ascii) :
  Forall (fun x => x <> "<"%char /\ x <> ">"%char /\ x <> ascii_of_nat 34 /\ x <> "'"%char)
    (list_ascii_of_string (escapeChar c)).
Proof.
  unfold escapeChar.
  destruct (Ascii.eqb c "&") eqn:E1;
    [repeat (apply List.Forall_cons; [repeat split; discriminate|]); apply List.Forall_nil|].
  destruct (Ascii.eqb c "<") eqn:E2;
    [repeat (apply List.Forall_cons; [repeat split; discriminate|]); apply List.Forall_nil|].
  destruct (Ascii.eqb c ">") eqn:E3;
    [repeat (apply List.Forall_cons; [repeat split; discriminate|]); apply List.Forall_nil|].
  destruct (Ascii.eqb c (ascii_of_nat 34)) eqn:E4;
    [repeat (apply List.Forall_cons; [repeat split; discriminate|]); apply List.Forall_nil|].
  destruct (Ascii.eqb c "'") eqn:E5;
    [repeat (apply List.Forall_cons; [repeat split; discriminate|]); apply List.Forall_nil|].
  apply Ascii.eqb_neq in E2, E3, E4, E5.
  apply List.Forall_cons; [auto|apply List.Forall_nil].
Qed.

(** X9: the escaped text contains none of the characters [<], [>], the double
    quote and the apostrophe. *)
Theorem escapeHtml_no_markup (text : string) :
  Forall (fun x => x <> "<"%char /\ x <> ">"%char /\ x <> ascii_of_nat 34 /\ x <> "'"%char)
    (list_ascii_of_string (escapeHtml text)).
Proof.
  induction text as [|c rest IH]; simpl; [apply List.Forall_nil|].
  rewrite list_ascii_app. apply List.Forall_app. split; [apply escapeChar_safe|exact IH].
Qed.

Lemma escapeChar_cases (c : ascii) :
  (c = "&"%char /\ escapeChar c = "&amp;")
  \/ (c = "<"%char /\ escapeChar c = "&lt;")
  \/ (c = ">"%char /\ escapeChar c = "&gt;")
  \/ (c = ascii_of_nat 34 /\ escapeChar c = "&quot;")
  \/ (c = "'"%char /\ escapeChar c = "&#039;")
  \/ (c <> "&"%char /\ escapeChar c = String c EmptyString).
Proof.
  unfold escapeChar.
  destruct (Ascii.eqb c "&") eqn:E1; [apply Ascii.eqb_eq in E1; auto|].
  destruct (Ascii.eqb c "<") eqn:E2; [apply Ascii.eqb_eq in E2; auto|].
  destruct (Ascii.eqb c ">") eqn:E3; [apply Ascii.eqb_eq in E3; auto 6|].
  destruct (Ascii.eqb c (ascii_of_nat 34)) eqn:E4; [apply Ascii.eqb_eq in E4; auto 7|].
  destruct (Ascii.eqb c "'") eqn:E5; [apply Ascii.eqb_eq in E5; auto 8|].
  apply Ascii.eqb_neq in E1. auto 10.
Qed.

(** X10: escaping loses nothing: two texts with the same escaped form are the
    same text. *)
Theorem escapeHtml_injective (a b : string) :
  escapeHtml a = escapeHtml b -> a = b.
Proof.
  revert b. induction a as [|c a IH]; intros [|d b]; simpl; intros H.
  - reflexivity.
  - destruct (escapeChar_cases d) as [[_ E]|[[_ E]|[[_ E]|[[_ E]|[[_ E]|[_ E]]]]]];
      rewrite E in H; discriminate H.
  - destruct (escapeChar_cases c) as [[_ E]|[[_ E]|[[_ E]|[[_ E]|[[_ E]|[_ E]]]]]];
      rewrite E in H; discriminate H.
  - destruct (escapeChar_cases c) as [[Hc E]|[[Hc E]|[[Hc E]|[[Hc E]|[[Hc E]|[Hc E]]]]]];
      destruct (escapeChar_cases d) as [[Hd F]|[[Hd F]|[[Hd F]|[[Hd F]|[[Hd F]|[Hd F]]]]]];
      rewrite E, F in H; cbv [String.append] in H;
      try discriminate H;
      inversion H; subst;
      try (exfalso; congruence);
      f_equal; apply IH; assumption.
Qed.

Lemma escapeHtml_injective_witness :
  escapeHtml "a<b" = escapeHtml "a<b" /\ "a<b"%string = "a<b"%string.
Proof.
  split; [reflexivity|].
  apply (escapeHtml_injective "a<b" "a<b"). reflexivity.
Defined.

End EscapeFacts.

Section FormatEndpointFacts.

Import Helpers.

Lemma stripPrefix_app (p s rest : string) :
  stripPrefix p s = Some rest -> s = p +:+ rest.
Proof.
  revert s. induction p as [|a p IH]; intros s; simpl.
  - intros [= ->]. reflexivity.
  - destruct s as [|b s]; [discriminate|].
    destruct (Ascii.eqb a b) eqn:E; [|discriminate].
    apply Ascii.eqb_eq in E. subst b. intros H. rewrite (IH _ H). reflexivity.
Qed.

Lemma replaced_has_no_underscore (s : string) :
  Forall (fun c => c <> "_"%char) (list_ascii_of_string (replaceAllChar "_" " " s)).
Proof.
  induction s as [|c s IH]; simpl; [apply List.Forall_nil|].
  apply List.Forall_cons; [|exact IH].
  destruct (Ascii.eqb c "_") eqn:E; [discriminate|]. apply Ascii.eqb_neq, E.
Qed.

Lemma matchMethod_needs_underscore (methods : list string) (s : string) :
  Forall (fun c => c <> "_"%char) (list_ascii_of_string s) ->
  matchMethod methods s = None.
Proof.
  intros Hno. induction methods as [|m ms IH]; simpl; [reflexivity|].
  destruct (stripPrefix (m +:+ "_") s) as [rest|] eqn:E; [|exact IH].
  exfalso. apply stripPrefix_app in E. subst s.
  rewrite !list_ascii_app in Hno.
  apply List.Forall_app in Hno. destruct Hno as [Hno _].
  apply List.Forall_app in Hno. destruct Hno as [_ Hno].
  apply List.Forall_inv in Hno. congruence.
Qed.

(** X11: the second replacement of [formatEndpoint] never applies, because the
    first one has already turned every underscore into a space: the
    result is the name with spaces for underscores, and a leading HTTP
    method is never put in upper case. *)
Theorem formatEndpoint_only_replaces_underscores (resourceName : string) :
  formatEndpoint resourceName = replaceAllChar "_" " " resourceName
  /\ String.length (formatEndpoint resourceName) = String.length resourceName
  /\ Forall (fun c => c <> "_"%char) (list_ascii_of_string (formatEndpoint resourceName)).
Proof.
  assert (E : formatEndpoint resourceName = replaceAllChar "_" " " resourceName).
  { unfold formatEndpoint, upperMethod.
    rewrite (matchMethod_needs_underscore httpMethods _
               (replaced_has_no_underscore resourceName)).
    reflexivity. }
  rewrite E. split; [reflexivity|]. split; [|apply replaced_has_no_underscore].
  clear E. induction resourceName as [|c s IH]; simpl; [reflexivity|].
  f_equal. exact IH.
Qed.

Example formatEndpoint_get_orders :
  formatEndpoint "get_orders_by_id" = "get orders by id"
  /\ upperMethod "get_orders_by_id" = "GET orders_by_id".
Proof. split; reflexivity. Qed.

End FormatEndpointFacts.

(** ** Order of the samples *)

Section OrderFacts.

Import Fetcher Helpers.

Lemma Forall2_Qeq_refl (l : list Q) : Forall2 Qeq l l.
Proof. induction l; constructor; [reflexivity|assumption]. Qed.

Lemma Forall2_Qeq_trans (a b c : list Q) :
  Forall2 Qeq a b -> Forall2 Qeq b c -> Forall2 Qeq a c.
Proof.
  intros Hab. revert c. induction Hab as [|x y a b Hxy _ IH]; intros c Hbc.
  - inversion Hbc. constructor.
  - inversion Hbc as [|y' z b' c' Hyz Hbc']; subst. constructor.
    + rewrite Hxy. exact Hyz.
    + apply IH, Hbc'.
Qed.

Lemma Qle_bool_Qeq (x y x' y' : Q) :
  (x == x')%Q -> (y == y')%Q -> Qle_bool x y = Qle_bool x' y'.
Proof. intros Hx Hy. rewrite Hx, Hy. reflexivity. Qed.

Lemma insertAsc_Qeq (x : Q) (s s' : list Q) :
  Forall2 Qeq s s' -> Forall2 Qeq (insertAsc x s) (insertAsc x s').
Proof.
  induction 1 as [|y y' s s' Hy Hs IH]; simpl.
  - apply Forall2_Qeq_refl.
  - rewrite (Qle_bool_Qeq x y x y' (Qeq_refl x) Hy).
    destruct (Qle_bool x y').
    + constructor; [reflexivity|]. constructor; assumption.
    + constructor; assumption.
Qed.

Lemma Qle_bool_total (x y : Q) : Qle_bool x y = false -> Qle_bool y x = true.
Proof. intros H. apply Qle_bool_iff, Qle_bool_false, H. Qed.

Lemma insertAsc_swap (x y : Q) (s : list Q) :
  Forall2 Qeq (insertAsc x (insertAsc y s)) (insertAsc y (insertAsc x s)).
Proof.
  induction s as [|z s IH]; simpl.
  - destruct (Qle_bool x y) eqn:Exy, (Qle_bool y x) eqn:Eyx;
      try apply Forall2_Qeq_refl.
    + apply Qle_bool_iff in Exy, Eyx.
      assert (E : (x == y)%Q) by (apply Qle_antisym; assumption).
      repeat constructor; [exact E|symmetry; exact E].
    + apply Qle_bool_total in Exy. congruence.
  - destruct (Qle_bool y z) eqn:Eyz, (Qle_bool x z) eqn:Exz; simpl;
      rewrite ?Eyz, ?Exz.
    + destruct (Qle_bool x y) eqn:Exy, (Qle_bool y x) eqn:Eyx; simpl;
        rewrite ?Eyz, ?Exz; try apply Forall2_Qeq_refl.
      * apply Qle_bool_iff in Exy, Eyx.
        assert (E : (x == y)%Q) by (apply Qle_antisym; assumption).
        constructor; [exact E|]. constructor; [symmetry; exact E|].
        apply Forall2_Qeq_refl.
      * apply Qle_bool_total in Exy. congruence.
    + assert (Exy : Qle_bool x y = false).
      { destruct (Qle_bool x y) eqn:Exy; [|reflexivity].
        apply Qle_bool_iff in Exy, Eyz.
        assert (Hxz : Qle_bool x z = true)
          by (apply Qle_bool_iff; eapply Qle_trans; eassumption).
        congruence. }
      rewrite Exy. simpl. rewrite ?Exz. apply Forall2_Qeq_refl.
    + assert (Eyx : Qle_bool y x = false).
      { destruct (Qle_bool y x) eqn:Eyx; [|reflexivity].
        apply Qle_bool_iff in Eyx, Exz.
        assert (Hyz : Qle_bool y z = true)
          by (apply Qle_bool_iff; eapply Qle_trans; eassumption).
        congruence. }
      rewrite ?Eyx. simpl. rewrite ?Eyx, ?Eyz. apply Forall2_Qeq_refl.
    + constructor; [reflexivity|exact IH].
Qed.

Lemma sortAsc_order_independent (v1 v2 : list Q) :
  Permutation v1 v2 -> Forall2 Qeq (sortAsc v1) (sortAsc v2).
Proof.
  induction 1 as [|x l l' _ IH|x y l|l l' l'' _ IH1 _ IH2]; simpl.
  - constructor.
  - apply insertAsc_Qeq, IH.
  - apply insertAsc_swap.
  - eapply Forall2_Qeq_trans; eassumption.
Qed.

Lemma Forall2_Qeq_nth (a b : list Q) (i : nat) :
  Forall2 Qeq a b ->
  match nth_error a i, nth_error b i with
  | Some x, Some y => (x == y)%Q
  | None, None => True
  | _, _ => False
  end.
Proof.
  intros H. revert i. induction H as [|x y a b Hxy _ IH]; intros [|i]; simpl; auto.
  apply IH.
Qed.

Lemma Forall2_Qeq_at (a b : list Q) (i : Z) :
  Forall2 Qeq a b ->
  match at_ a i, at_ b i with
  | Some x, Some y => (x == y)%Q
  | None, None => True
  | _, _ => False
  end.
Proof.
  intros H. unfold at_. destruct (i <? 0); [exact I|]. apply Forall2_Qeq_nth, H.
Qed.

(** X12: the median does not depend on the order of the values. *)
Theorem calculateMedian_order_independent (v1 v2 : list Q) :
  Permutation v1 v2 -> numEq (calculateMedian v1) (calculateMedian v2).
Proof.
  intros Hp. pose proof (sortAsc_order_independent v1 v2 Hp) as Hs.
  unfold calculateMedian.
  rewrite !sortAsc_length, (Permutation_length Hp).
  set (mid := Z.of_nat (length v2) / 2).
  pose proof (Forall2_Qeq_at _ _ (mid - 1) Hs) as H1.
  pose proof (Forall2_Qeq_at _ _ mid Hs) as H2.
  destruct (Z.of_nat (length v2) mod 2 =? 0).
  - destruct (at_ (sortAsc v1) (mid - 1)), (at_ (sortAsc v2) (mid - 1));
      try contradiction; try exact I.
    destruct (at_ (sortAsc v1) mid), (at_ (sortAsc v2) mid);
      try contradiction; try exact I.
    simpl. rewrite H1, H2. reflexivity.
  - destruct (at_ (sortAsc v1) mid), (at_ (sortAsc v2) mid);
      try contradiction; try exact I.
    exact H2.
Qed.

Lemma calculateMedian_order_independent_witness :
  Permutation [3%Q; 1%Q; 2%Q; 8%Q] [8%Q; 2%Q; 1%Q; 3%Q]
  /\ numEq (calculateMedian [3%Q; 1%Q; 2%Q; 8%Q]) (calculateMedian [8%Q; 2%Q; 1%Q; 3%Q]).
Proof.
  assert (Hp : Permutation [3%Q; 1%Q; 2%Q; 8%Q] [8%Q; 2%Q; 1%Q; 3%Q]).
  { change [8%Q; 2%Q; 1%Q; 3%Q] with (rev [3%Q; 1%Q; 2%Q; 8%Q]). apply Permutation_rev. }
  split; [exact Hp|].
  apply (calculateMedian_order_independent _ _ Hp).
Defined.

End OrderFacts.

Section MedianFacts.

Import Fetcher Helpers.






End MedianFacts.

(** ** Aggregation in the fetcher *)

Section AggregationFacts.

Import Fetcher.











Lemma sorted_nth_le (l : list Q) (i j : nat) (a b : Q) :
  StronglySorted Qle l -> (i <= j)%nat ->
  nth_error l i = Some a -> nth_error l j = Some b -> (a <= b)%Q.
Proof.
  intros Hs. revert i j. induction Hs as [|x l Hs IH Hall]; intros i j Hij Ha Hb.
  - destruct i; discriminate.
  - destruct i as [|i], j as [|j]; simpl in *.
    + injection Ha as <-. injection Hb as <-. apply Qle_refl.
    + injection Ha as <-. apply nth_error_In in Hb.
      rewrite List.Forall_forall in Hall. apply Hall, Hb.
    + lia.
    + apply (IH i j); [lia|assumption|assumption].
Qed.

(** X16: on the same non-empty samples the p99 aggregate is at least the p95
    aggregate. *)
Theorem p95_at_most_p99 (values : list Q) :
  values <> [] ->
  exists a b,
    aggregate "p95" values = Fin a /\ aggregate "p99" values = Fin b /\ (a <= b)%Q.
Proof.
  intros Hne.
  assert (Hlen : (0 < length values)%nat) by (destruct values; [congruence|simpl; lia]).
  pose proof (percentileIndex_lt 95 (length values) ltac:(lia) Hlen) as H95.
  pose proof (percentileIndex_lt 99 (length values) ltac:(lia) Hlen) as H99.
  unfold aggregate, percentile. simpl. rewrite sortAsc_length.
  destruct (nth_error (sortAsc values) (percentileIndex 95 (length values))) as [x|] eqn:Ex;
    [|apply nth_error_None in Ex; rewrite sortAsc_length in Ex; lia].
  destruct (nth_error (sortAsc values) (percentileIndex 99 (length values))) as [y|] eqn:Ey;
    [|apply nth_error_None in Ey; rewrite sortAsc_length in Ey; lia].
  exists (x * 1000)%Q, (y * 1000)%Q. repeat split.
  assert (Hxy : (x <= y)%Q).
  { apply (sorted_nth_le (sortAsc values) (percentileIndex 95 (length values))
             (percentileIndex 99 (length values)) x y (sortAsc_sorted values));
      try assumption.
    unfold percentileIndex. apply Nat.Div0.div_le_mono. lia. }
  lra.
Qed.

Lemma p95_at_most_p99_witness :
  [3%Q; 1%Q; 2%Q] <> []
  /\ exists a b,
       aggregate "p95" [3%Q; 1%Q; 2%Q] = Fin a
       /\ aggregate "p99" [3%Q; 1%Q; 2%Q] = Fin b /\ (a <= b)%Q.
Proof.
  split; [discriminate|]. apply (p95_at_most_p99 [3%Q; 1%Q; 2%Q]). discriminate.
Defined.

End AggregationFacts.

Section TableFacts.

Import Fetcher.





End TableFacts.

Section HelperFacts.

Import Generator Helpers.

Context (h : Host).

(** X18: the average P95 latency of the summary report is the rendering of
    [NaN] as soon as the list is empty or one endpoint has a latency that
    does not parse. *)
Theorem calculateAverageLatency_poisoned (metrics : list Metric.t) :
  metrics = [] \/ (exists m, In m metrics /\ parseFloat h (Metric.p95_latency m) = NaN) ->
  calculateAverageLatency h metrics = toFixed h 1 NaN.
Proof.
  unfold calculateAverageLatency. intros [->|(m & Hin & Hnan)].
  - reflexivity.
  - rewrite (fold_add_poisoned (fun m => parseFloat h (Metric.p95_latency m))
               metrics m (Fin 0) Hin Hnan).
    reflexivity.
Qed.

Lemma flat_map_option_length {A B : Type} (f : A -> option B) (l : list A) :
  (length (flat_map (fun x => match f x with Some y => [y] | None => [] end) l)
   <= length l)%nat.
Proof.
  induction l as [|x l IH]; simpl; [lia|].
  destruct (f x); simpl; lia.
Qed.

(** X19: the restart analysis is never empty and holds at most one line per
    pod plus the line on the average; without pods it is the default
    line. *)
Theorem analyzeRestartCauses_size (cpuMetrics : option (list CpuMetric.t))
    (pods : list Pod.t) (allData : Payload.t) :
  (1 <= length (analyzeRestartCauses h cpuMetrics pods allData) <= length pods + 1)%nat
  /\ analyzeRestartCauses h cpuMetrics [] allData = [defaultAnalysis].
Proof.
  split; [|reflexivity].
  unfold analyzeRestartCauses.
  pose proof (flat_map_option_length (podAnalysis h cpuMetrics allData) pods) as Hlen.
  set (perPod := flat_map _ pods) in *.
  destruct (gt _ _).
  - destruct (perPod ++ _) as [|x l] eqn:E.
    + apply app_eq_nil in E. destruct E as [_ E]. discriminate E.
    + rewrite <- E, length_app. simpl. lia.
  - destruct perPod as [|x l]; simpl in *; lia.
Qed.

End HelperFacts.

Lemma calculateAverageLatency_poisoned_witness :
  ([Examples.fastOrders; Examples.healthUncounted] = []
   \/ exists m, In m [Examples.fastOrders; Examples.healthUncounted]
                /\ parseFloat Demo.host (Metric.p95_latency m) = NaN)
  /\ Helpers.calculateAverageLatency Demo.host [Examples.fastOrders; Examples.healthUncounted]
     = toFixed Demo.host 1 NaN.
Proof.
  assert (H : [Examples.fastOrders; Examples.healthUncounted] = []
              \/ exists m, In m [Examples.fastOrders; Examples.healthUncounted]
                           /\ parseFloat Demo.host (Metric.p95_latency m) = NaN).
  { right. exists Examples.healthUncounted. split; [simpl; auto|reflexivity]. }
  split; [exact H|].
  apply (calculateAverageLatency_poisoned Demo.host _ H).
Defined.

(** ** Restart timing table *)

Section TimingTableFacts.

Import Generator.

Context (h : Host).




End TimingTableFacts.

(** ** Endpoints named by the summary and by the verdict *)

Section PickFacts.

Import Generator.

Context {A : Type} (better : A -> A -> bool) (ok : A -> Prop).

Hypothesis better_trans :
  forall c w e, ok c -> ok w -> ok e ->
    better c w = true -> better w e = true -> better c e = true.
Hypothesis better_over :
  forall c w e, ok c -> ok w -> ok e ->
    better c w = true -> better e w = false -> better c e = true.

(** A left fold that keeps the current element when it beats the best
    one so far ends on the first element that no element beats. *)
Lemma fold_pick_first_best (pre mid rest : list A) (x : A) :
  Forall ok (pre ++ x :: mid ++ rest) ->
  Forall (fun e => better x e = true) pre ->
  Forall (fun e => better e x = false) mid ->
  exists pre' post',
    pre ++ x :: mid ++ rest
    = pre' ++ fold_left (fun worst current => if better current worst then current else worst)
                 rest x :: post'
    /\ Forall (fun e => better (fold_left (fun worst current =>
                                             if better current worst then current else worst)
                                  rest x) e = true) pre'
    /\ Forall (fun e => better e (fold_left (fun worst current =>
                                               if better current worst then current else worst)
                                    rest x) = false) post'.
Proof.
  revert pre mid x. induction rest as [|c rest IH]; intros pre mid x Hok Hpre Hmid.
  - exists pre, mid. rewrite app_nil_r. auto.
  - assert (Hall : forall e, In e (pre ++ x :: mid ++ c :: rest) -> ok e)
      by (apply List.Forall_forall; exact Hok).
    assert (Hx : ok x) by (apply Hall, in_or_app; right; left; reflexivity).
    assert (Hc : ok c).
    { apply Hall, in_or_app. right. right. apply in_or_app. right. left. reflexivity. }
    simpl fold_left. destruct (better c x) eqn:E.
    + destruct (IH (pre ++ x :: mid) [] c) as (pre' & post' & Heq & H1 & H2).
      * simpl. rewrite <- app_assoc. exact Hok.
      * apply List.Forall_app. split.
        -- apply List.Forall_forall. intros e He.
           apply (better_trans c x e Hc Hx); [|exact E|].
           ++ apply Hall, in_or_app. left. exact He.
           ++ exact (proj1 (List.Forall_forall _ _) Hpre e He).
        -- apply List.Forall_cons; [exact E|].
           apply List.Forall_forall. intros e He.
           apply (better_over c x e Hc Hx); [|exact E|].
           ++ apply Hall, in_or_app. right. right. apply in_or_app. left. exact He.
           ++ exact (proj1 (List.Forall_forall _ _) Hmid e He).
      * apply List.Forall_nil.
      * exists pre', post'. split; [|auto].
        rewrite <- Heq. simpl. rewrite <- !app_assoc. reflexivity.
    + destruct (IH pre (mid ++ [c]) x) as (pre' & post' & Heq & H1 & H2).
      * rewrite <- app_assoc. exact Hok.
      * exact Hpre.
      * apply List.Forall_app. split; [exact Hmid|].
        apply List.Forall_cons; [exact E|apply List.Forall_nil].
      * exists pre', post'. split; [|auto].
        rewrite <- Heq. rewrite <- !app_assoc. reflexivity.
Qed.

Lemma reduce1_first_best (l : list A) (w : A) :
  Forall ok l ->
  reduce1 (fun worst current => if better current worst then current else worst) l = Some w ->
  exists pre post,
    l = pre ++ w :: post
    /\ Forall (fun e => better w e = true) pre
    /\ Forall (fun e => better e w = false) post.
Proof.
  destruct l as [|x rest]; [discriminate|]. simpl. intros Hok [= <-].
  destruct (fold_pick_first_best [] [] rest x) as (pre & post & Heq & H1 & H2);
    [exact Hok|apply List.Forall_nil|apply List.Forall_nil|].
  exists pre, post. auto.
Qed.

End PickFacts.

Lemma filter_split {A : Type} (f : A -> bool) (l pre' post' : list A) (w : A) :
  List.filter f l = pre' ++ w :: post' ->
  exists pre post,
    l = pre ++ w :: post /\ List.filter f pre = pre' /\ List.filter f post = post'.
Proof.
  revert pre'. induction l as [|x l IH]; intros pre'; simpl.
  - destruct pre'; discriminate.
  - destruct (f x) eqn:E.
    + destruct pre' as [|y pre']; simpl; intros [= -> Hrest].
      * exists [], l. simpl. auto.
      * destruct (IH pre' Hrest) as (pre & post & -> & <- & <-).
        exists (y :: pre), post. simpl. rewrite E. auto.
    + intros Hrest. destruct (IH pre' Hrest) as (pre & post & -> & <- & <-).
      exists (x :: pre), post. simpl. rewrite E. auto.
Qed.

Section SummaryFacts.

Import Generator.

Context (h : Host).

Lemma above_false_le (bound : Q) (x : option Q) :
  (0 <= bound)%Q -> above bound x = false -> (numOf x <= bound)%Q.
Proof.
  intros Hb. unfold above, numOf. destruct x as [q|]; [|auto].
  destruct (Qzerob q) eqn:Ez; simpl.
  - intros _. unfold Qzerob in Ez. apply Qeq_bool_eq in Ez. rewrite Ez. exact Hb.
  - intros Hg. apply Qgtb_false in Hg. exact Hg.
Qed.

Lemma above_true_gt (bound : Q) (x : option Q) :
  above bound x = true -> (bound < numOf x)%Q.
Proof.
  unfold above, numOf. destruct x as [q|]; [|discriminate].
  intros Hg. apply andb_true_iff in Hg. destruct Hg as [_ Hg].
  apply Qgtb_true in Hg. exact Hg.
Qed.

Lemma worst_of_flagged (key : Endpoint.t -> option Q) (bound : Q)
    (endpoints : list Endpoint.t) (w : Endpoint.t) :
  (0 <= bound)%Q ->
  reduce1 (fun worst current =>
             if Qgtb (numOf (key current)) (numOf (key worst)) then current else worst)
    (List.filter (fun e => above bound (key e)) endpoints) = Some w ->
  exists pre post,
    endpoints = pre ++ w :: post
    /\ above bound (key w) = true
    /\ Forall (fun e => (numOf (key e) < numOf (key w))%Q) pre
    /\ Forall (fun e => (numOf (key e) <= numOf (key w))%Q) post.
Proof.
  intros Hb Hr.
  apply (reduce1_first_best (fun c w => Qgtb (numOf (key c)) (numOf (key w)))
           (fun _ => True)) in Hr.
  - destruct Hr as (pre' & post' & Hf & Hpre & Hpost).
    assert (Hw : above bound (key w) = true).
    { assert (Hin : In w (List.filter (fun e => above bound (key e)) endpoints))
        by (rewrite Hf; apply in_or_app; right; left; reflexivity).
      apply filter_In in Hin. exact (proj2 Hin). }
    pose proof (above_true_gt _ _ Hw) as Hgt.
    destruct (filter_split _ _ _ _ _ Hf) as (pre & post & -> & Hfp & Hfq).
    exists pre, post. split; [reflexivity|]. split; [exact Hw|]. split.
    + apply List.Forall_forall. intros e He.
      destruct (above bound (key e)) eqn:Ee.
      * assert (Hin : In e pre') by (rewrite <- Hfp; apply filter_In; auto).
        pose proof (proj1 (List.Forall_forall _ _) Hpre e Hin) as Hlt. simpl in Hlt.
        apply Qgtb_true in Hlt. exact Hlt.
      * pose proof (above_false_le _ _ Hb Ee). lra.
    + apply List.Forall_forall. intros e He.
      destruct (above bound (key e)) eqn:Ee.
      * assert (Hin : In e post') by (rewrite <- Hfq; apply filter_In; auto).
        pose proof (proj1 (List.Forall_forall _ _) Hpost e Hin) as Hle. simpl in Hle.
        apply Qgtb_false in Hle. exact Hle.
      * pose proof (above_false_le _ _ Hb Ee). lra.
  - intros c x e _ _ _ H1 H2. apply Qgtb_true in H1, H2.
    destruct (Qgtb (numOf (key c)) (numOf (key e))) eqn:E; [reflexivity|].
    apply Qgtb_false in E. lra.
  - intros c x e _ _ _ H1 H2. apply Qgtb_true in H1. apply Qgtb_false in H2.
    destruct (Qgtb (numOf (key c)) (numOf (key e))) eqn:E; [reflexivity|].
    apply Qgtb_false in E. lra.
  - apply List.Forall_forall. intros; exact I.
Qed.

(** X21: the [Performance Issues] line of the summary names the slowest
    endpoint: the first one, in payload order, whose P95 latency no other
    endpoint exceeds. *)
Theorem summary_names_slowest_endpoint (data : Payload.t) (endpoints : list Endpoint.t) :
  Payload.endpointMetrics data = Some endpoints ->
  existsb (fun e => above 1000 (Endpoint.p95_latency e)) endpoints = true ->
  exists pre worstEndpoint post,
    endpoints = pre ++ worstEndpoint :: post
    /\ Forall (fun e => (numOf (Endpoint.p95_latency e)
                         < numOf (Endpoint.p95_latency worstEndpoint))%Q) pre
    /\ Forall (fun e => (numOf (Endpoint.p95_latency e)
                         <= numOf (Endpoint.p95_latency worstEndpoint))%Q) post
    /\ In ("Performance Issues: High P95 latency ("
             +:+ toFixed h 1 (div (Fin (numOf (Endpoint.p95_latency worstEndpoint))) (Fin 1000))
             +:+ "+ seconds) on " +:+ Endpoint.resource_name worstEndpoint +:+ " endpoint")
          (generateSummaryObservations h data).
Proof.
  intros He Hex.
  destruct (reduce1 worseLatency
              (List.filter (fun e => above 1000 (Endpoint.p95_latency e)) endpoints))
    as [w|] eqn:Er.
  - destruct (worst_of_flagged Endpoint.p95_latency 1000 endpoints w) as
        (pre & post & Heq & _ & Hpre & Hpost); [lra|exact Er|].
    exists pre, w, post. split; [exact Heq|]. split; [exact Hpre|]. split; [exact Hpost|].
    unfold generateSummaryObservations, endpointObservations.
    rewrite He. simpl default. rewrite Er.
    apply in_or_app. right. left. reflexivity.
  - exfalso. apply existsb_filter_nonempty in Hex.
    destruct (List.filter _ endpoints); [congruence|discriminate Er].
Qed.

End SummaryFacts.

Section SummaryExamples.

Import Generator.

Lemma summary_names_slowest_endpoint_witness :
  Payload.endpointMetrics Examples.summaryEndpoints = Some [Examples.checkout; Examples.search; Examples.export]
  /\ existsb (fun e => above 1000 (Endpoint.p95_latency e))
       [Examples.checkout; Examples.search; Examples.export] = true
  /\ exists pre worstEndpoint post,
       [Examples.checkout; Examples.search; Examples.export] = pre ++ worstEndpoint :: post
       /\ Forall (fun e => (numOf (Endpoint.p95_latency e)
                            < numOf (Endpoint.p95_latency worstEndpoint))%Q) pre
       /\ Forall (fun e => (numOf (Endpoint.p95_latency e)
                            <= numOf (Endpoint.p95_latency worstEndpoint))%Q) post
       /\ In ("Performance Issues: High P95 latency ("
                +:+ toFixed Demo.host 1
                      (div (Fin (numOf (Endpoint.p95_latency worstEndpoint))) (Fin 1000))
                +:+ "+ seconds) on " +:+ Endpoint.resource_name worstEndpoint +:+ " endpoint")
             (generateSummaryObservations Demo.host Examples.summaryEndpoints).
Proof.
  split; [reflexivity|]. split; [reflexivity|].
  apply (summary_names_slowest_endpoint Demo.host Examples.summaryEndpoints); reflexivity.
Defined.

End SummaryExamples.

Section WorstRateFacts.

Import Generator.

Context (h : Host).

Lemma gt_positive_cases (a : num) :
  gt a (Fin 0) = true -> (exists q, a = Fin q /\ (0 < q)%Q) \/ a = Inf false.
Proof.
  destruct a as [|q|[|]]; simpl; try discriminate.
  - intros Hq. left. exists q. split; [reflexivity|]. apply Qgtb_true in Hq. exact Hq.
  - auto.
Qed.

Lemma block_finding_in_verdict (data : Payload.t) (b : Report -> Report) (f : string) :
  In b (blocks h data) -> In f (findings (b initialReport)) ->
  In f (findings (analyzePerformanceData h data)).
Proof.
  intros Hb Hf. rewrite analyzePerformanceData_blocks.
  assert (Hin : In f (findings (fold_left (fun r step => step r) (blocks h data)
                                  initialReport))).
  { rewrite (proj1 (blocks_output h data)). apply in_concat.
    exists (findings (b initialReport)). split; [|exact Hf].
    apply in_map_iff. exists b. auto. }
  unfold stepAllGood. destruct (overallStatus _); [|exact Hin|exact Hin].
  cbn [findings pushFinding pushRecommendation]. apply in_or_app. left. exact Hin.
Qed.

(** X22: the [Most Common Error] finding names, among the endpoints with a
    positive error count and a positive error rate, the first one whose
    error rate no other exceeds. *)
Theorem most_common_error_has_highest_rate (data : Payload.t) :
  existsb (fun m => (gt (errorsOf h m) (Fin 0) && gt (errorRateOf h m) (Fin 0))%bool)
    (Payload.metrics data) = true ->
  exists pre worstErrorEndpoint post,
    List.filter (fun m => (gt (errorsOf h m) (Fin 0) && gt (errorRateOf h m) (Fin 0))%bool)
      (Payload.metrics data) = pre ++ worstErrorEndpoint :: post
    /\ Forall (fun m => gt (errorRateOf h worstErrorEndpoint) (errorRateOf h m) = true) pre
    /\ Forall (fun m => gt (errorRateOf h m) (errorRateOf h worstErrorEndpoint) = false) post
    /\ In ("<strong>Most Common Error:</strong> "
             +:+ toFixed h 2 (parseFloat h (Metric.error_rate worstErrorEndpoint))
             +:+ "% error rate on " +:+ Metric.resource_name worstErrorEndpoint
             +:+ " endpoint")
          (findings (analyzePerformanceData h data)).
Proof.
  intros Hex.
  set (errorEndpoints := List.filter (fun m => gt (errorsOf h m) (Fin 0)) (Payload.metrics data)).
  set (rated := List.filter (fun m => gt (errorRateOf h m) (Fin 0)) errorEndpoints).
  assert (Hrated : List.filter
                     (fun m => (gt (errorsOf h m) (Fin 0) && gt (errorRateOf h m) (Fin 0))%bool)
                     (Payload.metrics data) = rated).
  { unfold rated, errorEndpoints. clear. induction (Payload.metrics data) as [|m l IH];
      [reflexivity|].
    simpl. destruct (gt (errorsOf h m) (Fin 0)); simpl;
      [destruct (gt (errorRateOf h m) (Fin 0))|]; rewrite IH; reflexivity. }
  rewrite Hrated.
  assert (Hne : rated <> []).
  { rewrite <- Hrated. apply existsb_filter_nonempty, Hex. }
  destruct (reduce1 (worseMetricErrorRate h) rated) as [w|] eqn:Er;
    [|destruct rated; [congruence|discriminate Er]].
  pose proof Er as Er'.
  apply (reduce1_first_best (fun c w => gt (errorRateOf h c) (errorRateOf h w))
           (fun m => gt (errorRateOf h m) (Fin 0) = true)) in Er'.
  - destruct Er' as (pre & post & Heq & Hpre & Hpost).
    exists pre, w, post. split; [exact Heq|]. split; [exact Hpre|]. split; [exact Hpost|].
    apply (block_finding_in_verdict data (stepEndpointErrors h data));
      [right; right; left; reflexivity|].
    unfold stepEndpointErrors. fold errorEndpoints. fold rated.
    assert (Hlen : (0 <? length errorEndpoints)%nat = true).
    { apply Nat.ltb_lt. destruct errorEndpoints; [|simpl; lia].
      unfold rated in Hne. simpl in Hne. congruence. }
    rewrite Hlen, Er. unfold atLeastWarning.
    destruct (overallStatus _);
      cbn [findings pushFinding setStatus]; right; left; reflexivity.
  - intros c x e Hc Hx He.
    apply gt_positive_cases in Hc, Hx, He.
    destruct Hc as [(qc & -> & Hqc)| ->], Hx as [(qx & -> & Hqx)| ->],
             He as [(qe & -> & Hqe)| ->]; simpl; intros H1 H2;
      try discriminate; try reflexivity.
    apply Qgtb_true in H1, H2.
    destruct (Qgtb qc qe) eqn:E; [reflexivity|]. apply Qgtb_false in E. lra.
  - intros c x e Hc Hx He.
    apply gt_positive_cases in Hc, Hx, He.
    destruct Hc as [(qc & -> & Hqc)| ->], Hx as [(qx & -> & Hqx)| ->],
             He as [(qe & -> & Hqe)| ->]; simpl; intros H1 H2;
      try discriminate; try reflexivity.
    apply Qgtb_true in H1. apply Qgtb_false in H2.
    destruct (Qgtb qc qe) eqn:E; [reflexivity|]. apply Qgtb_false in E. lra.
  - apply List.Forall_forall. intros m Hm. unfold rated in Hm.
    apply filter_In in Hm. exact (proj2 Hm).
Qed.

End WorstRateFacts.

Section WorstRateExamples.

Import Generator.

Lemma most_common_error_has_highest_rate_witness :
  existsb (fun m => (gt (errorsOf Demo.host m) (Fin 0)
                     && gt (errorRateOf Demo.host m) (Fin 0))%bool)
    (Payload.metrics Examples.erroring) = true
  /\ exists pre worstErrorEndpoint post,
       List.filter (fun m => (gt (errorsOf Demo.host m) (Fin 0)
                              && gt (errorRateOf Demo.host m) (Fin 0))%bool)
         (Payload.metrics Examples.erroring) = pre ++ worstErrorEndpoint :: post
       /\ Forall (fun m => gt (errorRateOf Demo.host worstErrorEndpoint)
                             (errorRateOf Demo.host m) = true) pre
       /\ Forall (fun m => gt (errorRateOf Demo.host m)
                             (errorRateOf Demo.host worstErrorEndpoint) = false) post
       /\ In ("<strong>Most Common Error:</strong> "
                +:+ toFixed Demo.host 2
                      (parseFloat Demo.host (Metric.error_rate worstErrorEndpoint))
                +:+ "% error rate on " +:+ Metric.resource_name worstErrorEndpoint
                +:+ " endpoint")
             (findings (analyzePerformanceData Demo.host Examples.erroring)).
Proof.
  assert (H : existsb (fun m => (gt (errorsOf Demo.host m) (Fin 0)
                                 && gt (errorRateOf Demo.host m) (Fin 0))%bool)
                (Payload.metrics Examples.erroring) = true) by (vm_compute; reflexivity).
  split; [exact H|].
  exact (most_common_error_has_highest_rate Demo.host Examples.erroring H).
Defined.

Example erroring_names_refunds :
  In "<strong>Most Common Error:</strong> 5.00% error rate on post_/refunds endpoint"
     (findings (analyzePerformanceData Demo.host Examples.erroring)).
Proof. vm_compute. auto 10. Qed.

End WorstRateExamples.

(** ** Restart lines of the summary and of the verdict *)

Section RestartLineFacts.

Import Generator.

Context (h : Host).

Lemma stepRestartDetail_head (data : Payload.t) :
  (0 <? inWindowRestarts h data) = true ->
  exists rest,
    findings (stepRestartDetail h data initialReport)
    = ("<strong>Pod Restarts Detected:</strong> " +:+ showZ h (inWindowRestarts h data)
         +:+ " restart(s) during monitoring window across "
         +:+ showNat h (inWindowPods h data) +:+ " pod(s)") :: rest.
Proof.
  unfold inWindowRestarts, inWindowPods, stepRestartDetail.
  destruct (podList data) as [[pm pods]|]; [|discriminate].
  intros ->.
  repeat match goal with
         | |- context [fold_left ?f ?l ?r0] =>
             let Hf := fresh "Hf" in
             let Hr := fresh "Hr" in
             destruct (fold_pushFinding_findings
                         (restartBullet h (analyzeRestartTiming h pm)) l r0) as [Hf Hr];
             destruct (fold_left f l r0) as [? ? ?]; simpl in Hf, Hr; subst
         end.
  repeat match goal with
         | |- context [if ?c then _ else _] => destruct c; simpl
         | |- context [match ?c with EmptyString => _ | String _ _ => _ end] =>
             destruct c; simpl
         end;
    unfold atLeastWarning, setStatus, pushFinding, pushRecommendation; simpl;
    repeat match goal with
           | |- context [match ?s with good => _ | warning => _ | critical => _ end] =>
               destruct s; simpl
           end;
    eexists; reflexivity.
Qed.

(** X23: the summary and the verdict report the same restarts: the effective
    body of [generateSummaryObservations] opens with a restart line
    exactly when the verdict counts restarts inside the window, and the
    summary line and both restart findings of the verdict carry the same
    total and the same number of pods. *)
Theorem summary_and_verdict_report_same_restarts (data : Payload.t) :
  if 0 <? inWindowRestarts h data
  then generateSummaryObservations h data
       = ("Pod Restarts: " +:+ showZ h (inWindowRestarts h data) +:+ " restart(s) across "
            +:+ showNat h (inWindowPods h data) +:+ " pod(s) during monitoring window")
           :: endpointObservations h data
       /\ In ("<strong>Pod Restarts:</strong> " +:+ showZ h (inWindowRestarts h data)
                +:+ " total restart(s) across " +:+ showNat h (inWindowPods h data)
                +:+ " pod(s)")
             (findings (analyzePerformanceData h data))
       /\ In ("<strong>Pod Restarts Detected:</strong> "
                +:+ showZ h (inWindowRestarts h data)
                +:+ " restart(s) during monitoring window across "
                +:+ showNat h (inWindowPods h data) +:+ " pod(s)")
             (findings (analyzePerformanceData h data))
  else generateSummaryObservations h data = endpointObservations h data
       /\ stepRestartSummary h data initialReport = initialReport
       /\ stepRestartDetail h data initialReport = initialReport.
Proof.
  destruct (0 <? inWindowRestarts h data) eqn:E.
  - split; [|split].
    + revert E. unfold generateSummaryObservations, restartObservation,
        inWindowRestarts, inWindowPods, podList, podsWithRestarts.
      destruct (Payload.podMetrics data) as [pm|]; [|discriminate].
      destruct (PodMetricsData.podMetrics pm) as [pods|]; [|discriminate].
      intros ->. reflexivity.
    + apply (block_finding_in_verdict h data (stepRestartSummary h data));
        [left; reflexivity|].
      revert E. unfold inWindowRestarts, inWindowPods, stepRestartSummary.
      destruct (podList data) as [[pm pods]|]; [|discriminate].
      intros ->. left. reflexivity.
    + apply (block_finding_in_verdict h data (stepRestartDetail h data));
        [do 6 right; left; reflexivity|].
      destruct (stepRestartDetail_head data E) as (rest & ->). left. reflexivity.
  - split; [|split].
    + revert E. unfold generateSummaryObservations, restartObservation,
        inWindowRestarts, inWindowPods, podList, podsWithRestarts.
      destruct (Payload.podMetrics data) as [pm|]; [|reflexivity].
      destruct (PodMetricsData.podMetrics pm) as [pods|]; [|reflexivity].
      intros ->. reflexivity.
    + revert E. unfold inWindowRestarts, stepRestartSummary.
      destruct (podList data) as [[pm pods]|]; [|reflexivity].
      intros ->. reflexivity.
    + revert E. unfold inWindowRestarts, stepRestartDetail.
      destruct (podList data) as [[pm pods]|]; [|reflexivity].
      intros ->. reflexivity.
Qed.

End RestartLineFacts.

(** ** Command-line dates *)

Section HumanDateFacts.

Import HumanDate.

Lemma in_range (lo x : Z) (n : nat) : lo <= x < lo + Z.of_nat n -> In x (range lo n).
Proof.
  intros Hx. unfold range. apply in_map_iff. exists (Z.to_nat (x - lo)).
  split; [lia|]. apply in_seq. lia.
Qed.

Lemma append_assoc (a b c : string) : (a +:+ b) +:+ c = a +:+ (b +:+ c).
Proof.
  induction a as [|x a IH]; [reflexivity|].
  change (String x ((a +:+ b) +:+ c) = String x (a +:+ (b +:+ c))).
  rewrite IH. reflexivity.
Qed.

Lemma includes_char_app (c : ascii) (a b : string) :
  includes (String c EmptyString) (a +:+ b)
  = (includes (String c EmptyString) a || includes (String c EmptyString) b)%bool.
Proof.
  induction a as [|x a IH].
  - simpl. destruct b; reflexivity.
  - change (String x a +:+ b) with (String x (a +:+ b)). simpl includes.
    destruct (Ascii.eqb c x); [reflexivity|exact IH].
Qed.

(** The part of a well-formed input before the clock reading holds no
    [T], is where the date pattern matches, and is skipped by the time
    pattern. *)
Lemma humanDate_prefix (month : nat) (name : string) (day : Z) (rest : string) :
  nth_error monthNames month = Some name ->
  1 <= day <= 31 ->
  includes "T" (name +:+ " " +:+ pretty day +:+ ", ") = false
  /\ dateMatch (name +:+ " " +:+ pretty day +:+ ", " +:+ rest) = Some (name, pretty day)
  /\ timeMatch (name +:+ " " +:+ pretty day +:+ ", " +:+ rest) = timeMatch rest
  /\ lookupKey (toLowerCase name) monthMap = Some (twoDigits (Z.of_nat month + 1))
  /\ padStart2 (pretty day) = twoDigits day.
Proof.
  intros Hm Hd.
  assert (Hin : In day (range 1 31)) by (apply in_range; lia).
  clear Hd. vm_compute in Hin.
  do 12 (destruct month as [|month];
         [injection Hm as <-;
          repeat (destruct Hin as [<-|Hin]; [repeat split; reflexivity|]);
          destruct Hin|]).
  destruct month; discriminate Hm.
Qed.

Lemma clockCheck_true : clockCheck = true.
Proof. vm_compute. reflexivity. Qed.

Lemma humanDate_clock (hour minute : Z) (pm : bool) :
  1 <= hour <= 12 -> 0 <= minute <= 59 ->
  let tail := pretty hour +:+ ":" +:+ twoDigits minute +:+ " "
                +:+ (if pm then "pm" else "am") in
  includes "T" tail = false
  /\ padStart2 (pretty (fst (clockOf tail))) = twoDigits (hour24 hour pm)
  /\ padStart2 (pretty (snd (clockOf tail))) = twoDigits minute.
Proof.
  intros Hh Hmin tail.
  pose proof clockCheck_true as Hc. unfold clockCheck in Hc.
  rewrite forallb_forall in Hc. specialize (Hc hour (in_range 1 hour 12 ltac:(lia))).
  rewrite forallb_forall in Hc. specialize (Hc minute (in_range 0 minute 60 ltac:(lia))).
  rewrite forallb_forall in Hc.
  assert (Hpm : In pm [true; false]) by (destruct pm; simpl; auto).
  specialize (Hc pm Hpm). fold tail in Hc.
  apply andb_true_iff in Hc. destruct Hc as [Ht Hc].
  destruct (clockOf tail) as [hours minutes].
  apply andb_true_iff in Hc. destruct Hc as [H1 H2].
  apply String.eqb_eq in H1, H2. apply negb_true_iff in Ht. auto.
Qed.

(** X24: every date and time in the documented format, [Mon D, H:MM am] or
    [Mon D, H:MM pm] with a day from 1 to 31, an hour from 1 to 12 and a
    minute from 0 to 59, is turned into the ISO text of that day of the
    current year with the hour on the 24-hour clock: 12 am is hour 0 and
    12 pm is hour 12. *)
Theorem parseHumanDate_twelve_hour_clock (currentYear : Z) (month : nat) (name : string)
    (day hour minute : Z) (pm : bool) :
  nth_error monthNames month = Some name ->
  1 <= day <= 31 -> 1 <= hour <= 12 -> 0 <= minute <= 59 ->
  parseHumanDate currentYear (humanDate name day hour minute pm)
  = pretty currentYear +:+ "-" +:+ twoDigits (Z.of_nat month + 1) +:+ "-" +:+ twoDigits day
      +:+ "T" +:+ twoDigits (hour24 hour pm) +:+ ":" +:+ twoDigits minute +:+ ":00".
Proof.
  intros Hm Hd Hh Hmin.
  set (tail := pretty hour +:+ ":" +:+ twoDigits minute +:+ " "
                 +:+ (if pm then "pm" else "am")).
  destruct (humanDate_prefix month name day tail Hm Hd) as (Ht & Hdate & Htime & Hmon & Hday).
  destruct (humanDate_clock hour minute pm Hh Hmin) as (Ht' & Hhr & Hmi).
  fold tail in Ht', Hhr, Hmi.
  assert (Hs : humanDate name day hour minute pm
               = name +:+ " " +:+ pretty day +:+ ", " +:+ tail) by reflexivity.
  unfold parseHumanDate. rewrite Hs.
  assert (Hinc : includes "T" (name +:+ " " +:+ pretty day +:+ ", " +:+ tail) = false).
  { replace (name +:+ " " +:+ pretty day +:+ ", " +:+ tail)
      with ((name +:+ " " +:+ pretty day +:+ ", ") +:+ tail).
    - rewrite includes_char_app, Ht, Ht'. reflexivity.
    - rewrite !append_assoc. reflexivity. }
  rewrite Hinc.
  assert (Hclock : clockOf (name +:+ " " +:+ pretty day +:+ ", " +:+ tail) = clockOf tail)
    by (unfold clockOf; rewrite Htime; reflexivity).
  rewrite Hclock. destruct (clockOf tail) as [hours minutes]. simpl in Hhr, Hmi.
  rewrite Hdate, Hmon, Hday, Hhr, Hmi. reflexivity.
Qed.

End HumanDateFacts.

Section HumanDateExamples.

Import HumanDate.

Lemma parseHumanDate_twelve_hour_clock_witness :
  nth_error monthNames 0 = Some "Jan"%string
  /\ 1 <= 9 <= 31 /\ 1 <= 12 <= 12 /\ 0 <= 5 <= 59
  /\ parseHumanDate 2026 "Jan 9, 12:05 am" = "2026-01-09T00:05:00"%string.
Proof.
  split; [reflexivity|]. split; [lia|]. split; [lia|]. split; [lia|].
  exact (parseHumanDate_twelve_hour_clock 2026 0 "Jan" 9 12 5 false
           eq_refl ltac:(lia) ltac:(lia) ltac:(lia)).
Defined.

End HumanDateExamples.

(** ** Error logs *)

Section ErrorLogFacts.

Import ErrorLogs.

Lemma sumCounts_setCount (key : string) (v : Z) (o : Counts) :
  sumCounts (setCount key v o) = sumCounts o - default 0 (getCount key o) + v.
Proof.
  induction o as [|[k x] o IH]; simpl; [lia|].
  destruct (String.eqb k key); simpl; [lia|]. rewrite IH. lia.
Qed.

Lemma positive_setCount (key : string) (v : Z) (o : Counts) :
  1 <= v -> Forall (fun e => 1 <= snd e) o ->
  Forall (fun e => 1 <= snd e) (setCount key v o).
Proof.
  intros Hv Ho. induction Ho as [|[k x] o Hx Ho IH]; simpl.
  - apply List.Forall_cons; [exact Hv|apply List.Forall_nil].
  - destruct (String.eqb k key); apply List.Forall_cons; auto.
Qed.

Lemma getCount_positive (key : string) (o : Counts) :
  Forall (fun e => 1 <= snd e) o -> 0 <= default 0 (getCount key o).
Proof.
  intros Ho. induction Ho as [|[k x] o Hx Ho IH]; simpl; [lia|].
  destruct (String.eqb k key); simpl in *; [lia|exact IH].
Qed.

Lemma bump_counts (key : string) (o : Counts) :
  inherited key = false ->
  Forall (fun e => 1 <= snd e) o ->
  exists o', bump key o = Some o'
             /\ sumCounts o' = sumCounts o + 1
             /\ Forall (fun e => 1 <= snd e) o'.
Proof.
  intros Hk Ho. unfold bump. rewrite Hk. eexists. split; [reflexivity|]. split.
  - rewrite sumCounts_setCount. lia.
  - apply positive_setCount; [|exact Ho]. pose proof (getCount_positive key o Ho). lia.
Qed.

Lemma groupLogs_counts (logs : list Log.t) (g : Groups) :
  Forall plainKeys logs ->
  Forall (fun e => 1 <= snd e) (logErrorsByType g) ->
  Forall (fun e => 1 <= snd e) (logErrorsByMessage g) ->
  exists g',
    groupLogs logs g = Some g'
    /\ sumCounts (logErrorsByType g') = sumCounts (logErrorsByType g) + Z.of_nat (length logs)
    /\ sumCounts (logErrorsByMessage g')
       = sumCounts (logErrorsByMessage g) + Z.of_nat (length logs)
    /\ Forall (fun e => 1 <= snd e) (logErrorsByType g')
    /\ Forall (fun e => 1 <= snd e) (logErrorsByMessage g')
    /\ length (logErrorDetails g') = (length (logErrorDetails g) + length logs)%nat.
Proof.
  intros Hall. revert g. induction Hall as [|log logs [Ht Hm] _ IH]; intros g Hpt Hpm.
  - exists g. simpl. repeat split; auto; lia.
  - destruct (bump_counts _ _ Ht Hpt) as (byType & Eb1 & Hs1 & Hp1).
    destruct (bump_counts _ _ Hm Hpm) as (byMessage & Eb2 & Hs2 & Hp2).
    simpl groupLogs. unfold groupLog. rewrite Eb1, Eb2.
    match goal with
    | |- context [groupLogs logs ?g1] =>
        destruct (IH g1 Hp1 Hp2) as (g' & Eg & H1 & H2 & H3 & H4 & H5)
    end.
    exists g'. split; [exact Eg|]. simpl in H1, H2, H5.
    rewrite H1, H2, H5, Hs1, Hs2, length_app. simpl length.
    repeat split; auto; lia.
Qed.

Lemma sumCounts_app (a b : list (string * Z)) :
  sumCounts (a ++ b) = sumCounts a + sumCounts b.
Proof. induction a as [|e a IH]; simpl; [reflexivity|]. unfold sumCounts in *. simpl. lia. Qed.

Lemma sumCounts_perm (a b : list (string * Z)) :
  Permutation a b -> sumCounts a = sumCounts b.
Proof.
  induction 1 as [|e a b _ IH|e1 e2 a|a b c _ IH1 _ IH2];
    unfold sumCounts in *; simpl; lia.
Qed.

Lemma insertIndex_perm (e : N * (string * Z)) (l : list (N * (string * Z))) :
  Permutation (insertIndex e l) (e :: l).
Proof.
  induction l as [|x l IH]; simpl; [reflexivity|].
  destruct (fst e <? fst x)%N; [reflexivity|].
  rewrite IH. apply perm_swap.
Qed.

Lemma fold_insertIndex_perm (l acc : list (N * (string * Z))) :
  Permutation (fold_left (fun sorted e => insertIndex e sorted) l acc) (l ++ acc).
Proof.
  revert acc. induction l as [|e l IH]; intros acc; simpl; [reflexivity|].
  rewrite IH, insertIndex_perm. symmetry. apply Permutation_middle.
Qed.

Lemma entries_perm (o : Counts) : Permutation (entries o) o.
Proof.
  unfold entries. rewrite fold_insertIndex_perm, app_nil_r.
  induction o as [|e o IH]; [reflexivity|].
  change (omap ?f (e :: o)) with (match f e with
                                  | Some y => y :: omap f o
                                  | None => omap f o
                                  end).
  cbv beta. simpl List.filter. destruct (arrayIndex (fst e)) as [i|]; simpl.
  - apply perm_skip, IH.
  - rewrite <- Permutation_middle. apply perm_skip, IH.
Qed.

Lemma insertDesc_perm (e : string * Z) (l : list (string * Z)) :
  Permutation (insertDesc e l) (e :: l).
Proof.
  induction l as [|x l IH]; simpl; [reflexivity|].
  destruct (snd x <? snd e); [reflexivity|].
  rewrite IH. apply perm_swap.
Qed.

Lemma sortDesc_perm (arr : list (string * Z)) : Permutation (sortDesc arr) arr.
Proof.
  unfold sortDesc.
  assert (H : forall acc, Permutation (fold_left (fun sorted e => insertDesc e sorted) arr acc)
                            (arr ++ acc)).
  { induction arr as [|e arr IH]; intros acc; simpl; [reflexivity|].
    rewrite IH, insertDesc_perm. symmetry. apply Permutation_middle. }
  rewrite H, app_nil_r. reflexivity.
Qed.

Lemma insertDesc_sorted (e : string * Z) (l : list (string * Z)) :
  descending l -> descending (insertDesc e l).
Proof.
  unfold descending. induction 1 as [|x l Hl IH Hx]; simpl.
  - constructor; constructor.
  - destruct (snd x <? snd e) eqn:E.
    + apply Z.ltb_lt in E. constructor; [constructor; assumption|].
      apply List.Forall_cons; [lia|].
      eapply List.Forall_impl; [|exact Hx]. intros y Hy. simpl in Hy. lia.
    + apply Z.ltb_ge in E. constructor; [exact IH|].
      rewrite insertDesc_perm.
      apply List.Forall_cons; [exact E|exact Hx].
Qed.

Lemma sortDesc_sorted (arr : list (string * Z)) : descending (sortDesc arr).
Proof.
  unfold sortDesc.
  assert (H : forall acc, descending acc ->
                          descending (fold_left (fun sorted e => insertDesc e sorted) arr acc)).
  { induction arr as [|e arr IH]; intros acc Hacc; simpl; [exact Hacc|].
    apply IH, insertDesc_sorted, Hacc. }
  apply H. constructor.
Qed.

Lemma descending_firstn (n : nat) (arr : list (string * Z)) :
  descending arr -> descending (firstn n arr).
Proof.
  unfold descending. intros H. revert n. induction H as [|x l Hl IH Hx]; intros [|n]; simpl;
    try constructor.
  - apply IH.
  - rewrite <- (firstn_skipn n l) in Hx. apply List.Forall_app in Hx. exact (proj1 Hx).
Qed.

Lemma sumCounts_firstn (n : nat) (arr : list (string * Z)) :
  Forall (fun e => 1 <= snd e) arr ->
  sumCounts (firstn n arr) <= sumCounts arr
  /\ ((length arr <= n)%nat -> sumCounts (firstn n arr) = sumCounts arr).
Proof.
  intros Hp. split.
  - rewrite <- (firstn_skipn n arr) at 2. rewrite sumCounts_app.
    assert (0 <= sumCounts (skipn n arr)); [|lia].
    rewrite <- (firstn_skipn n arr) in Hp. apply List.Forall_app in Hp.
    destruct Hp as [_ Hp]. induction Hp as [|e l He _ IH]; simpl; [lia|].
    unfold sumCounts in *. simpl. lia.
  - intros Hl. rewrite firstn_all2 by exact Hl. reflexivity.
Qed.

(** X25: every log is counted exactly once: the counts by type add up to
    [totalLogErrors], so do the counts by message unless more than twenty
    distinct messages were cut off, every listed count is at least one,
    and both lists put the most frequent entry first. *)
Theorem logReport_counts_every_log (logs : list Log.t) :
  Forall plainKeys logs ->
  exists r,
    logReport logs = Some r
    /\ totalLogErrors r = Z.of_nat (length logs)
    /\ sumCounts (errorsByType r) = totalLogErrors r
    /\ sumCounts (errorsByMessage r) <= totalLogErrors r
    /\ (if (length (errorsByMessage r) <? 20)%nat
        then sumCounts (errorsByMessage r) = totalLogErrors r
        else True)
    /\ Forall (fun e => 1 <= snd e) (errorsByType r ++ errorsByMessage r)
    /\ descending (errorsByType r)
    /\ descending (errorsByMessage r)
    /\ length (details r) = Nat.min 100 (length logs).
Proof.
  intros Hall.
  destruct (groupLogs_counts logs
              {| logErrorsByType := []; logErrorsByMessage := []; logErrorDetails := [] |}
              Hall (List.Forall_nil _) (List.Forall_nil _))
    as (g & Eg & Ht & Hm & Hpt & Hpm & Hd).
  simpl in Ht, Hm, Hd.
  unfold logReport. rewrite Eg. eexists. split; [reflexivity|].
  cbn [totalLogErrors errorsByType errorsByMessage details].
  assert (Hst : sumCounts (sortDesc (entries (logErrorsByType g))) = Z.of_nat (length logs)).
  { rewrite (sumCounts_perm _ _ (sortDesc_perm _)), (sumCounts_perm _ _ (entries_perm _)).
    exact Ht. }
  assert (Hsm : sumCounts (sortDesc (entries (logErrorsByMessage g)))
                = Z.of_nat (length logs)).
  { rewrite (sumCounts_perm _ _ (sortDesc_perm _)), (sumCounts_perm _ _ (entries_perm _)).
    exact Hm. }
  assert (Hpt' : Forall (fun e => 1 <= snd e) (sortDesc (entries (logErrorsByType g)))).
  { rewrite sortDesc_perm, entries_perm. exact Hpt. }
  assert (Hpm' : Forall (fun e => 1 <= snd e) (sortDesc (entries (logErrorsByMessage g)))).
  { rewrite sortDesc_perm, entries_perm. exact Hpm. }
  destruct (sumCounts_firstn 20 _ Hpm') as [Hle Heq].
  split; [reflexivity|]. split; [exact Hst|]. split; [lia|]. split; [|split; [|split; [|split]]].
  - destruct (length (firstn 20 _) <? 20)%nat eqn:E; [|exact I].
    apply Nat.ltb_lt in E. rewrite length_firstn in E.
    rewrite Heq by lia. exact Hsm.
  - apply List.Forall_app. split; [exact Hpt'|].
    rewrite <- (firstn_skipn 20 (sortDesc _)) in Hpm'.
    apply List.Forall_app in Hpm'. exact (proj1 Hpm').
  - apply sortDesc_sorted.
  - apply descending_firstn, sortDesc_sorted.
  - rewrite length_firstn, Hd. reflexivity.
Qed.

End ErrorLogFacts.

(** ** Container metrics *)

Section ContainerFacts.

Import Fetcher Containers.

Context (isoString : Z -> string).






































End ContainerFacts.

Section FetcherExamples.
Import ErrorLogs Fetcher Containers.

Lemma logReport_counts_every_log_witness :
  Forall plainKeys Examples.errorLogs
  /\ exists r,
       logReport Examples.errorLogs = Some r
       /\ totalLogErrors r = Z.of_nat (length Examples.errorLogs)
       /\ sumCounts (errorsByType r) = totalLogErrors r
       /\ sumCounts (errorsByMessage r) <= totalLogErrors r
       /\ (if (length (errorsByMessage r) <? 20)%nat
           then sumCounts (errorsByMessage r) = totalLogErrors r
           else True)
       /\ Forall (fun e => 1 <= snd e) (errorsByType r ++ errorsByMessage r)
       /\ descending (errorsByType r)
       /\ descending (errorsByMessage r)
       /\ length (details r) = Nat.min 100 (length Examples.errorLogs).
Proof.
  assert (H : Forall plainKeys Examples.errorLogs).
  { repeat (apply List.Forall_cons; [split; reflexivity|]). apply List.Forall_nil. }
  split; [exact H|]. exact (logReport_counts_every_log Examples.errorLogs H).
Defined.

Example errorLogs_report :
  option_map (fun r => (errorsByType r, errorsByMessage r)) (logReport Examples.errorLogs)
  = Some ([("TimeoutError", 2); ("Unknown", 2)]%string,
          [("upstream timed out", 2); ("404", 1); ("No message", 1)]%string).
Proof. vm_compute. reflexivity. Qed.


Example containerResults_rows :
  match processMetrics Examples.isoString Examples.containerResults with
  | Returned out =>
      map (fun pod => (PodEntry.podName pod, PodEntry.maxCpu pod, PodEntry.restarts pod))
        (podMetrics out)
  | Raised _ => []
  end
  = [ ("orders-7c9d-a"%string, Fin (600000000 / 1000000000), Fin 0);
      ("orders-7c9d-b"%string, Inf true, Fin 0);
      ("orders-7c9d-c"%string, Fin 0, Fin 1) ].
Proof. vm_compute. reflexivity. Qed.

End FetcherExamples.

(** ** Recommendations *)

Section RecommendationFacts.

Import Generator.

Context (h : Host).

Lemma stepLatency_recommends (data : Payload.t) :
  recommendations (stepLatency h data initialReport) = []
  <-> hasHighLatency h data = false.
Proof.
  unfold stepLatency, hasHighLatency. rewrite filter_nonempty_existsb.
  destruct (existsb _ _); simpl; split; intros H; try reflexivity; discriminate H.
Qed.

Lemma stepResources_recommends (data : Payload.t) :
  recommendations (stepResources h data initialReport) = []
  <-> hasResourcePressure data = false.
Proof.
  unfold stepResources, hasResourcePressure.
  destruct (Payload.podMetrics data) as [pm|]; [|split; reflexivity].
  destruct (PodMetricsData.summary pm) as [sm|]; [|split; reflexivity].
  destruct (Summary.avgCpuPct sm) as [avgCpu|]; [|split; reflexivity].
  destruct (Qgtb (Summary.maxCpuPct sm) 80), (Qgtb (Summary.maxMemoryPct sm) 80);
    simpl; split; intros H; try reflexivity; discriminate H.
Qed.

Lemma stepRestartDetail_recommends (data : Payload.t) :
  recommendations (stepRestartDetail h data initialReport) = []
  <-> hasRestartAdvice h data = false.
Proof.
  unfold stepRestartDetail, hasRestartAdvice, inWindowRestarts, countedPods, hasLogErrors.
  destruct (podList data) as [[pm pods]|]; [|split; reflexivity].
  destruct (0 <? sumRestarts _); [|split; reflexivity].
  repeat match goal with
         | |- context [fold_left ?f ?l ?r0] =>
             let Hf := fresh "Hf" in
             let Hr := fresh "Hr" in
             destruct (fold_pushFinding_findings
                         (restartBullet h (analyzeRestartTiming h pm)) l r0) as [Hf Hr];
             destruct (fold_left f l r0) as [? ? ?]; simpl in Hf, Hr; subst
         end.
  destruct (positiveCount (logErrorCount data)),
    (existsb (fun pod => 3 <=? default 0 (Pod.restarts pod)) (podsWithRestarts h pm pods));
    simpl;
    repeat match goal with
           | |- context [if ?c then _ else _] => destruct c; simpl
           | |- context [match ?c with EmptyString => _ | String _ _ => _ end] =>
               destruct c; simpl
           end;
    unfold atLeastWarning, setStatus, pushFinding, pushRecommendation; simpl;
    repeat match goal with
           | |- context [match ?s with good => _ | warning => _ | critical => _ end] =>
               destruct s; simpl
           end;
    split; intros H; try reflexivity; discriminate H.
Qed.

(** X27: the verdict comes without any recommendation exactly when its status
    is not good and nothing that recommends has fired: no endpoint above
    one second, no CPU or memory peak above 80, and no restart advice.  A
    verdict raised only by endpoint errors, by log errors without
    restarts, or by fewer than three restarts per pod recommends
    nothing. *)
Theorem no_recommendation_iff (data : Payload.t) :
  recommendations (analyzePerformanceData h data) = []
  <-> overallStatus (analyzePerformanceData h data) <> good
      /\ hasHighLatency h data = false
      /\ hasResourcePressure data = false
      /\ hasRestartAdvice h data = false.
Proof.
  rewrite analyzePerformanceData_blocks, stepAllGood_status.
  destruct (blocks_output h data) as [_ Hr].
  assert (Hblocks :
            concat (map (fun b => recommendations (b initialReport)) (blocks h data)) = []
            <-> hasHighLatency h data = false /\ hasResourcePressure data = false
                /\ hasRestartAdvice h data = false).
  { unfold blocks. cbn [map concat].
    rewrite stepRestartSummary_no_recommendation, stepEndpointErrors_no_recommendation,
      stepLogErrors_no_recommendation, stepThroughput_no_recommendation.
    cbn [recommendations initialReport app].
    rewrite <- stepLatency_recommends, <- stepResources_recommends,
      <- stepRestartDetail_recommends, app_nil_r.
    split.
    - intros H. apply app_eq_nil in H. destruct H as [H1 H]. apply app_eq_nil in H. tauto.
    - intros (-> & -> & ->). reflexivity. }
  unfold stepAllGood.
  destruct (overallStatus (fold_left _ _ _)) eqn:Es;
    cbn [recommendations pushFinding pushRecommendation]; rewrite Hr, <- Hblocks.
  - split; [|intros [H _]; congruence].
    intros H. apply app_eq_nil in H. destruct H as [_ H]. discriminate H.
  - split; [intros H; split; [discriminate|exact H]|intros [_ H]; exact H].
  - split; [intros H; split; [discriminate|exact H]|intros [_ H]; exact H].
Qed.

End RecommendationFacts.

Example erroring_recommends_nothing :
  Generator.recommendations (Generator.analyzePerformanceData Demo.host Examples.erroring) = [].
Proof. vm_compute. reflexivity. Qed.
